(** * AI study assistant: quiz extraction, grading, retrieval and ingestion

    A shallow embedding of [src/quiz_generator.py], [src/rag.py],
    [src/ingestion.py], [src/prompts.py] and the endpoints of
    [api/main.py], with the properties the specification states about
    them and further properties read off the code.

    Python strings are sequences of Unicode code points; they are modelled
    as lists of code points ([N]).  The vector store, the language model and
    [json.loads] are external services: they appear as section variables,
    and every call to the store or the model is recorded in an event log.
    Python floats are IEEE-754 binary64 numbers with round-to-nearest-even,
    written out over [Z] and compared with [SpecFloat] on samples.  The
    disk and the vector database are a world that is passed along; the
    operations on it are section variables too. *)

From Stdlib Require Import ZArith NArith QArith Lia Lqa String Ascii List.
From Stdlib Require Import DecimalString Qabs.
From Stdlib Require SpecFloat.
From stdpp Require Import gmap list.
Import ListNotations.

Set Default Proof Using "Type".

(* ===================================================================== *)
(** ** Python strings *)
(* ===================================================================== *)

Module PyStr.

Definition char := N.
Definition pystr := list char.

(** A source literal (ASCII text) as a Python string. *)
Definition py (s : string) : pystr :=
  List.map N_of_ascii (list_ascii_of_string s).

Arguments py : simpl never.

Definition NUL : char := 0%N.
Definition NEWLINE : char := 10%N.
Definition SPACE : char := 32%N.
Definition DQUOTE : char := 34%N.
Definition BACKTICK : char := 96%N.
Definition LBRACE : char := 123%N.
Definition RBRACE : char := 125%N.

(** [str.isspace] on one code point: the characters that [str.split()] and
    [str.strip()] treat as whitespace. *)
Definition is_space (c : char) : bool :=
  ((9 <=? c) && (c <=? 13) || (28 <=? c) && (c <=? 32)
   || (c =? 133) || (c =? 160) || (c =? 5760)
   || (8192 <=? c) && (c <=? 8202)
   || (c =? 8232) || (c =? 8233) || (c =? 8239) || (c =? 8287)
   || (c =? 12288))%N.

Arguments is_space : simpl never.

(** [s.lstrip()], [s.rstrip()], [s.strip()]. *)
Fixpoint lstrip (t : pystr) : pystr :=
  match t with
  | [] => []
  | c :: r => if is_space c then lstrip r else t
  end.

Fixpoint rstrip (t : pystr) : pystr :=
  match t with
  | [] => []
  | c :: r =>
      match rstrip r with
      | [] => if is_space c then [] else [c]
      | r' => c :: r'
      end
  end.

Definition strip (t : pystr) : pystr := rstrip (lstrip t).

(** [s.split()] with no separator: the maximal runs of non-whitespace. *)
Fixpoint split_ws (t : pystr) : list pystr :=
  match t with
  | [] => []
  | c :: r =>
      if is_space c then split_ws r
      else match r with
           | [] => [[c]]
           | c' :: _ =>
               if is_space c' then [c] :: split_ws r
               else match split_ws r with
                    | w :: ws => (c :: w) :: ws
                    | [] => [[c]]
                    end
           end
  end.

(** [sep.join(parts)]. *)
Fixpoint join (sep : pystr) (parts : list pystr) : pystr :=
  match parts with
  | [] => []
  | [p] => p
  | p :: ps => p ++ sep ++ join sep ps
  end.

(** [t.startswith(p)]. *)
Fixpoint starts_with (p t : pystr) : bool :=
  match p, t with
  | [], _ => true
  | _ :: _, [] => false
  | a :: p', b :: t' => (a =? b)%N && starts_with p' t'
  end.

(** [sub in t]. *)
Fixpoint contains (sub t : pystr) : bool :=
  starts_with sub t ||
  match t with
  | [] => false
  | _ :: r => contains sub r
  end.

(** [t.partition(sep)] when [sep] occurs: the text before the first
    occurrence and the text after it. *)
Fixpoint cut (sep t : pystr) : option (pystr * pystr) :=
  if starts_with sep t then Some ([], drop (length sep) t)
  else match t with
       | [] => None
       | c :: r =>
           match cut sep r with
           | Some (a, b) => Some (c :: a, b)
           | None => None
           end
       end.

(** [t.split(sep)] for a non-empty separator: cut at the first occurrence
    and go on in the rest.  Every cut removes at least one character, so
    [length t] rounds are enough. *)
Fixpoint split_rounds (n : nat) (sep t : pystr) : list pystr :=
  match cut sep t with
  | None => [t]
  | Some (a, b) =>
      match n with
      | O => [t]
      | S n' => a :: split_rounds n' sep b
      end
  end.

Definition split_sep (sep t : pystr) : list pystr :=
  split_rounds (length t) sep t.

(** [t.replace(old, new)] for a non-empty [old]. *)
Definition replace (old new t : pystr) : pystr :=
  join new (split_sep old t).

(** Greedy [.*c]: the longest prefix of [t] that ends with [c]. *)
Fixpoint upto_last (c : char) (t : pystr) : option pystr :=
  match t with
  | [] => None
  | x :: r =>
      match upto_last c r with
      | Some m => Some (x :: m)
      | None => if (x =? c)%N then Some [x] else None
      end
  end.

(** [re.search(r'\{.*\}', t, re.DOTALL)]: the start positions are tried
    from the left; at a start position the pattern needs an opening brace,
    then the dot-star takes as much as it can give back to a closing
    brace. *)
Fixpoint re_search_braces (t : pystr) : option pystr :=
  match t with
  | [] => None
  | x :: r =>
      if (x =? LBRACE)%N then
        match upto_last RBRACE r with
        | Some m => Some (x :: m)
        | None => re_search_braces r
        end
      else re_search_braces r
  end.

End PyStr.
Export PyStr.

(* ===================================================================== *)
(** ** Exceptions *)
(* ===================================================================== *)

Inductive exn_class :=
  | IndexError | ValueError | JSONDecodeError | TypeError | AttributeError
  | OtherException.

Record exn := Exn { exn_kind : exn_class; exn_msg : pystr }.

Inductive result (A : Type) :=
  | Ok (a : A)
  | Raise (e : exn).
Arguments Ok {A} a.
Arguments Raise {A} e.

Definition rbind {A B} (r : result A) (k : A -> result B) : result B :=
  match r with
  | Ok a => k a
  | Raise e => Raise e
  end.

Declare Scope result_scope.
Delimit Scope result_scope with result.
Notation "x <- r ;; k" := (rbind r (fun x => k))
  (at level 100, r at next level, right associativity) : result_scope.

(** [l[i]] for a non-negative literal index. *)
Definition index {A} (l : list A) (i : nat) : result A :=
  match l !! i with
  | Some a => Ok a
  | None => Raise (Exn IndexError (py "list index out of range"))
  end.

(* ===================================================================== *)
(** ** [QuizGenerator._extract_json] *)
(* ===================================================================== *)

Definition fence : pystr := py "```".
Definition fence_json : pystr := py "```json".

(** The json fence without its last character: a json fence starts inside
    [pre], before the one written after [pre], exactly when
    [pre ++ fence_json_head] contains a json fence. *)
Definition fence_json_head : pystr := py "```jso".

Definition has_braces (part : pystr) : bool :=
  contains [LBRACE] part && contains [RBRACE] part.

(** The [for part in parts: ... break] loop: the first part with both
    braces replaces the text, otherwise the text stays. *)
Definition first_braced_part (parts : list pystr) (text : pystr) : pystr :=
  match List.find has_braces parts with
  | Some part => part
  | None => text
  end.

Definition _extract_json (text : pystr) : result pystr :=
  (text1 <-
     (if contains fence_json text then
        (after <- index (split_sep fence_json text) 1 ;;
         index (split_sep fence after) 0)
      else if contains fence text then
        Ok (first_braced_part (split_sep fence text) text)
      else Ok text) ;;
   let text2 :=
     match re_search_braces text1 with
     | Some m => m
     | None => text1
     end in
   Ok (strip text2))%result.


(** The text up to the first occurrence of the separator. *)
Definition head_piece (sep t : pystr) : pystr :=
  match cut sep t with
  | Some (a, _) => a
  | None => t
  end.


(** The part of [t] from the first occurrence of [c] on. *)
Fixpoint from_first (c : char) (t : pystr) : pystr :=
  match t with
  | [] => []
  | x :: r => if (x =? c)%N then t else from_first c r
  end.

(** The span from the first opening brace to the last closing brace, in the
    words of the specification: drop what precedes the first opening brace,
    then drop what follows the last closing brace. *)
Definition brace_span (t : pystr) : pystr :=
  rev (from_first RBRACE (rev (from_first LBRACE t))).

(** A text made of whitespace only. *)
Definition all_space (t : pystr) : Prop :=
  Forall (fun c => is_space c = true) t.

(* ===================================================================== *)
(** ** Python values: dictionaries, JSON data, documents *)
(* ===================================================================== *)

(** What [json.loads] returns.  A dictionary keeps its insertion order and
    is an association list with distinct keys.  A float is carried by the
    text of its literal. *)
#[warnings="-register-all"]
Inductive json :=
  | JNull
  | JBool (b : bool)
  | JInt (z : Z)
  | JFloat (literal : pystr)
  | JStr (s : pystr)
  | JList (items : list json)
  | JDict (entries : list (pystr * json)).

Definition dict := list (pystr * json).

(** [d.get(key)] *)
Fixpoint dict_get (key : pystr) (d : dict) : option json :=
  match d with
  | [] => None
  | (k, v) :: rest => if bool_decide (k = key) then Some v else dict_get key rest
  end.

(** [d.get(key, fallback)] *)
Definition dict_get_default (key : pystr) (fallback : json) (d : dict) : json :=
  match dict_get key d with
  | Some v => v
  | None => fallback
  end.

(** [d[key] = v]: an existing key keeps its place. *)
Fixpoint dict_set (key : pystr) (v : json) (d : dict) : dict :=
  match d with
  | [] => [(key, v)]
  | (k, w) :: rest =>
      if bool_decide (k = key) then (k, v) :: rest
      else (k, w) :: dict_set key v rest
  end.

(** [type(v).__name__] *)
Definition type_name (v : json) : pystr :=
  match v with
  | JNull => py "NoneType"
  | JBool _ => py "bool"
  | JInt _ => py "int"
  | JFloat _ => py "float"
  | JStr _ => py "str"
  | JList _ => py "list"
  | JDict _ => py "dict"
  end.

(** [str(z)] for an integer. *)
Definition str_of_Z (z : Z) : pystr :=
  py (NilZero.string_of_int (Z.to_int z)).

(** Values of a chunk's metadata: the ingestion writes file names, page
    numbers and type tags, and the vector store keeps scalars only. *)
Inductive meta :=
  | MStr (s : pystr)
  | MInt (z : Z)
  | MBool (b : bool).

#[global] Instance meta_eq_dec : EqDecision meta.
Proof. solve_decision. Defined.

#[global] Instance meta_countable : Countable meta.
Proof.
  refine (inj_countable'
            (fun m => match m with
                      | MStr s => inl s
                      | MInt z => inr (inl z)
                      | MBool b => inr (inr b)
                      end)
            (fun x => match x with
                      | inl s => MStr s
                      | inr (inl z) => MInt z
                      | inr (inr b) => MBool b
                      end) _).
  intros []; reflexivity.
Defined.

(** [str(v)], as an f-string renders a metadata value. *)
Definition str_of_meta (m : meta) : pystr :=
  match m with
  | MStr s => s
  | MInt z => str_of_Z z
  | MBool true => py "True"
  | MBool false => py "False"
  end.

Definition json_of_meta (m : meta) : json :=
  match m with
  | MStr s => JStr s
  | MInt z => JInt z
  | MBool b => JBool b
  end.

(** A retrieved chunk: LangChain's [Document]. *)
Record Document := {
  page_content : pystr;
  metadata : list (pystr * meta)
}.

(** [doc.metadata.get(key, fallback)] *)
Fixpoint meta_get (key : pystr) (fallback : meta) (md : list (pystr * meta))
  : meta :=
  match md with
  | [] => fallback
  | (k, v) :: rest =>
      if bool_decide (k = key) then v else meta_get key fallback rest
  end.

(** The integer that a value is equal to, for the comparison [==] and for
    [hash]: [True] is the integer 1 and [False] the integer 0.  Every other
    value stands for itself. *)
Definition eq_class (m : meta) : meta :=
  match m with
  | MBool true => MInt 1
  | MBool false => MInt 0
  | MStr _ | MInt _ => m
  end.

(** [a == b]: a string equals the same string only, an integer equals
    the same integer and the boolean that stands for it. *)
Definition py_eq (a b : meta) : bool := bool_decide (eq_class a = eq_class b).

(** [list(set(xs))]: a set holds one value of each class of equal values,
    the one of [xs] that was inserted first; the order is the set's own. *)
Definition list_of_set (xs : list meta) : list meta :=
  omap (fun k => snd <$> list_find (fun x => eq_class x = k) xs)
    (elements (list_to_set (eq_class <$> xs) : gset meta)).

(* ===================================================================== *)
(** ** Calls to the vector store and to the language model *)
(* ===================================================================== *)

Inductive event :=
  | SearchCall (query : pystr) (k : Z)
  | LlmCall (prompt : pystr).

(** A computation that may raise and that logs its calls to the outside. *)
Definition Eff (A : Type) : Type := list event -> result A * list event.

Definition eret {A} (a : A) : Eff A := fun log => (Ok a, log).

Definition eraise {A} (e : exn) : Eff A := fun log => (Raise e, log).

Definition ebind {A B} (m : Eff A) (k : A -> Eff B) : Eff B :=
  fun log =>
    match m log with
    | (Ok a, log') => k a log'
    | (Raise e, log') => (Raise e, log')
    end.

(** The outcome of [m], exception included, as a value. *)
Definition ecatch {A} (m : Eff A) : Eff (result A) :=
  fun log => let (r, log') := m log in (Ok r, log').

Definition run {A} (m : Eff A) : result A * list event := m [].

Declare Scope eff_scope.
Delimit Scope eff_scope with eff.
Notation "x <~ m ;; k" := (ebind m (fun x => k))
  (at level 100, m at next level, right associativity) : eff_scope.

(* ===================================================================== *)
(** ** Prompt templates ([src/prompts.py]) *)
(* ===================================================================== *)

Module Prompts.

Definition nl : pystr := [NEWLINE].
Definition dq : pystr := [DQUOTE].

(** A template is a function of its fields: [str.format] substitutes them
    in one pass and writes a doubled brace as a single one. *)
Definition QA_PROMPT_TEMPLATE (context question : pystr) : pystr :=
  py "You are a helpful tutoring assistant. Answer the student's question using ONLY the context provided below." ++ nl
  ++ nl
  ++ py "Rules:" ++ nl
  ++ py "1. If the answer is in the context, provide a clear explanation" ++ nl
  ++ py "2. If the answer is NOT in the context, say " ++ dq
  ++ py "I don't have enough information from your materials to answer this."
  ++ dq ++ nl
  ++ py "3. Keep answers concise but complete" ++ nl
  ++ py "4. Cite the source when possible" ++ nl
  ++ nl
  ++ py "Context:" ++ nl
  ++ context ++ nl
  ++ nl
  ++ py "Question: " ++ question ++ nl
  ++ nl
  ++ py "Answer:".

Definition SUMMARIZATION_PROMPT_TEMPLATE (context summary_type : pystr)
  : pystr :=
  py "Summarize the following study material content." ++ nl
  ++ nl
  ++ py "Content:" ++ nl
  ++ context ++ nl
  ++ nl
  ++ py "Create a " ++ summary_type ++ py " summary:" ++ nl
  ++ py "- short: 2-3 sentences" ++ nl
  ++ py "- bullets: 5-7 bullet points" ++ nl
  ++ py "- detailed: comprehensive paragraph" ++ nl
  ++ py "- eli15: explain like I'm 15 years old" ++ nl
  ++ nl
  ++ py "Summary:".

Definition QUIZ_GENERATION_PROMPT (num_questions : Z)
  (context difficulty : pystr) : pystr :=
  py "Generate " ++ str_of_Z num_questions
  ++ py " multiple-choice questions from this content. Difficulty: "
  ++ difficulty ++ nl
  ++ nl
  ++ py "Content:" ++ nl
  ++ context ++ nl
  ++ nl
  ++ py "IMPORTANT: Return ONLY valid JSON with no extra text. Use this exact format:" ++ nl
  ++ nl
  ++ py "{" ++ nl
  ++ py "  " ++ dq ++ py "questions" ++ dq ++ py ": [" ++ nl
  ++ py "    {" ++ nl
  ++ py "      " ++ dq ++ py "question" ++ dq ++ py ": " ++ dq
  ++ py "What is X?" ++ dq ++ py "," ++ nl
  ++ py "      " ++ dq ++ py "options" ++ dq ++ py ": {" ++ nl
  ++ py "        " ++ dq ++ py "A" ++ dq ++ py ": " ++ dq ++ py "option 1"
  ++ dq ++ py "," ++ nl
  ++ py "        " ++ dq ++ py "B" ++ dq ++ py ": " ++ dq ++ py "option 2"
  ++ dq ++ py ", " ++ nl
  ++ py "        " ++ dq ++ py "C" ++ dq ++ py ": " ++ dq ++ py "option 3"
  ++ dq ++ py "," ++ nl
  ++ py "        " ++ dq ++ py "D" ++ dq ++ py ": " ++ dq ++ py "option 4"
  ++ dq ++ nl
  ++ py "      }," ++ nl
  ++ py "      " ++ dq ++ py "correct_answer" ++ dq ++ py ": " ++ dq
  ++ py "A" ++ dq ++ py "," ++ nl
  ++ py "      " ++ dq ++ py "explanation" ++ dq ++ py ": " ++ dq
  ++ py "Brief explanation" ++ dq ++ nl
  ++ py "    }" ++ nl
  ++ py "  ]" ++ nl
  ++ py "}" ++ nl
  ++ nl
  ++ py "JSON:".

Definition DEFINITION_EXTRACTION_PROMPT (context : pystr) : pystr :=
  py "Extract all key definitions and terms from this content." ++ nl
  ++ nl
  ++ py "Content:" ++ nl
  ++ context ++ nl
  ++ nl
  ++ py "Format each as:" ++ nl
  ++ py "Term: [term name]" ++ nl
  ++ py "Definition: [clear definition]" ++ nl
  ++ nl
  ++ py "List:".

End Prompts.
Export Prompts.

(* ===================================================================== *)
(** ** [RAGSystem] ([src/rag.py]) and [QuizGenerator.generate_quiz] *)
(* ===================================================================== *)

Record Citation := {
  source : meta;
  page : meta;
  excerpt : pystr
}.

Record AnswerResult := {
  answer : pystr;
  sources : list Citation
}.

Record SummaryResult := {
  summary : pystr;
  summary_sources : list meta
}.

Record DefinitionsResult := {
  definitions : pystr;
  definitions_sources : list meta
}.

Definition para : pystr := [NEWLINE; NEWLINE].

(** [doc.metadata.get('source', 'unknown')], [doc.metadata.get('page', 'N/A')] *)
Definition doc_source (doc : Document) : meta :=
  meta_get (py "source") (MStr (py "unknown")) (metadata doc).

Definition doc_page (doc : Document) : meta :=
  meta_get (py "page") (MStr (py "N/A")) (metadata doc).

(** One entry of the question-answering context. *)
Definition qa_context_entry (doc : Document) : pystr :=
  py "[Source: " ++ str_of_meta (doc_source doc) ++ py ", Page: "
  ++ str_of_meta (doc_page doc) ++ py "]" ++ [NEWLINE] ++ page_content doc.

Definition make_citation (doc : Document) : Citation :=
  {| source := doc_source doc;
     page := doc_page doc;
     excerpt := take 200 (page_content doc) ++ py "..." |}.

(** The context of [generate_quiz]: lines 62 and 63. *)
Definition quiz_context (relevant_docs : list Document) : pystr :=
  take 3000 (join para (List.map page_content (take 8 relevant_docs))).

(** The shape test of [generate_quiz], line 87, on whatever [json.loads]
    returned: [in] and the subscript raise [TypeError] on values that are
    not dictionaries. *)
Definition is_questions_str (v : json) : bool :=
  match v with
  | JStr s => bool_decide (s = py "questions")
  | _ => false
  end.

(** A parsed value that passes the shape test: a dictionary whose
    ["questions"] entry is a list. *)
Definition has_questions_list (v : json) : Prop :=
  exists d items, v = JDict d /\ dict_get (py "questions") d = Some (JList items).

(** The query that [summarize] sends to the store. *)
Definition summary_query (query : option pystr) : pystr :=
  match query with
  | Some (c :: q) => c :: q
  | Some [] | None => py "overview main concepts key topics"
  end.

Section World.

(** The vector store, the language model and the JSON parser. *)
Variable similarity_search : pystr -> Z -> result (list Document).
Variable llm_invoke : pystr -> result pystr.
Variable json_loads : pystr -> result json.
(** The interpreter's wording of a [TypeError] raised on a value. *)
Variable type_error_text : json -> pystr.

Definition search (query : pystr) (k : Z) : Eff (list Document) :=
  fun log => (similarity_search query k, log ++ [SearchCall query k]).

Definition invoke (prompt : pystr) : Eff pystr :=
  fun log => (llm_invoke prompt, log ++ [LlmCall prompt]).

Definition ask_question (question : pystr) (k : Z) : Eff AnswerResult :=
  (relevant_docs <~ search question k ;;
   match relevant_docs with
   | [] =>
       eret {| answer :=
                 py "I couldn't find relevant information in your study materials.";
               sources := [] |}
   | _ :: _ =>
       let context := join para (List.map qa_context_entry relevant_docs) in
       let prompt := QA_PROMPT_TEMPLATE context question in
       (answer <~ invoke prompt ;;
        eret {| answer := answer;
                sources := List.map make_citation relevant_docs |})
   end)%eff.

(** [if query:] holds for a string that is neither [None] nor empty. *)
Definition summarize (query : option pystr) (summary_type : pystr) (k : Z)
  : Eff SummaryResult :=
  (relevant_docs <~
     match query with
     | Some (c :: q) => search (c :: q) k
     | Some [] | None => search (py "overview main concepts key topics") k
     end ;;
   match relevant_docs with
   | [] =>
       eret {| summary := py "No content found to summarize.";
               summary_sources := [] |}
   | _ :: _ =>
       let context := join para (List.map page_content relevant_docs) in
       let prompt :=
         SUMMARIZATION_PROMPT_TEMPLATE (take 4000 context) summary_type in
       (summary <~ invoke prompt ;;
        eret {| summary := summary;
                summary_sources :=
                  list_of_set (List.map doc_source relevant_docs) |})
   end)%eff.

Definition extract_definitions (query : pystr) (k : Z)
  : Eff DefinitionsResult :=
  (relevant_docs <~ search query k ;;
   match relevant_docs with
   | [] =>
       eret {| definitions := py "No definitions found.";
               definitions_sources := [] |}
   | _ :: _ =>
       let context := join para (List.map page_content relevant_docs) in
       let prompt := DEFINITION_EXTRACTION_PROMPT (take 4000 context) in
       (definitions <~ invoke prompt ;;
        eret {| definitions := definitions;
                definitions_sources :=
                  list_of_set (List.map doc_source relevant_docs) |})
   end)%eff.

(** Line 87: [if "questions" not in quiz_data or not
    isinstance(quiz_data["questions"], list): raise ValueError(...)].
    Returns the dictionary when the test lets it pass. *)
Definition check_structure (quiz_data : json) : result dict :=
  let invalid := Raise (Exn ValueError (py "Invalid quiz structure")) in
  match quiz_data with
  | JDict d =>
      match dict_get (py "questions") d with
      | Some (JList _) => Ok d
      | _ => invalid
      end
  | JList items =>
      if existsb is_questions_str items
      then Raise (Exn TypeError (type_error_text quiz_data))
      else invalid
  | JStr s =>
      if contains (py "questions") s
      then Raise (Exn TypeError (type_error_text quiz_data))
      else invalid
  | _ => Raise (Exn TypeError (type_error_text quiz_data))
  end.

(** [len(quiz_data.get("questions", []))] once the shape test has passed. *)
Definition questions_count (d : dict) : Z :=
  match dict_get (py "questions") d with
  | Some (JList items) => Z.of_nat (length items)
  | _ => 0
  end.

(** Lines 91 to 96. *)
Definition quiz_metadata (topic difficulty : pystr) (d : dict)
  (relevant_docs : list Document) : json :=
  JDict [ (py "topic", JStr topic);
          (py "difficulty", JStr difficulty);
          (py "num_questions", JInt (questions_count d));
          (py "sources",
           JList (List.map json_of_meta
                    (list_of_set
                       (List.map doc_source (take 5 relevant_docs))))) ].

(** The [try] block and its two handlers.  The handlers read the local
    variable [quiz_text], which is unbound until the model has answered and
    holds the extracted text once [_extract_json] has returned. *)
Definition parse_failure (e : exn) (quiz_text : option pystr) : dict :=
  [ (py "error", JStr (py "Failed to parse quiz JSON: " ++ exn_msg e));
    (py "raw_response",
     JStr match quiz_text with
          | Some t => t
          | None => py "No response"
          end);
    (py "questions", JList []) ].

Definition generation_failure (e : exn) : dict :=
  [ (py "error", JStr (py "Quiz generation failed: " ++ exn_msg e));
    (py "questions", JList []) ].

Definition handle_failure (e : exn) (quiz_text : option pystr) : dict :=
  match exn_kind e with
  | JSONDecodeError => parse_failure e quiz_text
  | _ => generation_failure e
  end.

(** One step of the [try] block: on an exception the handlers run with
    the value [quiz_text] has at that point. *)
Definition attempt {A} (step : result A) (quiz_text : option pystr)
  (continue : A -> dict) : dict :=
  match step with
  | Ok a => continue a
  | Raise e => handle_failure e quiz_text
  end.

Definition generate_quiz (topic : pystr) (num_questions : Z)
  (difficulty : pystr) (k : Z) : Eff dict :=
  (relevant_docs <~ search topic k ;;
   match relevant_docs with
   | [] =>
       eret [ (py "error",
               JStr (py "No relevant content found for quiz generation"));
              (py "questions", JList []) ]
   | _ :: _ =>
       let context := quiz_context relevant_docs in
       let prompt := QUIZ_GENERATION_PROMPT num_questions context difficulty in
       (reply <~ ecatch (invoke prompt) ;;
        eret
          (attempt reply None (fun raw =>
           attempt (_extract_json raw) (Some raw) (fun quiz_text =>
           attempt (json_loads quiz_text) (Some quiz_text) (fun quiz_data =>
           attempt (check_structure quiz_data) (Some quiz_text) (fun d =>
             dict_set (py "metadata")
               (quiz_metadata topic difficulty d relevant_docs) d))))))
   end)%eff.

End World.

(* ===================================================================== *)
(** ** Python floats: IEEE 754 binary64 *)
(* ===================================================================== *)

(** The score of a quiz is computed with a true division of two integers,
    a float multiplication and [round(_, 1)].  Each of them returns the
    double nearest to the exact result, ties going to the even mantissa.
    Only finite doubles that are not negative occur (the score lies
    between 0 and 100); such a double is [mant * 2 ^ expo], with [mant]
    below [2 ^ 53] and at least [2 ^ 52] unless [expo] is the least
    exponent, -1074. *)
Module Binary64.

Record float := Float { mant : Z; expo : Z }.

Definition prec : Z := 53.
Definition emin : Z := -1074.


(** [a / b] rounded to the nearest integer, ties to even ([0 <= a],
    [0 < b]). *)
Definition round_half_even (a b : Z) : Z :=
  let k := (a / b)%Z in
  match (2 * (a mod b) ?= b)%Z with
  | Lt => k
  | Gt => (k + 1)%Z
  | Eq => if Z.even k then k else (k + 1)%Z
  end.

(** The integer part of the binary logarithm of [p / q] ([0 < p],
    [0 < q]), read off the integer quotient of [p * 2 ^ 1100] by [q].  It
    is exact for a quotient of at least [2 ^ -1100]; below that the
    exponent of the double is the least one whatever the logarithm. *)
Definition floor_log2 (p q : Z) : Z :=
  (Z.log2 (p * 2 ^ 1100 / q) - 1100)%Z.

(** The double nearest to [p / q] ([0 <= p], [0 < q]), ties to even. *)
Definition round_nearest_even (p q : Z) : float :=
  if (p =? 0)%Z then Float 0 emin
  else
    let e := Z.max (floor_log2 p q - (prec - 1)) emin in
    let m :=
      if (0 <=? e)%Z then round_half_even p (q * 2 ^ e)
      else round_half_even (p * 2 ^ (- e)) q in
    if (m =? 2 ^ prec)%Z then Float (2 ^ (prec - 1)) (e + 1) else Float m e.

(** [float(z)] *)
Definition of_Z (z : Z) : float := round_nearest_even z 1.

(** [a / b] on integers: the nearest double to the quotient. *)
Definition truediv (a b : Z) : float := round_nearest_even a b.

(** [x * y] on floats. *)
Definition mul (x y : float) : float :=
  let m := (mant x * mant y)%Z in
  let e := (expo x + expo y)%Z in
  if (0 <=? e)%Z then round_nearest_even (m * 2 ^ e) 1
  else round_nearest_even m (2 ^ (- e)).

(** The number of tenths nearest to [x], ties to even: the digits that
    [round(x, 1)] and the format [.1f] produce. *)
Definition tenths (x : float) : Z :=
  if (0 <=? expo x)%Z then (10 * mant x * 2 ^ expo x)%Z
  else round_half_even (10 * mant x) (2 ^ (- expo x)).

(** [round(x, 1)]: the decimal with one digit nearest to [x], read back as
    a double. *)
Definition round1 (x : float) : float := round_nearest_even (tenths x) 10.

(** The same double in the Standard Library's specification of IEEE 754
    arithmetic, and the library's own conversion, division and product at
    binary64 (53 bits, exponents below 1024). *)
Definition to_spec (x : float) : SpecFloat.spec_float :=
  if (mant x =? 0)%Z then SpecFloat.S754_zero false
  else SpecFloat.S754_finite false (Z.to_pos (mant x)) (expo x).

Definition spec_of_Z (z : Z) : SpecFloat.spec_float :=
  SpecFloat.binary_normalize 53 1024 z 0 false.

Definition spec_div (a b : Z) : SpecFloat.spec_float :=
  SpecFloat.SFdiv 53 1024 (spec_of_Z a) (spec_of_Z b).

Definition spec_percent (a b : Z) : SpecFloat.spec_float :=
  SpecFloat.SFmul 53 1024 (spec_div a b) (spec_of_Z 100).

Definition same_spec (x y : SpecFloat.spec_float) : bool :=
  match x, y with
  | SpecFloat.S754_zero s, SpecFloat.S754_zero s' => Bool.eqb s s'
  | SpecFloat.S754_finite s m e, SpecFloat.S754_finite s' m' e' =>
      Bool.eqb s s' && (m =? m')%positive && (e =? e')%Z
  | _, _ => false
  end.

(** The scores of all quizzes of [n] questions at most, compared with the
    library's arithmetic. *)
Definition agrees_up_to (n : nat) : bool :=
  forallb
    (fun total =>
       forallb
         (fun correct =>
            same_spec (to_spec (truediv correct total))
              (spec_div correct total)
            && same_spec (to_spec (mul (truediv correct total) (of_Z 100)))
                 (spec_percent correct total))
         (List.map Z.of_nat (seq 0 (S (Z.to_nat total)))))
    (List.map Z.of_nat (seq 1 n)).

End Binary64.

(** A Python number: [grade_quiz] returns the integer [0] for an empty
    quiz and a float otherwise. *)
Inductive pynum :=
  | PyInt (z : Z)
  | PyFloat (x : Binary64.float).

(* ===================================================================== *)
(** ** [QuizGenerator.grade_quiz] *)
(* ===================================================================== *)

(** One record of the [results] list.  [graded_question] is
    [question.get("question")], [None] when the key is missing. *)
Record GradedAnswer := {
  question_number : Z;
  graded_question : option json;
  user_answer : pystr;
  correct_answer : pystr;
  is_correct : bool;
  explanation : json
}.

Record GradeResult := {
  score : pynum;
  correct : nat;
  total : nat;
  percentage : pystr;
  results : list GradedAnswer
}.

(** The format [.1f] of a number with [k] tenths, followed by a percent
    sign. *)
Definition percent_text (k : Z) : pystr :=
  str_of_Z (k / 10) ++ py "." ++ str_of_Z (k mod 10) ++ py "%".

Section Grading.

(** [str.upper], the case mapping of the interpreter. *)
Variable upper : pystr -> pystr.

(** [v.upper()] on the value of a dictionary: only a string has the
    method. *)
Definition upper_of (v : json) : result pystr :=
  match v with
  | JStr s => Ok (upper s)
  | _ =>
      Raise (Exn AttributeError
               (py "'" ++ type_name v
                ++ py "' object has no attribute 'upper'"))
  end.

(** The body of the loop, for the question at index [idx]. *)
Definition grade_one (user_answers : gmap Z pystr) (idx : nat)
  (question : dict) : result GradedAnswer :=
  (let user_answer :=
     upper (default [] (user_answers !! Z.of_nat idx)) in
   correct_answer <-
     upper_of (dict_get_default (py "correct_answer") (JStr []) question) ;;
   let is_correct := bool_decide (user_answer = correct_answer) in
   Ok {| question_number := Z.of_nat idx + 1;
         graded_question := dict_get (py "question") question;
         user_answer :=
           match user_answer with
           | [] => py "Not answered"
           | _ :: _ => user_answer
           end;
         correct_answer := correct_answer;
         is_correct := is_correct;
         explanation :=
           dict_get_default (py "explanation") (JStr []) question |})%result.

(** The loop [for idx, question in enumerate(questions)], from index [idx]
    on, with the two accumulators. *)
Fixpoint grade_loop (user_answers : gmap Z pystr) (idx : nat)
  (questions : list dict) (results : list GradedAnswer)
  (correct_count : nat) : result (list GradedAnswer * nat) :=
  match questions with
  | [] => Ok (results, correct_count)
  | question :: rest =>
      (graded <- grade_one user_answers idx question ;;
       grade_loop user_answers (S idx) rest (results ++ [graded])
         (if is_correct graded then S correct_count else correct_count))
      %result
  end.

Definition grade_quiz (questions : list dict) (user_answers : gmap Z pystr)
  : result GradeResult :=
  (looped <- grade_loop user_answers 0 questions [] 0 ;;
   let '(results, correct_count) := looped in
   match questions with
   | [] =>
       Ok {| score := PyInt 0;
             correct := correct_count;
             total := length questions;
             percentage := percent_text 0;
             results := results |}
   | _ :: _ =>
       let score :=
         Binary64.mul
           (Binary64.truediv (Z.of_nat correct_count)
              (Z.of_nat (length questions)))
           (Binary64.of_Z 100) in
       Ok {| score := PyFloat (Binary64.round1 score);
             correct := correct_count;
             total := length questions;
             percentage := percent_text (Binary64.tenths score);
             results := results |}
   end)%result.

End Grading.

(** The answer key of a question as the grader reads it: the string under
    ["correct_answer"], the empty string when the key is missing; no key
    when the value is not a string. *)
Definition answer_key (question : dict) : option pystr :=
  match dict_get (py "correct_answer") question with
  | None => Some []
  | Some (JStr s) => Some s
  | Some _ => None
  end.

(** A question that the grader can read: its answer key is a string or is
    missing. *)
Definition has_key (question : dict) : Prop := is_Some (answer_key question).

(** The answer given at index [idx] matches the key of the question. *)
Definition answer_matches (upper : pystr -> pystr)
  (user_answers : gmap Z pystr) (idx : nat) (question : dict) : bool :=
  match answer_key question with
  | Some key =>
      bool_decide (upper (default [] (user_answers !! Z.of_nat idx))
                   = upper key)
  | None => false
  end.

(** The number of matching answers among the questions, the first of which
    has index [idx]. *)
Fixpoint count_correct (upper : pystr -> pystr)
  (user_answers : gmap Z pystr) (idx : nat) (questions : list dict) : nat :=
  match questions with
  | [] => 0
  | question :: rest =>
      (if answer_matches upper user_answers idx question then 1 else 0)
      + count_correct upper user_answers (S idx) rest
  end.

(** Upper case on ASCII letters, where [str.upper] maps [a] to [z] onto
    [A] to [Z] and keeps every other ASCII character. *)
Definition ascii_upper_char (c : char) : char :=
  if ((97 <=? c) && (c <=? 122))%N then (c - 32)%N else c.

Definition ascii_upper (s : pystr) : pystr := List.map ascii_upper_char s.

Definition is_ascii (s : pystr) : bool := forallb (fun c => (c <? 128)%N) s.

(* ===================================================================== *)
(** ** [DocumentIngestion] ([src/ingestion.py]) *)
(* ===================================================================== *)

(** The dictionaries that the two extractors build. *)
Record RawDoc := {
  content : pystr;
  raw_metadata : list (pystr * meta)
}.

Definition clean_text (text : pystr) : pystr :=
  let text := join [SPACE] (split_ws text) in
  let text := replace [NUL] [] text in
  strip text.

(** The loop of [process_documents] that cleans the extracted texts and
    skips the short ones. *)
Fixpoint clean_documents (raw_docs : list RawDoc) : list Document :=
  match raw_docs with
  | [] => []
  | doc :: rest =>
      let cleaned_text := clean_text (content doc) in
      match cleaned_text with
      | [] => clean_documents rest
      | _ :: _ =>
          if (50 <? length cleaned_text)%nat
          then {| page_content := cleaned_text;
                  metadata := raw_metadata doc |} :: clean_documents rest
          else clean_documents rest
      end
  end.

(** The clean-up in the words of the specification: every run of
    whitespace becomes one space, the null characters go, the text is
    trimmed. *)
Fixpoint collapse_whitespace (t : pystr) : pystr :=
  match t with
  | [] => []
  | c :: r =>
      if is_space c then
        match r with
        | [] => [SPACE]
        | c' :: _ =>
            if is_space c' then collapse_whitespace r
            else SPACE :: collapse_whitespace r
        end
      else c :: collapse_whitespace r
  end.

Definition strip_nulls (t : pystr) : pystr :=
  List.filter (fun c => negb (c =? NUL)%N) t.

Definition cleanup_spec (t : pystr) : pystr :=
  strip (strip_nulls (collapse_whitespace t)).

Section Files.

(** The file system and the libraries around it: [open(path).read()],
    the pages of [pypdf.PdfReader] with the outcome of [extract_text] on
    each, [Path(path).name], [Path(path).suffix.lower()] and the text
    splitter. *)
Variable read_text : pystr -> result pystr.
Variable pdf_pages : pystr -> result (list (result pystr)).
Variable path_name : pystr -> pystr.
Variable path_suffix_lower : pystr -> pystr.
Variable split_documents : list Document -> list Document.

(** The page loop of [extract_text_from_pdf]: an exception ends the loop
    and the pages read so far are returned. *)
Fixpoint pdf_loop (filename : pystr) (page_num : Z)
  (pages : list (result pystr)) (documents : list RawDoc) : list RawDoc :=
  match pages with
  | [] => documents
  | Raise _ :: _ => documents
  | Ok text :: rest =>
      pdf_loop filename (page_num + 1) rest
        match strip text with
        | [] => documents
        | _ :: _ =>
            documents ++
            [ {| content := text;
                 raw_metadata := [ (py "source", MStr filename);
                                   (py "page", MInt page_num);
                                   (py "type", MStr (py "pdf")) ] |} ]
        end
  end.

Definition extract_text_from_pdf (pdf_path : pystr) : list RawDoc :=
  match pdf_pages pdf_path with
  | Raise _ => []
  | Ok pages => pdf_loop (path_name pdf_path) 1 pages []
  end.

Definition extract_text_from_txt (txt_path : pystr) : list RawDoc :=
  match read_text txt_path with
  | Raise _ => []
  | Ok text =>
      [ {| content := text;
           raw_metadata := [ (py "source", MStr (path_name txt_path));
                             (py "type", MStr (py "txt")) ] |} ]
  end.

Definition process_documents (file_path : pystr) : result (list Document) :=
  (let file_extension := path_suffix_lower file_path in
   raw_docs <-
     (if bool_decide (file_extension = py ".pdf")
      then Ok (extract_text_from_pdf file_path)
      else if bool_decide (file_extension = py ".txt")
      then Ok (extract_text_from_txt file_path)
      else Raise (Exn ValueError
                    (py "Unsupported file type: " ++ file_extension))) ;;
   match raw_docs with
   | [] => Raise (Exn ValueError (py "No content extracted from document"))
   | _ :: _ => Ok (split_documents (clean_documents raw_docs))
   end)%result.

End Files.

(* ===================================================================== *)
(** ** The pages of a PDF, numbered *)
(* ===================================================================== *)

(** [enumerate(items, start)] *)
Fixpoint enumerate {A} (start : Z) (items : list A) : list (Z * A) :=
  match items with
  | [] => []
  | item :: rest => (start, item) :: enumerate (start + 1) rest
  end.

(** The dictionary that [extract_text_from_pdf] appends for a page. *)
Definition page_document (filename : pystr) (numbered : Z * pystr) : RawDoc :=
  {| content := snd numbered;
     raw_metadata := [ (py "source", MStr filename);
                       (py "page", MInt (fst numbered));
                       (py "type", MStr (py "pdf")) ] |}.

(** [if text.strip():] *)
Definition has_text (numbered : Z * pystr) : bool :=
  match strip (snd numbered) with
  | [] => false
  | _ :: _ => true
  end.

(** A character that is neither whitespace nor the null character. *)
Definition visible (c : char) : bool := negb (is_space c) && negb (c =? NUL)%N.

(** No two whitespace characters in a row. *)
Fixpoint single_spaced (t : pystr) : bool :=
  match t with
  | c :: r =>
      match r with
      | c' :: _ => negb (is_space c && is_space c') && single_spaced r
      | [] => true
      end
  | [] => true
  end.

(** A word: what [str.split()] returns as an item. *)
Definition is_word (w : pystr) : Prop :=
  w <> [] /\ Forall (fun c => is_space c = false) w.

(* ===================================================================== *)
(** ** The vector stores on disk ([src/ingestion.py]) *)
(* ===================================================================== *)

(** The exceptions of the file system and of the vector store.  The
    ingestion raises and handles [FileNotFoundError]; every other class is
    one of the classes above. *)
Inductive raised :=
  | Builtin (e : exn)
  | FileNotFoundError (message : pystr).

(** [str(e)] *)
Definition str_of_raised (e : raised) : pystr :=
  match e with
  | Builtin e => exn_msg e
  | FileNotFoundError message => message
  end.

Inductive outcome (A : Type) :=
  | Returns (a : A)
  | Raises (e : raised).
Arguments Returns {A} a.
Arguments Raises {A} e.

(** A computation on the world [W] (the disk and the collections of the
    vector database) that may raise. *)
Definition IO (W A : Type) : Type := W -> outcome A * W.

Definition io_ret {W A} (a : A) : IO W A := fun w => (Returns a, w).

Definition io_raise {W A} (e : raised) : IO W A := fun w => (Raises e, w).

Definition io_bind {W A B} (m : IO W A) (k : A -> IO W B) : IO W B :=
  fun w =>
    match m w with
    | (Returns a, w') => k a w'
    | (Raises e, w') => (Raises e, w')
    end.

Declare Scope io_scope.
Delimit Scope io_scope with io.
Notation "x <~ m ;; k" := (io_bind m (fun x => k))
  (at level 100, m at next level, right associativity) : io_scope.

Section VectorStores.

(** The world, and a handle on a collection of the vector database. *)
Variable W : Type.
Variable store : Type.

(** [os.path.join], [os.path.exists], [os.makedirs(path, exist_ok=True)],
    [Chroma.from_documents(documents, embedding, persist_directory,
    collection_name)], [Chroma(persist_directory, embedding_function,
    collection_name)], [vector_store.add_documents(documents)], and the
    writing of a JSON file: [open(path, 'w')] with [json.dump]. *)
Variable path_join : pystr -> pystr -> pystr.
Variable path_exists : pystr -> W -> bool.
Variable makedirs : pystr -> IO W unit.
Variable from_documents : list Document -> pystr -> pystr -> IO W store.
Variable chroma : pystr -> pystr -> IO W store.
Variable add_documents : store -> list Document -> IO W unit.
Variable dump_json : pystr -> json -> IO W unit.

(** [self.vector_store_path] *)
Variable vector_store_path : pystr.

Definition create_vector_store (documents : list Document)
  (store_name : pystr) : IO W store :=
  match documents with
  | [] => io_raise (Builtin (Exn ValueError (py "No documents to index")))
  | _ :: _ =>
      let store_path := path_join vector_store_path store_name in
      (_ <~ makedirs store_path ;;
       vector_store <~ from_documents documents store_path store_name ;;
       let metadata :=
         JDict [ (py "num_documents", JInt (Z.of_nat (length documents)));
                 (py "sources",
                  JList (List.map json_of_meta
                           (list_of_set (List.map doc_source documents))));
                 (py "store_name", JStr store_name) ] in
       _ <~ dump_json (path_join store_path (py "metadata.json")) metadata ;;
       io_ret vector_store)%io
  end.

Definition load_vector_store (store_name : pystr) : IO W store :=
  let store_path := path_join vector_store_path store_name in
  fun w =>
    if path_exists store_path w then chroma store_path store_name w
    else (Raises (FileNotFoundError
                    (py "Vector store not found at " ++ store_path)), w).

(** The [try] block loads the store and adds the documents; its handler
    takes every [FileNotFoundError] of the block. *)
Definition add_documents_to_existing_store (documents : list Document)
  (store_name : pystr) : IO W store :=
  fun w =>
    match (vector_store <~ load_vector_store store_name ;;
           _ <~ add_documents vector_store documents ;;
           io_ret vector_store)%io w with
    | (Raises (FileNotFoundError _), w') =>
        create_vector_store documents store_name w'
    | other => other
    end.

End VectorStores.

Arguments create_vector_store {W store}.
Arguments load_vector_store {W store}.
Arguments add_documents_to_existing_store {W store}.

(* ===================================================================== *)
(** ** Sample data for the worked examples *)
(* ===================================================================== *)

Module Samples.

(** A chunk of [n] letters from a given file and page. *)
Definition chunk (n : nat) (file : pystr) (page_num : Z) : Document :=
  {| page_content := List.repeat 120%N n;
     metadata := [ (py "source", MStr file); (py "page", MInt page_num);
                   (py "type", MStr (py "pdf")) ] |}.

(** Ten chunks of 500 characters: the first one and nine more. *)
Definition first_chunk : Document := chunk 500 (py "notes.pdf") 1.

Definition more_chunks : list Document :=
  List.map (fun i => chunk 500 (py "notes.pdf") (Z.of_nat i)) (seq 2 9).

Definition ten_chunks : list Document := first_chunk :: more_chunks.

(** A store that returns the same chunks for every query, and an empty
    store. *)
Definition store_of (docs : list Document)
  : pystr -> Z -> result (list Document) :=
  fun _ _ => Ok docs.

(** A model that always gives the same reply. *)
Definition model_of (reply : pystr) : pystr -> result pystr :=
  fun _ => Ok reply.

(** The text of the object [{"quiz": []}] and of [{"questions": []}]. *)
Definition quiz_key_text : pystr :=
  py "{" ++ dq ++ py "quiz" ++ dq ++ py ": []}".

Definition questions_text : pystr :=
  py "{" ++ dq ++ py "questions" ++ dq ++ py ": []}".

(** The same object without its two braces. *)
Definition questions_body : pystr :=
  dq ++ py "questions" ++ dq ++ py ": []".

(** [json.loads] on the texts of these examples. *)
Definition loads_sample (text : pystr) : result json :=
  if bool_decide (text = quiz_key_text)
  then Ok (JDict [(py "quiz", JList [])])
  else if bool_decide (text = questions_text)
  then Ok (JDict [(py "questions", JList [])])
  else Raise (Exn JSONDecodeError
                (py "Expecting value: line 1 column 1 (char 0)")).

Definition no_type_error : json -> pystr := fun _ => [].

(** The text of a quiz object whose question quotes a code fence. *)
Definition quiz_with_fence : pystr :=
  py "{" ++ dq ++ py "questions" ++ dq ++ py ": [{"
  ++ dq ++ py "question" ++ dq ++ py ": " ++ dq
  ++ py "What does ``` open?" ++ dq ++ py "}]}".

(** A reply that wraps a text that is not JSON in a json fence. *)
Definition fenced_prose : pystr :=
  fence_json ++ [NEWLINE] ++ py "not json" ++ [NEWLINE] ++ fence.

(** A file system without the file, a PDF of two blank pages, and a
    splitter that keeps every document whole. *)
Definition missing_file : pystr -> result pystr :=
  fun _ => Raise (Exn OtherException (py "No such file or directory")).

Definition blank_pdf : pystr -> result (list (result pystr)) :=
  fun _ => Ok [Ok (py "   "); Ok [NEWLINE]].

Definition whole_documents : list Document -> list Document := fun ds => ds.

(** Three questions with the keys A, b and C, a question without a key,
    and two sets of answers. *)
Definition question_with (text key : pystr) : dict :=
  [ (py "question", JStr text); (py "correct_answer", JStr key);
    (py "explanation", JStr (py "See the notes.")) ].

Definition three_questions : list dict :=
  [ question_with (py "Q1") (py "A"); question_with (py "Q2") (py "b");
    question_with (py "Q3") (py "C") ].

Definition question_without_key : dict := [ (py "question", JStr (py "Q4")) ].

Definition right_answers : gmap Z pystr :=
  <[0%Z := py "A"]> (<[1%Z := py "b"]> (<[2%Z := py "C"]> ∅)).

Definition two_answers : gmap Z pystr :=
  <[0%Z := py "a"]> (<[1%Z := py "D"]> ∅).

End Samples.

(* ===================================================================== *)
(** ** The HTTP endpoints ([api/main.py]) *)
(* ===================================================================== *)

(** [len(v)] on a value read from JSON. *)
Definition len_json (v : json) : result Z :=
  match v with
  | JStr s => Ok (Z.of_nat (length s))
  | JList items => Ok (Z.of_nat (length items))
  | JDict entries => Ok (Z.of_nat (length entries))
  | _ =>
      Raise (Exn TypeError
               (py "object of type '" ++ type_name v ++ py "' has no len()"))
  end.

Module Api.

(** What an endpoint gives back to FastAPI: the body of the reply, or an
    [HTTPException] with the status and the detail that it carries. *)
Inductive response (A : Type) :=
  | Returned (body : A)
  | HTTPException (status_code : Z) (detail : json).
Arguments Returned {A} body.
Arguments HTTPException {A} status_code detail.

(** [HTTPException(status_code=500, detail=detail)] for a detail that is
    read from a dictionary.  The constructor of the exception puts the
    phrase of the status, [http.HTTPStatus(500).phrase], in the place of a
    detail that is [None]; every other detail is kept as it is. *)
Definition server_error {A} (detail : json) : response A :=
  HTTPException 500
    match detail with
    | JNull => JStr (py "Internal Server Error")
    | _ => detail
    end.

(** An endpoint that calls the vector store or the model. *)
Definition Handler (A : Type) : Type :=
  list event -> response A * list event.

(** The two objects that the module keeps in its globals: each holds the
    vector store it was built on.  The models are built from constants. *)
Record RAGSystem (store : Type) := { rag_vector_store : store }.
Record QuizGenerator (store : Type) := { quiz_vector_store : store }.
Arguments Build_RAGSystem {store} rag_vector_store.
Arguments rag_vector_store {store} r.
Arguments Build_QuizGenerator {store} quiz_vector_store.
Arguments quiz_vector_store {store} q.

Definition no_documents {A} : response A :=
  HTTPException 400
    (JStr (py "No documents uploaded yet. Please upload documents first.")).

(** [try: return call except Exception as e: raise HTTPException(500,
    prefix + str(e))] *)
Definition guarded {A} (prefix : pystr) (call : Eff A) : Handler A :=
  fun log =>
    match call log with
    | (Ok result, log') => (Returned result, log')
    | (Raise e, log') =>
        (HTTPException 500 (JStr (prefix ++ exn_msg e)), log')
    end.

Section Endpoints.

(** A vector store object. *)
Variable store : Type.
(** [vector_store.similarity_search(query, k=k)], the model of the
    [RAGSystem] and the model of the [QuizGenerator], [json.loads], the
    wording of a [TypeError] and [str.upper]. *)
Variable similarity_search : store -> pystr -> Z -> result (list Document).
Variable rag_llm_invoke : pystr -> result pystr.
Variable quiz_llm_invoke : pystr -> result pystr.
Variable json_loads : pystr -> result json.
Variable type_error_text : json -> pystr.
Variable upper : pystr -> pystr.

(** [POST /ask] with the fields of the request. *)
Definition ask_question (rag_system : option (RAGSystem store))
  (question : pystr) (k : Z) : Handler AnswerResult :=
  match rag_system with
  | None => fun log => (no_documents, log)
  | Some rag =>
      guarded (py "Question answering failed: ")
        (ask_question (similarity_search (rag_vector_store rag))
           rag_llm_invoke question k)
  end.

(** [POST /summarize] *)
Definition summarize (rag_system : option (RAGSystem store))
  (topic : option pystr) (summary_type : pystr) (k : Z)
  : Handler SummaryResult :=
  match rag_system with
  | None => fun log => (no_documents, log)
  | Some rag =>
      guarded (py "Summarization failed: ")
        (summarize (similarity_search (rag_vector_store rag))
           rag_llm_invoke topic summary_type k)
  end.

(** [POST /definitions]: the number of chunks is the default of
    [extract_definitions]. *)
Definition get_definitions (rag_system : option (RAGSystem store))
  (topic : pystr) : Handler DefinitionsResult :=
  match rag_system with
  | None => fun log => (no_documents, log)
  | Some rag =>
      guarded (py "Definition extraction failed: ")
        (extract_definitions (similarity_search (rag_vector_store rag))
           rag_llm_invoke topic 10)
  end.

(** [POST /quiz/generate]: the number of chunks is the default of
    [generate_quiz].  Inside the [try], an error dictionary becomes an
    [HTTPException] that the first handler passes on, and the logging line
    takes the length of the questions. *)
Definition generate_quiz (quiz_generator : option (QuizGenerator store))
  (topic : pystr) (num_questions : Z) (difficulty : pystr) : Handler dict :=
  match quiz_generator with
  | None => fun log => (no_documents, log)
  | Some gen =>
      fun log =>
        match generate_quiz (similarity_search (quiz_vector_store gen))
                quiz_llm_invoke json_loads type_error_text
                topic num_questions difficulty 15 log with
        | (Raise e, log') =>
            (HTTPException 500
               (JStr (py "Quiz generation failed: " ++ exn_msg e)), log')
        | (Ok quiz, log') =>
            match dict_get (py "error") quiz with
            | Some detail => (server_error detail, log')
            | None =>
                match len_json
                        (dict_get_default (py "questions") (JList []) quiz)
                with
                | Ok _ => (Returned quiz, log')
                | Raise e =>
                    (HTTPException 500
                       (JStr (py "Quiz generation failed: " ++ exn_msg e)),
                     log')
                end
            end
        end
  end.

(** [POST /quiz/grade] *)
Definition grade_quiz (quiz_generator : option (QuizGenerator store))
  (questions : list dict) (user_answers : gmap Z pystr)
  : response GradeResult :=
  match quiz_generator with
  | None => no_documents
  | Some _ =>
      match grade_quiz upper questions user_answers with
      | Ok results => Returned results
      | Raise e =>
          HTTPException 500 (JStr (py "Quiz grading failed: " ++ exn_msg e))
      end
  end.

End Endpoints.

Arguments ask_question {store}.
Arguments summarize {store}.
Arguments get_definitions {store}.
Arguments generate_quiz {store}.
Arguments grade_quiz {store}.

(** The module's globals: [vector_store], [rag_system],
    [quiz_generator]. *)
Record Globals (store : Type) := {
  vector_store : option store;
  rag_system : option (RAGSystem store);
  quiz_generator : option (QuizGenerator store)
}.
Arguments Build_Globals {store} vector_store rag_system quiz_generator.
Arguments vector_store {store} g.
Arguments rag_system {store} g.
Arguments quiz_generator {store} g.

(** The globals when the module is loaded. *)
Definition no_globals {store} : Globals store :=
  {| vector_store := None; rag_system := None; quiz_generator := None |}.

(** An uploaded file: its name and its bytes. *)
Record UploadFile := {
  filename : pystr;
  file : list Byte.byte
}.

Definition VECTOR_STORE_NAME : pystr := py "study_materials".

Section Documents.

Variable W : Type.
Variable store : Type.

(** Paths: [os.path.join], [Path(p).name], [Path(p).suffix.lower()], the
    directory of the uploads and the directory above the module. *)
Variable path_join : pystr -> pystr -> pystr.
Variable path_name : pystr -> pystr.
Variable path_suffix_lower : pystr -> pystr.
Variable UPLOAD_DIR : pystr.
Variable parent_dir : pystr.

(** Files: the writing of the uploaded bytes ([open(path, 'wb')] with
    [shutil.copyfileobj]), the reading of a text file and of the pages of
    a PDF in a given state of the disk, the text splitter, [os.listdir],
    [os.path.isfile], [os.remove], [shutil.rmtree]. *)
Variable save_upload : pystr -> list Byte.byte -> IO W unit.
Variable read_text : W -> pystr -> result pystr.
Variable pdf_pages : W -> pystr -> result (list (result pystr)).
Variable split_documents : list Document -> list Document.
Variable listdir : pystr -> W -> outcome (list pystr).
Variable isfile : pystr -> W -> bool.
Variable remove : pystr -> IO W unit.
Variable rmtree : pystr -> IO W unit.

(** The vector database, as [DocumentIngestion] uses it. *)
Variable path_exists : pystr -> W -> bool.
Variable makedirs : pystr -> IO W unit.
Variable from_documents : list Document -> pystr -> pystr -> IO W store.
Variable chroma : pystr -> pystr -> IO W store.
Variable add_documents : store -> list Document -> IO W unit.
Variable dump_json : pystr -> json -> IO W unit.

(** [ingestion = DocumentIngestion()]: the stores are kept under the
    default path. *)
Definition ingestion_path : pystr := py "data/vector_store".

(** [GET /] *)
Definition root (g : Globals store) : dict :=
  [ (py "message", JStr (py "AI Study Assistant API - Powered by Ollama"));
    (py "status", JStr (py "running"));
    (py "documents_loaded",
     JBool match vector_store g with Some _ => true | None => false end);
    (py "ollama_url", JStr (py "http://localhost:11434"));
    (py "endpoints",
     JDict [ (py "upload", JStr (py "/upload"));
             (py "ask", JStr (py "/ask"));
             (py "summarize", JStr (py "/summarize"));
             (py "definitions", JStr (py "/definitions"));
             (py "quiz_generate", JStr (py "/quiz/generate"));
             (py "quiz_grade", JStr (py "/quiz/grade"));
             (py "documents", JStr (py "/documents")) ]) ].

(** The inner [try] of the upload: a new store when the module holds
    none, otherwise the chunks are added and the store is loaded again. *)
Definition create_or_update (g : Globals store) (chunks : list Document)
  : IO W store :=
  match vector_store g with
  | None =>
      create_vector_store path_join makedirs from_documents dump_json
        ingestion_path chunks VECTOR_STORE_NAME
  | Some _ =>
      (_ <~ add_documents_to_existing_store path_join path_exists makedirs
              from_documents chroma add_documents dump_json ingestion_path
              chunks VECTOR_STORE_NAME ;;
       load_vector_store path_join path_exists chroma ingestion_path
         VECTOR_STORE_NAME)%io
  end.

(** [POST /upload]: the reply, the globals and the world after the
    request.  The last handler turns every exception that is not an
    [HTTPException] into the status 500. *)
Definition upload_document (upload : UploadFile) (g : Globals store) (w : W)
  : response dict * Globals store * W :=
  let file_extension := path_suffix_lower (filename upload) in
  if bool_decide (file_extension = py ".pdf")
     || bool_decide (file_extension = py ".txt")
  then
    let file_path := path_join UPLOAD_DIR (filename upload) in
    match save_upload file_path (file upload) w with
    | (Raises e, w1) =>
        (HTTPException 500
           (JStr (py "Upload failed: " ++ str_of_raised e)), g, w1)
    | (Returns _, w1) =>
        match process_documents (read_text w1) (pdf_pages w1) path_name
                path_suffix_lower split_documents file_path with
        | Raise e =>
            (HTTPException 500 (JStr (py "Upload failed: " ++ exn_msg e)),
             g, w1)
        | Ok [] =>
            (HTTPException 500
               (JStr (py "Failed to extract content from document")), g, w1)
        | Ok (chunk :: more) =>
            let chunks := chunk :: more in
            match create_or_update g chunks w1 with
            | (Raises e, w2) =>
                (HTTPException 500
                   (JStr (py "Failed to create/update vector store: "
                          ++ str_of_raised e)), g, w2)
            | (Returns new_store, w2) =>
                (Returned
                   [ (py "message",
                      JStr (py "Document uploaded and processed successfully"));
                     (py "filename", JStr (filename upload));
                     (py "chunks_created", JInt (Z.of_nat (length chunks)));
                     (py "status", JStr (py "success")) ],
                 {| vector_store := Some new_store;
                    rag_system := Some (Build_RAGSystem new_store);
                    quiz_generator := Some (Build_QuizGenerator new_store) |},
                 w2)
            end
        end
    end
  else
    (HTTPException 400
       (JStr (py "Unsupported file type: " ++ file_extension
              ++ py ". Only .pdf and .txt are supported.")), g, w).

(** The loop of the reset over the names in the upload directory. *)
Fixpoint remove_files (files : list pystr) : IO W unit :=
  match files with
  | [] => io_ret tt
  | name :: rest =>
      let file_path := path_join UPLOAD_DIR name in
      fun w =>
        if isfile file_path w
        then (_ <~ remove file_path ;; remove_files rest)%io w
        else remove_files rest w
  end.

(** [DELETE /reset] *)
Definition reset_system (g : Globals store) (w : W)
  : response dict * Globals store * W :=
  let vector_store_path :=
    path_join (path_join (path_join parent_dir (py "data"))
                 (py "vector_store")) VECTOR_STORE_NAME in
  match (files <~ (fun w => (listdir UPLOAD_DIR w, w)) ;;
         _ <~ remove_files files ;;
         fun w =>
           if path_exists vector_store_path w
           then rmtree vector_store_path w
           else (Returns tt, w))%io w with
  | (Returns _, w') =>
      (Returned [ (py "message", JStr (py "System reset successfully"));
                  (py "status", JStr (py "success")) ],
       no_globals, w')
  | (Raises e, w') =>
      (HTTPException 500 (JStr (py "Reset failed: " ++ str_of_raised e)),
       g, w')
  end.

End Documents.

Arguments root {store}.
Arguments create_or_update {W store}.
Arguments upload_document {W store}.
Arguments remove_files {W}.
Arguments reset_system {W store}.

(** The globals hold nothing, or one vector store and the two objects
    built on it. *)
Definition consistent {store} (g : Globals store) : Prop :=
  g = no_globals
  \/ exists vs, g = {| vector_store := Some vs;
                       rag_system := Some (Build_RAGSystem vs);
                       quiz_generator := Some (Build_QuizGenerator vs) |}.

End Api.
(* ===================================================================== *)
(** ** Facts about the string operations *)
(* ===================================================================== *)

Module PyStrFacts.

Lemma starts_with_app (p r : pystr) : starts_with p (p ++ r) = true.
Proof.
  induction p as [|a p IH]; simpl; [reflexivity|].
  rewrite N.eqb_refl. exact IH.
Qed.

Lemma starts_with_inv (p t : pystr) :
  starts_with p t = true -> exists r, t = p ++ r.
Proof.
  revert t. induction p as [|a p IH]; intros t H.
  - exists t. reflexivity.
  - destruct t as [|b t]; simpl in H; [discriminate|].
    apply andb_true_iff in H as [Hab Hp].
    apply N.eqb_eq in Hab. subst b.
    destruct (IH _ Hp) as [r ->]. exists r. reflexivity.
Qed.

Lemma starts_with_spec (p t : pystr) :
  starts_with p t = true <-> exists r, t = p ++ r.
Proof.
  split; [apply starts_with_inv|].
  intros [r ->]. apply starts_with_app.
Qed.

(** A prefix that matches in [t] still matches when [t] is extended. *)
Lemma starts_with_extend (p t u : pystr) :
  starts_with p t = true -> starts_with p (t ++ u) = true.
Proof.
  intros H. apply starts_with_inv in H as [r ->].
  rewrite <- app_assoc. apply starts_with_app.
Qed.

Lemma starts_with_trans (p q t : pystr) :
  starts_with p q = true -> starts_with q t = true -> starts_with p t = true.
Proof.
  intros H1 H2. apply starts_with_inv in H1 as [r ->].
  apply starts_with_inv in H2 as [r' ->].
  rewrite <- app_assoc. apply starts_with_app.
Qed.

(** A match that fits into [u] does not need what follows [u]. *)
Lemma starts_with_shorten (p u v : pystr) :
  starts_with p (u ++ v) = true -> length p <= length u ->
  starts_with p u = true.
Proof.
  revert u. induction p as [|a p IH]; intros u H Hlen; [reflexivity|].
  destruct u as [|b u]; [simpl in Hlen; lia|].
  simpl in *. apply andb_true_iff in H as [Hab Hp].
  rewrite Hab. apply IH; [exact Hp|lia].
Qed.

Lemma contains_here (s t : pystr) :
  starts_with s t = true -> contains s t = true.
Proof. intros H. destruct t; simpl; rewrite H; reflexivity. Qed.

Lemma contains_spec (s t : pystr) :
  contains s t = true <-> exists a b, t = a ++ s ++ b.
Proof.
  split.
  - induction t as [|c t IH]; simpl; intros H.
    + rewrite orb_false_r in H. apply starts_with_inv in H as [r ->].
      exists [], r. reflexivity.
    + apply orb_true_iff in H as [H|H].
      * apply starts_with_inv in H as [r ->]. exists [], r. reflexivity.
      * destruct (IH H) as (a & b & ->). exists (c :: a), b. reflexivity.
  - intros (a & b & ->). induction a as [|c a IH]; simpl.
    + apply contains_here, starts_with_app.
    + rewrite IH. apply orb_true_r.
Qed.

Lemma contains_app_false (s u v : pystr) :
  contains s (u ++ v) = false ->
  contains s u = false /\ contains s v = false.
Proof.
  intros H. split.
  - destruct (contains s u) eqn:E; [|reflexivity].
    apply contains_spec in E as (a & b & ->).
    rewrite <- H. symmetry. apply contains_spec.
    exists a, (b ++ v). now rewrite <- !app_assoc.
  - destruct (contains s v) eqn:E; [|reflexivity].
    apply contains_spec in E as (a & b & ->).
    rewrite <- H. symmetry. apply contains_spec.
    exists (u ++ a), b. now rewrite <- !app_assoc.
Qed.

(** A text that contains the longer pattern contains each of its prefixes. *)
Lemma contains_prefix (p q t : pystr) :
  starts_with p q = true -> contains q t = true -> contains p t = true.
Proof.
  intros Hp Hq. apply starts_with_inv in Hp as [r ->].
  apply contains_spec in Hq as (a & b & ->).
  apply contains_spec. exists a, (r ++ b). now rewrite <- !app_assoc.
Qed.

Lemma contains_single (c : char) (t : pystr) :
  contains [c] t = true <-> c ∈ t.
Proof.
  rewrite contains_spec. split.
  - intros (a & b & ->). set_solver.
  - intros H. apply list_elem_of_split in H as (a & b & ->).
    exists a, b. reflexivity.
Qed.

Lemma contains_single_false (c : char) (t : pystr) :
  contains [c] t = false <-> c ∉ t.
Proof.
  rewrite <- contains_single. destruct (contains [c] t); split; congruence.
Qed.

Lemma cut_None (sep t : pystr) :
  cut sep t = None <-> contains sep t = false.
Proof.
  induction t as [|c t IH]; simpl.
  - destruct (starts_with sep []); simpl; split; congruence.
  - destruct (starts_with sep (c :: t)); simpl; [split; congruence|].
    rewrite <- IH. destruct (cut sep t) as [[a b]|]; split; congruence.
Qed.

Lemma starts_with_drop (p t : pystr) :
  starts_with p t = true -> t = p ++ drop (length p) t.
Proof.
  intros H. apply starts_with_inv in H as [r ->].
  now rewrite drop_app_length.
Qed.

Lemma cut_Some (sep t a b : pystr) :
  cut sep t = Some (a, b) -> t = a ++ sep ++ b.
Proof.
  revert a b. induction t as [|c t IH]; intros a b; simpl.
  - destruct (starts_with sep []) eqn:E; [|discriminate].
    intros [= <- <-]. now apply starts_with_drop in E.
  - destruct (starts_with sep (c :: t)) eqn:E.
    + intros [= <- <-]. now apply starts_with_drop in E.
    + destruct (cut sep t) as [[a' b']|] eqn:E'; [|discriminate].
      intros [= <- <-]. simpl. f_equal. now apply IH.
Qed.

(** The part before the cut holds no occurrence of the separator. *)
Lemma cut_Some_first (sep t a b : pystr) :
  sep <> [] -> cut sep t = Some (a, b) -> contains sep a = false.
Proof.
  intros Hsep. revert a b. induction t as [|c t IH]; intros a b; simpl.
  - destruct (starts_with sep []) eqn:E; [|discriminate].
    intros [= <- <-]. destruct sep; [congruence|reflexivity].
  - destruct (starts_with sep (c :: t)) eqn:E.
    + intros [= <- <-]. destruct sep; [congruence|reflexivity].
    + destruct (cut sep t) as [[a' b']|] eqn:E'; [|discriminate].
      intros [= <- <-]. simpl. rewrite (IH _ _ eq_refl), orb_false_r.
      destruct (starts_with sep (c :: a')) eqn:E2; [|reflexivity].
      rewrite <- E. symmetry. rewrite (cut_Some _ _ _ _ E').
      now apply (starts_with_extend sep (c :: a')).
Qed.

(** The first occurrence: no suffix of [a] followed by the separator starts
    with the separator. *)
Lemma cut_here (sep b : pystr) : cut sep (sep ++ b) = Some ([], b).
Proof.
  destruct (sep ++ b) eqn:E; simpl; rewrite <- E at 1;
    now rewrite starts_with_app, <- E, drop_app_length.
Qed.

Lemma cut_intro (sep a b : pystr) :
  (forall a1 a2, a = a1 ++ a2 -> a2 <> [] ->
     starts_with sep (a2 ++ sep ++ b) = false) ->
  cut sep (a ++ sep ++ b) = Some (a, b).
Proof.
  induction a as [|c a IH]; intros H.
  - exact (cut_here sep b).
  - pose proof (H [] (c :: a) eq_refl ltac:(discriminate)) as H0.
    simpl in *. rewrite H0, IH; [reflexivity|].
    intros a1 a2 -> Ha2. apply (H (c :: a1) a2); [reflexivity|exact Ha2].
Qed.

Lemma cut_length (sep t a b : pystr) :
  sep <> [] -> cut sep t = Some (a, b) -> length b < length t.
Proof.
  intros Hsep H. apply cut_Some in H. subst t.
  rewrite !length_app. destruct sep; [congruence|simpl; lia].
Qed.

Lemma cut_nil (sep : pystr) : sep <> [] -> cut sep [] = None.
Proof. destruct sep; [congruence|reflexivity]. Qed.

Lemma split_rounds_enough (sep : pystr) (n m : nat) (t : pystr) :
  sep <> [] -> length t <= n -> length t <= m ->
  split_rounds n sep t = split_rounds m sep t.
Proof.
  intros Hsep. revert m t. induction n as [|n IH]; intros m t Hn Hm.
  - destruct t; [|simpl in Hn; lia].
    destruct m; cbn [split_rounds]; now rewrite cut_nil.
  - destruct m; cbn [split_rounds].
    + destruct (cut sep t) as [[a b]|] eqn:E; [|reflexivity].
      apply cut_length in E; [lia|exact Hsep].
    + destruct (cut sep t) as [[a b]|] eqn:E; [|reflexivity].
      f_equal. apply cut_length in E; [|exact Hsep]. apply IH; lia.
Qed.

(** The defining equation of [t.split(sep)]. *)
Lemma split_sep_unfold (sep t : pystr) :
  sep <> [] ->
  split_sep sep t =
    match cut sep t with
    | None => [t]
    | Some (a, b) => a :: split_sep sep b
    end.
Proof.
  intros Hsep. unfold split_sep.
  destruct t as [|c t]; cbn [split_rounds length].
  - now rewrite cut_nil.
  - destruct (cut sep (c :: t)) as [[a b]|] eqn:E; [|reflexivity].
    f_equal. apply cut_length in E; [|exact Hsep]. simpl in E.
    apply split_rounds_enough; [exact Hsep|lia|lia].
Qed.

Lemma index_split_0 (sep t : pystr) :
  sep <> [] -> index (split_sep sep t) 0 = Ok (head_piece sep t).
Proof.
  intros Hsep. rewrite split_sep_unfold by exact Hsep. unfold head_piece.
  destruct (cut sep t) as [[a b]|]; reflexivity.
Qed.

Lemma index_split_1 (sep t a b : pystr) :
  sep <> [] -> cut sep t = Some (a, b) ->
  index (split_sep sep t) 1 = Ok (head_piece sep b).
Proof.
  intros Hsep H. rewrite split_sep_unfold, H by exact Hsep.
  rewrite split_sep_unfold by exact Hsep. unfold head_piece.
  destruct (cut sep b) as [[a' b']|]; reflexivity.
Qed.

Lemma head_piece_prefix (sep t : pystr) :
  exists s, t = head_piece sep t ++ s /\ (s = [] \/ starts_with sep s = true).
Proof.
  unfold head_piece. destruct (cut sep t) as [[a b]|] eqn:E.
  - exists (sep ++ b). split; [now apply cut_Some|].
    right. apply starts_with_app.
  - exists []. split; [now rewrite app_nil_r|now left].
Qed.

Lemma head_piece_clean (sep t : pystr) :
  sep <> [] -> contains sep (head_piece sep t) = false.
Proof.
  intros Hsep. unfold head_piece. destruct (cut sep t) as [[a b]|] eqn:E.
  - now apply cut_Some_first in E.
  - now apply cut_None.
Qed.

End PyStrFacts.
Import PyStrFacts.

(* ===================================================================== *)
(** ** Facts about the brace search and about stripping *)
(* ===================================================================== *)

Module BraceFacts.

Lemma elem_of_rev (c : char) (t : pystr) : c ∈ rev t <-> c ∈ t.
Proof. rewrite !list_elem_of_In. symmetry. apply in_rev. Qed.

Lemma from_first_app_in (c : char) (u v : pystr) :
  c ∈ u -> from_first c (u ++ v) = from_first c u ++ v.
Proof.
  induction u as [|x u IH]; intros H; [set_solver|].
  simpl. destruct (N.eqb_spec x c); [reflexivity|].
  apply IH. set_solver.
Qed.

Lemma from_first_app_notin (c : char) (u v : pystr) :
  c ∉ u -> from_first c (u ++ v) = from_first c v.
Proof.
  induction u as [|x u IH]; intros H; [reflexivity|].
  simpl. destruct (N.eqb_spec x c); [set_solver|].
  apply IH. set_solver.
Qed.

Lemma upto_last_None (c : char) (t : pystr) :
  c ∉ t -> upto_last c t = None.
Proof.
  induction t as [|x t IH]; intros H; [reflexivity|].
  simpl. rewrite IH by set_solver.
  destruct (N.eqb_spec x c); [set_solver|reflexivity].
Qed.

Lemma upto_last_Some (c : char) (t : pystr) :
  c ∈ t -> upto_last c t = Some (rev (from_first c (rev t))).
Proof.
  induction t as [|x t IH]; intros H; [set_solver|].
  simpl. destruct (decide (c ∈ t)) as [Hin|Hout].
  - rewrite IH by exact Hin.
    rewrite from_first_app_in by (apply elem_of_rev; exact Hin).
    now rewrite rev_app_distr.
  - rewrite upto_last_None by exact Hout.
    assert (x = c) as -> by set_solver. rewrite N.eqb_refl.
    rewrite from_first_app_notin by (rewrite elem_of_rev; exact Hout).
    simpl. now rewrite N.eqb_refl.
Qed.

Lemma upto_last_app_tail (c : char) (u w : pystr) :
  c ∉ w -> upto_last c (u ++ w) = upto_last c u.
Proof.
  intros Hw. induction u as [|x u IH]; simpl.
  - now apply upto_last_None.
  - now rewrite IH.
Qed.

(** Characters after the last closing brace do not change the match. *)
Lemma re_search_app_tail (u w : pystr) :
  RBRACE ∉ w -> re_search_braces (u ++ w) = re_search_braces u.
Proof.
  intros Hw. induction u as [|x u IH]; simpl.
  - induction w as [|y w IHw]; [reflexivity|].
    simpl. rewrite upto_last_None by set_solver.
    destruct (y =? LBRACE)%N; apply IHw; set_solver.
  - now rewrite IH, upto_last_app_tail by exact Hw.
Qed.

(** The search finds the span from the first opening brace to the last
    closing brace after it. *)
Lemma re_search_span (t r : pystr) :
  from_first LBRACE t = LBRACE :: r -> RBRACE ∈ r ->
  re_search_braces t = Some (brace_span t).
Proof.
  unfold brace_span. induction t as [|x t IH]; simpl; [discriminate|].
  destruct (N.eqb_spec x LBRACE) as [->|Hx].
  - intros [= ->] Hin. rewrite upto_last_Some by exact Hin.
    change (rev (LBRACE :: r)) with (rev r ++ [LBRACE]).
    rewrite from_first_app_in by (apply elem_of_rev; exact Hin).
    now rewrite rev_app_distr.
  - intros H Hin. now apply IH.
Qed.

Lemma re_search_None (t : pystr) :
  (forall i j, i < j -> t !! i = Some LBRACE -> t !! j = Some RBRACE -> False) ->
  re_search_braces t = None.
Proof.
  induction t as [|x t IH]; intros H; [reflexivity|].
  simpl. assert (IHt : re_search_braces t = None).
  { apply IH. intros i j Hij Hi Hj. apply (H (S i) (S j)); [lia|exact Hi|exact Hj]. }
  destruct (N.eqb_spec x LBRACE) as [->|Hx]; [|exact IHt].
  rewrite upto_last_None; [exact IHt|].
  intros Hin. apply list_elem_of_lookup in Hin as [j Hj].
  apply (H 0 (S j)); [lia|reflexivity|exact Hj].
Qed.

Lemma upto_last_None_inv (c : char) (t : pystr) :
  upto_last c t = None -> c ∉ t.
Proof.
  intros H Hin. now rewrite upto_last_Some in H by exact Hin.
Qed.

Lemma re_search_None_inv (t : pystr) :
  re_search_braces t = None ->
  forall i j, i < j -> t !! i = Some LBRACE -> t !! j = Some RBRACE -> False.
Proof.
  induction t as [|x t IH]; intros H i j Hij Hi Hj; [discriminate Hi|].
  simpl in H. destruct j as [|j]; [lia|]. simpl in Hj.
  destruct i as [|i]; simpl in Hi.
  - injection Hi as ->. rewrite N.eqb_refl in H.
    destruct (upto_last RBRACE t) eqn:E; [discriminate|].
    apply upto_last_None_inv in E. apply E.
    apply list_elem_of_lookup. eauto.
  - apply (IH) with (i := i) (j := j); [|lia|exact Hi|exact Hj].
    destruct (x =? LBRACE)%N; [|exact H].
    destruct (upto_last RBRACE t); [discriminate|exact H].
Qed.

(** An object between text without an opening brace before it and without
    a closing brace after it is what the search returns. *)
Lemma re_search_object (a mid b : pystr) :
  LBRACE ∉ a -> RBRACE ∉ b ->
  re_search_braces (a ++ (LBRACE :: mid ++ [RBRACE]) ++ b)
  = Some (LBRACE :: mid ++ [RBRACE]).
Proof.
  intros Ha Hb. rewrite app_assoc, re_search_app_tail by exact Hb.
  induction a as [|x a IH]; simpl.
  - rewrite upto_last_Some by set_solver.
    rewrite rev_app_distr. simpl. now rewrite rev_involutive.
  - destruct (N.eqb_spec x LBRACE); [set_solver|]. apply IH. set_solver.
Qed.

Lemma upto_last_ends (c : char) (t m : pystr) :
  upto_last c t = Some m -> exists m', m = m' ++ [c].
Proof.
  revert m. induction t as [|x t IH]; intros m; simpl; [discriminate|].
  destruct (upto_last c t) as [m0|].
  - intros [= <-]. destruct (IH _ eq_refl) as [m' ->].
    exists (x :: m'). reflexivity.
  - destruct (N.eqb_spec x c) as [->|]; [|discriminate].
    intros [= <-]. exists []. reflexivity.
Qed.

(** A match starts with an opening brace and ends with a closing brace. *)
Lemma re_search_shape (t m : pystr) :
  re_search_braces t = Some m -> exists m', m = LBRACE :: m' ++ [RBRACE].
Proof.
  induction t as [|x t IH]; simpl; [discriminate|].
  destruct (N.eqb_spec x LBRACE) as [->|]; [|exact IH].
  destruct (upto_last RBRACE t) as [m0|] eqn:E; [|exact IH].
  intros [= <-]. apply upto_last_ends in E as [m' ->].
  exists m'. reflexivity.
Qed.

Lemma from_first_split (c : char) (t : pystr) :
  c ∈ t -> exists u r, t = u ++ c :: r /\ (c ∉ u) /\ from_first c t = c :: r.
Proof.
  induction t as [|x t IH]; intros H; [set_solver|].
  simpl. destruct (N.eqb_spec x c) as [->|Hx].
  - exists [], t. split; [reflexivity|]. split; [set_solver|reflexivity].
  - destruct IH as (u & r & -> & Hu & E); [set_solver|].
    exists (x :: u), r. split; [reflexivity|]. split; [set_solver|exact E].
Qed.

(** In a text with an object in it the search succeeds and returns the
    span from the first opening brace to the last closing brace. *)
Lemma re_search_around_object (pre mid post : pystr) :
  re_search_braces (pre ++ (LBRACE :: mid ++ [RBRACE]) ++ post)
  = Some (brace_span (pre ++ (LBRACE :: mid ++ [RBRACE]) ++ post)).
Proof.
  set (t := pre ++ _).
  destruct (from_first_split LBRACE t) as (u & r & E & Hu & F);
    [subst t; set_solver|].
  apply (re_search_span t r F).
  subst t. apply app_eq_inv in E as [(k & E1 & E2)|(k & E1 & E2)].
  - destruct k as [|y k]; simpl in E2; injection E2 as ->; set_solver.
  - destruct k as [|y k]; simpl in E2.
    + injection E2 as <-. set_solver.
    + injection E2 as <- _. set_solver.
Qed.

Lemma rstrip_keep (t : pystr) (y : char) :
  is_space y = false -> rstrip (t ++ [y]) = t ++ [y].
Proof.
  intros Hy. induction t as [|x t IH]; simpl.
  - now rewrite Hy.
  - rewrite IH. destruct (t ++ [y]) eqn:E; [|reflexivity].
    symmetry in E. now apply app_cons_not_nil in E.
Qed.

(** A text whose first and last characters are not whitespace is left
    alone by [strip]. *)
Lemma strip_keep (x y : char) (t : pystr) :
  is_space x = false -> is_space y = false ->
  strip (x :: t ++ [y]) = x :: t ++ [y].
Proof.
  intros Hx Hy. unfold strip. simpl. rewrite Hx.
  apply (rstrip_keep (x :: t) y Hy).
Qed.

Lemma strip_keep1 (x : char) : is_space x = false -> strip [x] = [x].
Proof. intros Hx. unfold strip. simpl. rewrite Hx. simpl. now rewrite Hx. Qed.

End BraceFacts.
Import BraceFacts.

(* ===================================================================== *)
(** ** Facts about the code fences *)
(* ===================================================================== *)

Module FenceFacts.

Lemma fence_eq : fence = [BACKTICK; BACKTICK; BACKTICK].
Proof. reflexivity. Qed.

Lemma fence_json_eq :
  fence_json = [BACKTICK; BACKTICK; BACKTICK; 106; 115; 111; 110]%N.
Proof. reflexivity. Qed.

Lemma fence_nonempty : fence <> [].
Proof. discriminate. Qed.

Lemma fence_json_nonempty : fence_json <> [].
Proof. discriminate. Qed.

Lemma fence_json_starts : starts_with fence fence_json = true.
Proof. reflexivity. Qed.

(** Without a fence there is no json fence either. *)
Lemma no_fence_no_json (t : pystr) :
  contains fence t = false -> contains fence_json t = false.
Proof.
  intros H. destruct (contains fence_json t) eqn:E; [|reflexivity].
  rewrite <- H. symmetry. exact (contains_prefix _ _ _ fence_json_starts E).
Qed.

(** Three leading backticks are a fence. *)
Lemma three_backticks (t : pystr) :
  contains fence (BACKTICK :: BACKTICK :: BACKTICK :: t) = true.
Proof. apply contains_here. reflexivity. Qed.

(** When no json fence starts before it, the json fence written after
    [pre] is the first one of the text. *)
Lemma cut_fence_json_first (pre rest : pystr) :
  contains fence_json (pre ++ fence_json_head) = false ->
  cut fence_json (pre ++ fence_json ++ rest) = Some (pre, rest).
Proof.
  intros Hpre. apply cut_intro. intros a1 a2 -> Ha2.
  rewrite <- app_assoc in Hpre.
  apply contains_app_false in Hpre as [_ Hpre].
  destruct (starts_with _ _) eqn:E; [exfalso|reflexivity].
  change fence_json with (fence_json_head ++ [110%N]) in E at 2.
  rewrite <- !app_assoc, app_assoc in E.
  apply starts_with_shorten in E.
  - apply contains_here in E. congruence.
  - rewrite length_app. destruct a2; [congruence|].
    change (length fence_json) with 7.
    change (length fence_json_head) with 6. simpl. lia.
Qed.

(** A text that starts with a fence, cut after fewer than three
    characters, leaves only backticks. *)
Lemma short_of_fence (k r s : pystr) :
  k ++ r = fence ++ s -> contains fence k = false ->
  Forall (fun c => c = BACKTICK) k.
Proof.
  rewrite fence_eq. intros E Hk.
  destruct k as [|c1 [|c2 [|c3 k]]]; simpl in E.
  - constructor.
  - injection E as -> _. repeat constructor.
  - injection E as -> -> _. repeat constructor.
  - injection E as -> -> -> _. now rewrite three_backticks in Hk.
Qed.

(** What the two splits keep of a block [inner] closed by a fence: the
    block itself, up to backticks at its end. *)
Lemma fenced_block_piece (inner post : pystr) :
  contains fence inner = false ->
  exists w, Forall (fun c => c = BACKTICK) w /\
    (inner = head_piece fence
               (head_piece fence_json (inner ++ fence ++ post)) ++ w
     \/ head_piece fence
          (head_piece fence_json (inner ++ fence ++ post)) = inner ++ w).
Proof.
  intros Hin.
  set (rest := inner ++ fence ++ post).
  destruct (head_piece_prefix fence_json rest) as (s1 & E1 & S1).
  set (X := head_piece fence_json rest) in *.
  destruct (head_piece_prefix fence X) as (s2 & E2 & S2).
  pose proof (head_piece_clean fence X fence_nonempty) as Hclean.
  set (Y := head_piece fence X) in *.
  assert (Hs : s2 ++ s1 = [] \/ starts_with fence (s2 ++ s1) = true).
  { destruct S2 as [->|S2].
    - destruct S1 as [->|S1]; [now left|right].
      exact (starts_with_trans _ _ _ fence_json_starts S1).
    - right. now apply starts_with_extend. }
  assert (E : inner ++ fence ++ post = Y ++ s2 ++ s1).
  { fold rest. rewrite E1, E2 at 1. now rewrite <- app_assoc. }
  apply app_eq_inv in E as [(k & E3 & E4)|(k & E3 & E4)].
  - (* the piece stops inside the block *)
    exists k. split; [|left; exact E3].
    rewrite E3 in Hin. apply contains_app_false in Hin as [_ Hk].
    destruct Hs as [Hs|Hs].
    + rewrite Hs in E4. destruct k; [constructor|discriminate].
    + apply starts_with_inv in Hs as [r Hs]. rewrite Hs in E4.
      symmetry in E4. exact (short_of_fence _ _ _ E4 Hk).
  - (* the piece runs past the block *)
    exists k. split; [|right; exact E3].
    rewrite E3 in Hclean. apply contains_app_false in Hclean as [_ Hk].
    symmetry in E4. exact (short_of_fence _ _ _ E4 Hk).
Qed.

Lemma backticks_no_rbrace (w : pystr) :
  Forall (fun c => c = BACKTICK) w -> RBRACE ∉ w.
Proof.
  intros H Hin. rewrite Forall_forall in H.
  apply H in Hin. discriminate.
Qed.

(** The brace search sees the same match in the kept piece as in the
    block. *)
Lemma fenced_block_search (inner post : pystr) :
  contains fence inner = false ->
  re_search_braces
    (head_piece fence (head_piece fence_json (inner ++ fence ++ post)))
  = re_search_braces inner.
Proof.
  intros Hin.
  destruct (fenced_block_piece inner post Hin) as (w & Hw & [E|E]).
  - rewrite E at 2. symmetry. apply re_search_app_tail.
    now apply backticks_no_rbrace.
  - rewrite E. apply re_search_app_tail. now apply backticks_no_rbrace.
Qed.

End FenceFacts.
Import FenceFacts.

(* ===================================================================== *)
(** ** Facts about the clean-up of extracted text *)
(* ===================================================================== *)

Module CleanFacts.

Lemma join_nil (parts : list pystr) : join [] parts = concat parts.
Proof.
  induction parts as [|p ps IH]; [reflexivity|].
  destruct ps as [|p' ps]; simpl.
  - now rewrite app_nil_r.
  - simpl in IH. now rewrite IH.
Qed.

Lemma strip_nulls_id (t : pystr) : NUL ∉ t -> strip_nulls t = t.
Proof.
  induction t as [|x t IH]; intros H; [reflexivity|].
  unfold strip_nulls in *. simpl.
  destruct (N.eqb_spec x NUL); [set_solver|].
  simpl. f_equal. apply IH. set_solver.
Qed.

Lemma strip_nulls_app (u v : pystr) :
  strip_nulls (u ++ v) = strip_nulls u ++ strip_nulls v.
Proof. apply List.filter_app. Qed.

(** [t.replace('\x00', '')] removes the null characters. *)
Lemma replace_nul (t : pystr) : replace [NUL] [] t = strip_nulls t.
Proof.
  unfold replace. rewrite join_nil.
  remember (length t) as n eqn:Hn.
  assert (Hle : length t <= n) by lia. clear Hn.
  revert t Hle. induction n as [|n IH]; intros t Hle.
  - destruct t; [reflexivity|simpl in Hle; lia].
  - rewrite split_sep_unfold by discriminate.
    destruct (cut [NUL] t) as [[a b]|] eqn:E.
    + assert (Hnn : [NUL] <> []) by discriminate.
      pose proof (cut_length _ _ _ _ Hnn E) as Hlen.
      pose proof (cut_Some_first _ _ _ _ Hnn E) as Ha.
      apply cut_Some in E. subst t. simpl.
      rewrite IH by lia. rewrite !strip_nulls_app.
      apply contains_single_false in Ha.
      now rewrite (strip_nulls_id a Ha).
    + apply cut_None, contains_single_false in E. simpl.
      now rewrite app_nil_r, strip_nulls_id.
Qed.

Lemma strip_nulls_clean (t : pystr) : NUL ∉ strip_nulls t.
Proof.
  unfold strip_nulls. rewrite list_elem_of_In, List.filter_In.
  intros [_ H]. now rewrite N.eqb_refl in H.
Qed.

Lemma rstrip_sublist (t : pystr) : forall c, c ∈ rstrip t -> c ∈ t.
Proof.
  induction t as [|x t IH]; intros c; simpl; [trivial|].
  destruct (rstrip t) as [|y r].
  - destruct (is_space x); set_solver.
  - set_solver.
Qed.

Lemma lstrip_sublist (t : pystr) : forall c, c ∈ lstrip t -> c ∈ t.
Proof.
  induction t as [|x t IH]; intros c; simpl; [trivial|].
  destruct (is_space x); set_solver.
Qed.

Lemma strip_sublist (t : pystr) (c : char) : c ∈ strip t -> c ∈ t.
Proof. intros H. now apply lstrip_sublist, rstrip_sublist. Qed.

(** The ends of a stripped text are not whitespace. *)
Lemma lstrip_head (t : pystr) (c : char) (r : pystr) :
  lstrip t = c :: r -> is_space c = false.
Proof.
  induction t as [|x t IH]; simpl; [discriminate|].
  destruct (is_space x) eqn:E; [exact IH|]. now intros [= <- _].
Qed.

Lemma rstrip_last (t : pystr) (c : char) :
  last (rstrip t) = Some c -> is_space c = false.
Proof.
  induction t as [|x t IH]; simpl; [discriminate|].
  destruct (rstrip t) as [|y r] eqn:E.
  - destruct (is_space x) eqn:Ex; simpl; [discriminate|]. now intros [= <-].
  - intros H. apply IH. exact H.
Qed.

Lemma rstrip_head (t : pystr) (c : char) (r : pystr) :
  rstrip t = c :: r -> exists r', t = c :: r'.
Proof.
  destruct t as [|x t]; simpl; [discriminate|].
  destruct (rstrip t) as [|y r0].
  - destruct (is_space x); [discriminate|]. intros [= <- _]. eauto.
  - intros [= <- _]. eauto.
Qed.

Lemma strip_ends (t : pystr) :
  (forall c r, strip t = c :: r -> is_space c = false)
  /\ (forall c, last (strip t) = Some c -> is_space c = false).
Proof.
  unfold strip. split.
  - intros c r H. destruct (rstrip_head _ _ _ H) as [r' H'].
    exact (lstrip_head _ _ _ H').
  - apply rstrip_last.
Qed.

Lemma rstrip_app_space (t : pystr) (s : char) :
  is_space s = true -> rstrip (t ++ [s]) = rstrip t.
Proof.
  intros Hs. induction t as [|x t IH]; simpl.
  - now rewrite Hs.
  - now rewrite IH.
Qed.

Lemma strip_app_space (t : pystr) (s : char) :
  is_space s = true -> strip (t ++ [s]) = strip t.
Proof.
  intros Hs. unfold strip. induction t as [|x t IH]; simpl.
  - now rewrite Hs.
  - destruct (is_space x); [exact IH|].
    exact (rstrip_app_space (x :: t) s Hs).
Qed.

Lemma strip_cons_space (t : pystr) (s : char) :
  is_space s = true -> strip (s :: t) = strip t.
Proof. intros Hs. unfold strip. simpl. now rewrite Hs. Qed.

Lemma strip_pad_r (t r : pystr) : all_space r -> strip (t ++ r) = strip t.
Proof.
  induction r as [|s r IH] using rev_ind; intros H.
  - now rewrite app_nil_r.
  - apply Forall_app in H as [Hr Hs]. apply Forall_inv in Hs.
    rewrite app_assoc, strip_app_space by exact Hs. now apply IH.
Qed.

(** Whitespace around a text does not change what [strip] returns. *)
Lemma strip_pad (l t r : pystr) :
  all_space l -> all_space r -> strip (l ++ t ++ r) = strip t.
Proof.
  intros Hl Hr. induction Hl as [|s l Hs Hl IH]; simpl.
  - now apply strip_pad_r.
  - now rewrite strip_cons_space.
Qed.

Lemma lstrip_split (t : pystr) :
  exists l, t = l ++ lstrip t /\ all_space l.
Proof.
  induction t as [|x t (l & E & Hl)]; simpl.
  - exists []. split; [reflexivity|constructor].
  - destruct (is_space x) eqn:Ex.
    + exists (x :: l). split; [simpl; now f_equal|now constructor].
    + exists []. split; [reflexivity|constructor].
Qed.

Lemma rstrip_split (t : pystr) :
  exists r, t = rstrip t ++ r /\ all_space r.
Proof.
  induction t as [|x t (r & E & Hr)]; simpl.
  - exists []. split; [reflexivity|constructor].
  - destruct (rstrip t) as [|y r0] eqn:Et.
    + destruct (is_space x) eqn:Ex.
      * exists (x :: r). simpl in E. subst t.
        split; [reflexivity|now constructor].
      * exists r. simpl in *. split; [now f_equal|exact Hr].
    + exists r. split; [simpl; now f_equal|exact Hr].
Qed.

Lemma strip_split (t : pystr) :
  exists l r, t = l ++ strip t ++ r /\ all_space l /\ all_space r.
Proof.
  destruct (lstrip_split t) as (l & El & Hl).
  destruct (rstrip_split (lstrip t)) as (r & Er & Hr).
  exists l, r. unfold strip. rewrite <- Er. auto.
Qed.

Lemma all_space_strip_nulls (t : pystr) :
  all_space t -> all_space (strip_nulls t).
Proof.
  unfold all_space, strip_nulls. rewrite !Forall_forall.
  intros H c Hc. apply H. apply list_elem_of_In.
  apply list_elem_of_In, List.filter_In in Hc. tauto.
Qed.

(** Trimming before the null characters are removed is absorbed by the
    trimming after it. *)
Lemma strip_nulls_strip (t : pystr) :
  strip (strip_nulls (strip t)) = strip (strip_nulls t).
Proof.
  destruct (strip_split t) as (l & r & E & Hl & Hr).
  rewrite E at 2. rewrite !strip_nulls_app.
  symmetry. apply strip_pad; now apply all_space_strip_nulls.
Qed.

Lemma split_ws_head (t w : pystr) (ws : list pystr) :
  split_ws t = w :: ws -> w <> [].
Proof.
  revert w ws. induction t as [|c r IH]; intros w ws; simpl; [discriminate|].
  destruct (is_space c); [apply IH|].
  destruct r as [|c' r']; [now intros [= <- _]|].
  destruct (is_space c'); [now intros [= <- _]|].
  destruct (split_ws (c' :: r')) as [|w' ws']; now intros [= <- _].
Qed.

Lemma split_ws_nonspace (c : char) (r : pystr) :
  is_space c = false -> split_ws (c :: r) <> [].
Proof.
  intros Hc. simpl. rewrite Hc. destruct r as [|c' r']; [discriminate|].
  destruct (is_space c'); [discriminate|].
  destruct (split_ws (c' :: r')); discriminate.
Qed.

Lemma join_words_nil (t : pystr) :
  join [SPACE] (split_ws t) = [] <-> split_ws t = [].
Proof.
  split; [|now intros ->].
  destruct (split_ws t) as [|w ws] eqn:E; [reflexivity|].
  apply split_ws_head in E. destruct w; [congruence|].
  destruct ws; discriminate.
Qed.

Lemma join_cons2 (sep p q : pystr) (qs : list pystr) :
  join sep (p :: q :: qs) = p ++ sep ++ join sep (q :: qs).
Proof. reflexivity. Qed.

Lemma join_cons_head (sep : pystr) (c : char) (w : pystr) (ws : list pystr) :
  join sep ((c :: w) :: ws) = c :: join sep (w :: ws).
Proof. destruct ws; reflexivity. Qed.

(** A text that starts with whitespace collapses to a space followed by
    nothing or by a character that is not whitespace. *)
Lemma collapse_space_head (c : char) (r : pystr) :
  is_space c = true ->
  exists x, collapse_whitespace (c :: r) = SPACE :: x /\ lstrip x = x.
Proof.
  revert c. induction r as [|c' r' IH]; intros c Hc; simpl; rewrite Hc.
  - exists []. split; reflexivity.
  - destruct (is_space c') eqn:Hc'.
    + destruct (IH c' Hc') as (x & E & Hx). simpl in E. rewrite Hc' in E.
      exists x. split; [exact E|exact Hx].
    + eexists. split; [reflexivity|]. simpl. now rewrite Hc'.
Qed.

Lemma split_ws_space (c : char) (r : pystr) :
  is_space c = true -> split_ws (c :: r) = split_ws r.
Proof. intros H. simpl. now rewrite H. Qed.

Lemma split_ws_end (c c' : char) (r : pystr) :
  is_space c = false -> is_space c' = true ->
  split_ws (c :: c' :: r) = [c] :: split_ws (c' :: r).
Proof. intros H H'. cbn [split_ws]. now rewrite H, H'. Qed.

Lemma split_ws_cont (c c' : char) (r : pystr) :
  is_space c = false -> is_space c' = false ->
  split_ws (c :: c' :: r)
  = match split_ws (c' :: r) with
    | w :: ws => (c :: w) :: ws
    | [] => [[c]]
    end.
Proof. intros H H'. cbn [split_ws]. now rewrite H, H'. Qed.

Lemma collapse_nonspace (c : char) (r : pystr) :
  is_space c = false ->
  collapse_whitespace (c :: r) = c :: collapse_whitespace r.
Proof. intros H. simpl. now rewrite H. Qed.

Lemma collapse_space_cons (c c' : char) (r : pystr) :
  is_space c = true ->
  collapse_whitespace (c :: c' :: r)
  = if is_space c' then collapse_whitespace (c' :: r)
    else SPACE :: collapse_whitespace (c' :: r).
Proof. intros H. cbn [collapse_whitespace]. now rewrite H. Qed.

Lemma strip_nonspace (c : char) (t : pystr) :
  is_space c = false ->
  strip (c :: t) = match rstrip t with
                   | [] => [c]
                   | x :: y => c :: x :: y
                   end.
Proof.
  intros H. unfold strip. cbn [lstrip]. rewrite H. cbn [rstrip].
  destruct (rstrip t); [now rewrite H|reflexivity].
Qed.

Lemma strip_no_lead (t : pystr) : lstrip t = t -> strip t = rstrip t.
Proof. intros H. unfold strip. now rewrite H. Qed.

(** Joining the words with single spaces is trimming the collapsed text. *)
Lemma join_words_collapse (t : pystr) :
  join [SPACE] (split_ws t) = strip (collapse_whitespace t).
Proof.
  induction t as [|c r IH]; [reflexivity|].
  destruct (is_space c) eqn:Hc.
  - (* leading whitespace *)
    rewrite split_ws_space, IH by exact Hc.
    destruct r as [|c' r']; [simpl; rewrite Hc; reflexivity|].
    rewrite (collapse_space_cons c c' r' Hc).
    destruct (is_space c'); [reflexivity|].
    symmetry. now apply strip_cons_space.
  - (* a word starts *)
    rewrite collapse_nonspace, strip_nonspace by exact Hc.
    destruct r as [|c' r']; [simpl; now rewrite Hc|].
    remember (c' :: r') as r eqn:Er.
    destruct (is_space c') eqn:Hc'.
    + (* the word ends here *)
      assert (Hw : rstrip (collapse_whitespace r)
                   = match join [SPACE] (split_ws r) with
                     | [] => []
                     | y :: z => SPACE :: y :: z
                     end).
      { rewrite IH. subst r.
        destruct (collapse_space_head c' r' Hc') as (x & E & Hx).
        rewrite E, strip_cons_space, (strip_no_lead x Hx) by reflexivity.
        cbn [rstrip]. destruct (rstrip x); reflexivity. }
      rewrite Hw. subst r. rewrite split_ws_end by assumption.
      destruct (split_ws (c' :: r')) as [|w ws] eqn:Ew; [reflexivity|].
      assert (Hne : join [SPACE] (w :: ws) <> []).
      { intros H. rewrite <- Ew in H. apply join_words_nil in H. congruence. }
      rewrite join_cons2.
      destruct (join [SPACE] (w :: ws)); [congruence|reflexivity].
    + (* the word goes on *)
      assert (Hw : rstrip (collapse_whitespace r) = join [SPACE] (split_ws r)).
      { rewrite IH. subst r. rewrite collapse_nonspace by exact Hc'.
        apply eq_sym, strip_no_lead. simpl. now rewrite Hc'. }
      rewrite Hw. subst r. rewrite split_ws_cont by assumption.
      pose proof (split_ws_nonspace c' r' Hc') as Hne.
      destruct (split_ws (c' :: r')) as [|w ws] eqn:Ew; [congruence|].
      rewrite join_cons_head.
      assert (Hj : join [SPACE] (w :: ws) <> []).
      { intros H. rewrite <- Ew in H. apply join_words_nil in H. congruence. }
      destruct (join [SPACE] (w :: ws)); [congruence|reflexivity].
Qed.

(** [clean_text] is the clean-up that the specification words. *)
Lemma clean_text_spec (t : pystr) : clean_text t = cleanup_spec t.
Proof.
  unfold clean_text, cleanup_spec.
  now rewrite replace_nul, join_words_collapse, strip_nulls_strip.
Qed.

Lemma clean_text_no_nul (t : pystr) : NUL ∉ clean_text t.
Proof.
  unfold clean_text. rewrite replace_nul. intros H.
  apply strip_sublist in H. now apply strip_nulls_clean in H.
Qed.

(** The loop keeps the documents whose cleaned text has more than 50
    characters. *)
Lemma clean_documents_filter (raw_docs : list RawDoc) :
  clean_documents raw_docs
  = List.map (fun doc => {| page_content := clean_text (content doc);
                            metadata := raw_metadata doc |})
      (List.filter (fun doc => 50 <? length (clean_text (content doc)))
         raw_docs).
Proof.
  induction raw_docs as [|doc rest IH]; [reflexivity|].
  cbn [clean_documents List.filter]. rewrite IH.
  destruct (clean_text (content doc)) as [|c t] eqn:E; [reflexivity|].
  destruct (50 <? length (c :: t)); [|reflexivity].
  cbn [List.map]. now rewrite E.
Qed.

End CleanFacts.
Import CleanFacts.

(* ===================================================================== *)
(** ** Facts about the binary64 operations *)
(* ===================================================================== *)

Module Binary64Facts.

Import Binary64.
Local Open Scope Z_scope.

(** On every quiz of 20 questions at most, the division and the product
    of the model are the IEEE 754 operations of the Standard Library. *)
Lemma agrees_with_SpecFloat : agrees_up_to 20 = true.
Proof. vm_compute. reflexivity. Qed.

(** The rounded quotient is within half a unit of the quotient. *)
Lemma round_half_even_spec (a b : Z) :
  0 <= a -> 0 < b ->
  - b <= 2 * (round_half_even a b * b - a) <= b.
Proof.
  intros Ha Hb. unfold round_half_even.
  pose proof (Z.div_mod a b ltac:(lia)) as Hdiv.
  pose proof (Z.mod_pos_bound a b Hb) as Hmod.
  destruct (Z.compare_spec (2 * (a mod b)) b) as [H|H|H];
    [destruct (Z.even (a / b))|..]; nia.
Qed.

Lemma round_half_even_bounds (a b lo hi : Z) :
  0 < b -> lo * b <= a -> a < hi * b ->
  lo <= round_half_even a b <= hi.
Proof.
  intros Hb Hlo Hhi.
  assert (lo <= a / b) by (apply Z.div_le_lower_bound; lia).
  assert (a / b < hi) by (apply Z.div_lt_upper_bound; lia).
  unfold round_half_even.
  destruct (2 * (a mod b) ?= b); [destruct (Z.even (a / b))|..]; lia.
Qed.

(** The logarithm read off the scaled quotient brackets the quotient. *)
Lemma floor_log2_spec (p q : Z) :
  0 < p -> 0 < q -> q <= p * 2 ^ 1100 ->
  let l := floor_log2 p q + 1100 in
  0 <= l /\ q * 2 ^ l <= p * 2 ^ 1100 < q * 2 ^ (l + 1).
Proof.
  intros Hp Hq Hle l. unfold floor_log2 in l.
  set (a := p * 2 ^ 1100) in *.
  assert (Hqt : 1 <= a / q) by (apply Z.div_le_lower_bound; lia).
  assert (El : l = Z.log2 (a / q)) by (unfold l; lia).
  pose proof (Z.log2_spec (a / q) ltac:(lia)) as [Hlo Hhi].
  rewrite <- El in Hlo, Hhi. replace (Z.succ l) with (l + 1) in Hhi by lia.
  pose proof (Z.log2_nonneg (a / q)) as Hnn. rewrite <- El in Hnn.
  pose proof (Z.mul_div_le a q Hq) as H1.
  pose proof (Z.mul_succ_div_gt a q Hq) as H2.
  split; [exact Hnn|]. split; nia.
Qed.

Lemma pow2_pos (e : Z) : 0 <= e -> 0 < 2 ^ e.
Proof. intros H. apply Z.pow_pos_nonneg; lia. Qed.

(** The double nearest to a quotient in the normal range and below
    [2 ^ 51]: a mantissa of 53 bits over a power of two, within a relative
    error of [2 ^ -53] (written with [2 ^ 53 - 1] to allow for the carry
    into the next binade). *)
Lemma round_nearest_even_spec (p q : Z) :
  0 < p -> 0 < q -> q <= p * 2 ^ 1022 -> p < q * 2 ^ 51 ->
  exists m E a,
    round_nearest_even p q = Float m (- E)
    /\ 1 <= E <= 1074 /\ a = 2 ^ E
    /\ 2 ^ 52 <= m < 2 ^ 53
    /\ (2 ^ 53 - 1) * (m * q) <= 2 ^ 53 * (p * a)
    /\ (2 ^ 53 - 2) * (p * a) <= (2 ^ 53 - 1) * (m * q).
Proof.
  intros Hp Hq Hlo Hhi.
  destruct (floor_log2_spec p q Hp Hq) as (Hl0 & Hl1 & Hl2).
  { change (2 ^ 1100) with (2 ^ 1022 * 2 ^ 78). nia. }
  set (l := floor_log2 p q + 1100) in *.
  (* the range of the logarithm *)
  assert (Hl78 : 78 <= l).
  { assert (2 ^ 78 < 2 ^ (l + 1)).
    { change (2 ^ 1100) with (2 ^ 1022 * 2 ^ 78) in Hl2. nia. }
    apply Z.pow_lt_mono_r_iff in H; lia. }
  assert (Hl1150 : l <= 1150).
  { assert (2 ^ l < 2 ^ 1151).
    { change (2 ^ 1151) with (2 ^ 51 * 2 ^ 1100).
      pose proof (pow2_pos 1100 ltac:(lia)). nia. }
    apply Z.pow_lt_mono_r_iff in H; lia. }
  (* the scaled quotient lies in the binade of the mantissa *)
  set (E' := 1152 - l).
  assert (HE' : 2 <= E' <= 1074) by (unfold E'; lia).
  pose proof (pow2_pos l Hl0) as Hpl.
  pose proof (pow2_pos E' ltac:(lia)) as Hpe.
  assert (Hsplit : 2 ^ 1100 * 2 ^ 52 = 2 ^ E' * 2 ^ l).
  { rewrite <- !Z.pow_add_r by lia. f_equal. unfold E'. lia. }
  assert (Hb1 : 2 ^ 52 * q <= p * 2 ^ E').
  { apply (Z.mul_le_mono_pos_r _ _ (2 ^ l) Hpl).
    replace (p * 2 ^ E' * 2 ^ l) with (p * 2 ^ 1100 * 2 ^ 52)
      by (rewrite <- !Z.mul_assoc, Hsplit; reflexivity).
    nia. }
  assert (Hb2 : p * 2 ^ E' < 2 ^ 53 * q).
  { apply (Z.mul_lt_mono_pos_r (2 ^ l) _ _ Hpl).
    replace (p * 2 ^ E' * 2 ^ l) with (p * 2 ^ 1100 * 2 ^ 52)
      by (rewrite <- !Z.mul_assoc, Hsplit; reflexivity).
    replace (2 ^ (l + 1)) with (2 * 2 ^ l) in Hl2
      by (rewrite Z.pow_add_r by lia; lia).
    nia. }
  (* unfold the rounding *)
  unfold round_nearest_even.
  destruct (Z.eqb_spec p 0) as [|_]; [lia|].
  replace (floor_log2 p q - (prec - 1)) with (- E')
    by (unfold E', l, prec; lia).
  rewrite Z.max_l by (unfold emin; lia).
  destruct (Z.leb_spec 0 (- E')) as [|_]; [lia|].
  rewrite Z.opp_involutive.
  set (m' := round_half_even (p * 2 ^ E') q).
  pose proof (round_half_even_spec (p * 2 ^ E') q ltac:(nia) Hq) as Hr.
  pose proof (round_half_even_bounds (p * 2 ^ E') q (2 ^ 52) (2 ^ 53) Hq
                ltac:(lia) ltac:(lia)) as Hm.
  fold m' in Hr, Hm.
  destruct (Z.eqb_spec m' (2 ^ prec)) as [Hc|Hc].
  - (* the mantissa carries into the next binade *)
    exists (2 ^ 52), (E' - 1), (2 ^ (E' - 1)).
    assert (Ha : 2 ^ E' = 2 * 2 ^ (E' - 1)).
    { replace E' with (1 + (E' - 1)) at 1 by lia.
      rewrite Z.pow_add_r by lia. reflexivity. }
    split; [f_equal; unfold prec; lia|].
    split; [lia|]. split; [reflexivity|].
    unfold prec in Hc. rewrite Hc, Ha in Hr. rewrite Ha in Hb1, Hb2.
    split; [lia|]. split; nia.
  - exists m', E', (2 ^ E').
    split; [reflexivity|]. split; [lia|]. split; [reflexivity|].
    unfold prec in Hc. split; [lia|]. split; nia.
Qed.

Lemma of_Z_100 : of_Z 100 = Float 7036874417766400 (- 46).
Proof. reflexivity. Qed.

Lemma mul_100 (m E : Z) :
  0 < E ->
  mul (Float m (- E)) (of_Z 100)
  = round_nearest_even (m * 7036874417766400) (2 ^ (E + 46)).
Proof.
  intros HE. rewrite of_Z_100. unfold mul. cbn [mant expo].
  destruct (Z.leb_spec 0 (- E + - 46)); [lia|].
  f_equal. f_equal. lia.
Qed.

Lemma tenths_spec (m E : Z) :
  0 <= m -> 0 < E ->
  - 2 ^ E <= 2 * (tenths (Float m (- E)) * 2 ^ E - 10 * m) <= 2 ^ E.
Proof.
  intros Hm HE. unfold tenths. cbn [mant expo].
  destruct (Z.leb_spec 0 (- E)); [lia|]. rewrite Z.opp_involutive.
  apply round_half_even_spec; [lia|apply pow2_pos; lia].
Qed.




(** The arithmetic behind the accuracy of the score: two roundings with a
    relative error of [2 ^ -53] followed by the rounding to tenths cannot
    cross the midpoint between two tenths when the quiz has fewer than
    [2 ^ 40] questions. *)
Lemma tenths_of_percentage (c n my a mx b k : Z) :
  1 <= c <= n -> n < 2 ^ 40 -> 0 < a -> 0 < b ->
  (2 ^ 53 - 1) * (my * n) <= 2 ^ 53 * (c * a) ->
  (2 ^ 53 - 2) * (c * a) <= (2 ^ 53 - 1) * (my * n) ->
  (2 ^ 53 - 1) * (mx * (a * 2 ^ 46))
    <= 2 ^ 53 * (my * 7036874417766400 * b) ->
  (2 ^ 53 - 2) * (my * 7036874417766400 * b)
    <= (2 ^ 53 - 1) * (mx * (a * 2 ^ 46)) ->
  - b <= 2 * (k * b - 10 * mx) <= b ->
  - n <= 2 * k * n - 2000 * c <= n.
Proof.
  intros Hc Hn Ha Hb Hy1 Hy2 Hx1 Hx2 Hk.
  assert (Hab : 0 < a * b) by nia.
  assert (Han : 0 <= a * n) by nia.
  assert (Hcab : c * (a * b) <= (2 ^ 40 - 1) * (a * b)) by nia.
  assert (A2 : (2 ^ 53 - 1) * (mx * (a * 2 ^ 46)) * n
               <= 2 ^ 53 * (my * 7036874417766400 * b) * n)
    by (apply Z.mul_le_mono_nonneg_r; lia).
  assert (A3 : (2 ^ 53 - 1) * (my * n) * b <= 2 ^ 53 * (c * a) * b)
    by (apply Z.mul_le_mono_nonneg_r; lia).
  assert (B2 : (2 ^ 53 - 2) * (my * 7036874417766400 * b) * n
               <= (2 ^ 53 - 1) * (mx * (a * 2 ^ 46)) * n)
    by (apply Z.mul_le_mono_nonneg_r; lia).
  assert (B3 : (2 ^ 53 - 2) * (c * a) * b <= (2 ^ 53 - 1) * (my * n) * b)
    by (apply Z.mul_le_mono_nonneg_r; lia).
  change (2 ^ 46) with 70368744177664 in *.
  change (2 ^ 53) with 9007199254740992 in *.
  change (2 ^ 40) with 1099511627776 in *.
  split.
  - destruct (Z_le_gt_dec (- n) (2 * k * n - 2000 * c)) as [|Hbad];
      [assumption|exfalso].
    assert (B1 : 20 * mx * (a * n) <= (2 * k + 1) * b * (a * n))
      by (apply Z.mul_le_mono_nonneg_r; lia).
    assert (B4 : (2 * k + 1) * n * (a * b) <= (2000 * c - 1) * (a * b))
      by (apply Z.mul_le_mono_nonneg_r; lia).
    lia.
  - destruct (Z_le_gt_dec (2 * k * n - 2000 * c) n) as [|Hbad];
      [assumption|exfalso].
    assert (A1 : (2 * k - 1) * b * (a * n) <= 20 * mx * (a * n))
      by (apply Z.mul_le_mono_nonneg_r; lia).
    assert (A4 : (2000 * c + 1) * (a * b) <= (2 * k - 1) * n * (a * b))
      by (apply Z.mul_le_mono_nonneg_r; lia).
    lia.
Qed.

(** The tenths of the computed percentage are nearest to the exact
    percentage: [k / 10] is within [1 / 20] of [100 * c / n]. *)
Lemma score_accuracy (c n : Z) :
  0 <= c <= n -> 0 < n < 2 ^ 40 ->
  - n <= 2 * tenths (mul (truediv c n) (of_Z 100)) * n - 2000 * c <= n.
Proof.
  intros Hc Hn. destruct (Z.eq_dec c 0) as [->|Hc0].
  - replace (tenths (mul (truediv 0 n) (of_Z 100))) with 0
      by (vm_compute; reflexivity).
    lia.
  - assert (Hp40 : 2 ^ 40 = 1099511627776) by reflexivity.
    assert (Hr1 : n <= c * 2 ^ 1022).
    { assert (2 ^ 40 <= 2 ^ 1022) by (apply Z.pow_le_mono_r; lia).
      assert (1 * 2 ^ 1022 <= c * 2 ^ 1022)
        by (apply Z.mul_le_mono_nonneg_r; lia).
      lia. }
    assert (Hr2 : c < n * 2 ^ 51).
    { change (2 ^ 51) with 2251799813685248. lia. }
    destruct (round_nearest_even_spec c n ltac:(lia) ltac:(lia) Hr1 Hr2)
      as (my & Ey & a & Hy & HEy & Ha & Hmy & Hy1 & Hy2).
    assert (Ha0 : 0 < a) by (subst a; apply pow2_pos; lia).
    assert (Ha46 : 2 ^ (Ey + 46) = a * 2 ^ 46)
      by (subst a; apply Z.pow_add_r; lia).
    assert (Ha1074 : a <= 2 ^ 1074)
      by (subst a; apply Z.pow_le_mono_r; lia).
    clear Ha.
    assert (Ha51 : 2 ^ 51 <= a).
    { assert (H1 : c * a <= n * a) by (apply Z.mul_le_mono_nonneg_r; lia).
      change (2 ^ 51) with 2251799813685248.
      change (2 ^ 52) with 4503599627370496 in *.
      change (2 ^ 53) with 9007199254740992 in *.
      assert (H2 : 9007199254740991 * my * n <= 9007199254740992 * a * n)
        by lia.
      apply Z.mul_le_mono_pos_r in H2; lia. }
    unfold truediv. rewrite Hy, mul_100, Ha46 by lia.
    assert (Hr3 : a * 2 ^ 46 <= my * 7036874417766400 * 2 ^ 1022).
    { assert (H1 : a * 2 ^ 46 <= 2 ^ 1074 * 2 ^ 46)
        by (apply Z.mul_le_mono_nonneg_r; lia).
      assert (H2 : 2 ^ 52 * 7036874417766400 * 2 ^ 1022
                   <= my * 7036874417766400 * 2 ^ 1022).
      { apply Z.mul_le_mono_nonneg_r; [apply Z.pow_nonneg; lia|lia]. }
      assert (H3 : 2 ^ 1074 * 2 ^ 46 <= 2 ^ 52 * 7036874417766400 * 2 ^ 1022).
      { vm_compute. discriminate. }
      lia. }
    assert (Hr4 : my * 7036874417766400 < a * 2 ^ 46 * 2 ^ 51).
    { change (2 ^ 51) with 2251799813685248 in *.
      change (2 ^ 53) with 9007199254740992 in *.
      change (2 ^ 46) with 70368744177664. lia. }
    destruct (round_nearest_even_spec (my * 7036874417766400) (a * 2 ^ 46)
                ltac:(lia) ltac:(lia) Hr3 Hr4)
      as (mx & Ex & b & Hx & HEx & Hb & Hmx & Hx1 & Hx2).
    rewrite Hx.
    pose proof (tenths_spec mx Ex ltac:(lia) ltac:(lia)) as Hk.
    rewrite <- Hb in Hk.
    assert (Hb0 : 0 < b) by (subst b; apply pow2_pos; lia).
    clear Hb Hr3 Ha1074 Ha46.
    apply (tenths_of_percentage c n my a mx b); try assumption; lia.
Qed.

End Binary64Facts.

(* ===================================================================== *)
(** ** Facts about the grading loop *)
(* ===================================================================== *)

Module GradeFacts.

Section WithUpper.

Variable upper : pystr -> pystr.
Variable user_answers : gmap Z pystr.

(** The record that the loop body builds for a question with a key. *)
Lemma grade_one_ok (idx : nat) (question : dict) (key : pystr) :
  answer_key question = Some key ->
  exists g,
    grade_one upper user_answers idx question = Ok g
    /\ question_number g = (Z.of_nat idx + 1)%Z
    /\ is_correct g = answer_matches upper user_answers idx question
    /\ is_correct g
       = bool_decide (upper (default [] (user_answers !! Z.of_nat idx))
                      = upper key)
    /\ correct_answer g = upper key
    /\ user_answer g
       = match upper (default [] (user_answers !! Z.of_nat idx)) with
         | [] => py "Not answered"
         | c :: s => c :: s
         end.
Proof.
  intros Hkey. unfold grade_one, answer_matches, dict_get_default.
  rewrite Hkey. unfold answer_key in Hkey.
  destruct (dict_get (py "correct_answer") question) as [[]|];
    try discriminate; injection Hkey as <-;
    (eexists; split; [reflexivity|];
     cbn [question_number is_correct correct_answer user_answer];
     repeat split; try reflexivity; now destruct (upper _)).
Qed.

Lemma grade_loop_ok (questions : list dict) :
  Forall has_key questions ->
  forall idx results correct_count,
  exists graded,
    grade_loop upper user_answers idx questions results correct_count
    = Ok (results ++ graded,
          correct_count + count_correct upper user_answers idx questions)
    /\ length graded = length questions
    /\ forall i question, questions !! i = Some question ->
         exists g, graded !! i = Some g
           /\ grade_one upper user_answers (idx + i) question = Ok g.
Proof.
  induction 1 as [|question rest [key Hkey] _ IH];
    intros idx results correct_count.
  - exists []. cbn. rewrite app_nil_r, Nat.add_0_r.
    split; [reflexivity|]. split; [reflexivity|]. intros i q Hq.
    discriminate Hq.
  - destruct (grade_one_ok idx question key Hkey)
      as (g & Hg & _ & Hm & _).
    cbn [grade_loop count_correct]. rewrite Hg. cbn [rbind].
    destruct (IH (S idx) (results ++ [g])
                (if is_correct g then S correct_count else correct_count))
      as (graded & -> & Hlen & Hrec).
    exists (g :: graded). split; [|split].
    + rewrite <- app_assoc. cbn [app]. f_equal. f_equal.
      rewrite <- Hm. destruct (is_correct g); lia.
    + cbn. now rewrite Hlen.
    + intros [|i] q Hq; cbn in Hq.
      * injection Hq as <-. exists g. rewrite Nat.add_0_r. auto.
      * destruct (Hrec i q Hq) as (g' & Hg' & Hone). exists g'.
        split; [exact Hg'|]. now rewrite Nat.add_succ_r.
Qed.

(** The only exception of the loop body: the key is not a string. *)
Lemma grade_one_raise (idx : nat) (question : dict) (e : exn) :
  grade_one upper user_answers idx question = Raise e ->
  exn_kind e = AttributeError /\ answer_key question = None.
Proof.
  unfold grade_one, dict_get_default, answer_key.
  destruct (dict_get (py "correct_answer") question) as [[]|];
    cbn [upper_of rbind]; intros [= <-]; split; reflexivity.
Qed.

Lemma grade_loop_raise (questions : list dict) (e : exn) :
  forall idx results correct_count,
    grade_loop upper user_answers idx questions results correct_count
    = Raise e ->
    exn_kind e = AttributeError /\ ~ Forall has_key questions.
Proof.
  induction questions as [|question rest IH];
    intros idx results correct_count; cbn [grade_loop]; [discriminate|].
  destruct (grade_one upper user_answers idx question) as [g|e0] eqn:Hone;
    cbn [rbind].
  - intros H. destruct (IH _ _ _ H) as [Hk Hn]. split; [exact Hk|].
    intros Hall. apply Hn. now apply Forall_inv_tail in Hall.
  - intros [= <-]. destruct (grade_one_raise _ _ _ Hone) as [Hk Hn].
    split; [exact Hk|]. intros Hall. apply Forall_inv in Hall.
    destruct Hall as [key Hkey]. congruence.
Qed.

Lemma grade_quiz_raise (questions : list dict) (e : exn) :
  grade_quiz upper questions user_answers = Raise e ->
  exn_kind e = AttributeError /\ ~ Forall has_key questions.
Proof.
  unfold grade_quiz.
  destruct (grade_loop upper user_answers 0 questions [] 0)
    as [[graded n]|e0] eqn:Hloop; cbn [rbind].
  - destruct questions; discriminate.
  - intros [= <-]. exact (grade_loop_raise _ _ _ _ _ Hloop).
Qed.

Lemma count_correct_le (questions : list dict) (idx : nat) :
  count_correct upper user_answers idx questions <= length questions.
Proof.
  revert idx. induction questions as [|q rest IH]; intros idx; cbn; [lia|].
  specialize (IH (S idx)).
  destruct (answer_matches upper user_answers idx q); lia.
Qed.


Lemma count_correct_pos (questions : list dict) (idx i : nat) (q : dict) :
  questions !! i = Some q ->
  answer_matches upper user_answers (idx + i) q = true ->
  1 <= count_correct upper user_answers idx questions.
Proof.
  revert idx i. induction questions as [|q' rest IH]; intros idx i Hq Hm;
    [discriminate Hq|].
  cbn. destruct i as [|i]; cbn in Hq.
  - injection Hq as ->. rewrite Nat.add_0_r in Hm. rewrite Hm. lia.
  - rewrite <- Nat.add_succ_comm in Hm. specialize (IH (S idx) i Hq Hm). lia.
Qed.

(** What [grade_quiz] returns on questions that all have a key. *)
Lemma grade_quiz_ok (questions : list dict) :
  Forall has_key questions ->
  exists r,
    grade_quiz upper questions user_answers = Ok r
    /\ total r = length questions
    /\ correct r = count_correct upper user_answers 0 questions
    /\ score r
       = match questions with
         | [] => PyInt 0
         | _ :: _ =>
             PyFloat
               (Binary64.round1
                  (Binary64.mul
                     (Binary64.truediv (Z.of_nat (correct r))
                        (Z.of_nat (total r)))
                     (Binary64.of_Z 100)))
         end
    /\ length (results r) = length questions
    /\ forall i question, questions !! i = Some question ->
         exists g, results r !! i = Some g
           /\ grade_one upper user_answers i question = Ok g.
Proof.
  intros Hk. unfold grade_quiz.
  destruct (grade_loop_ok questions Hk 0 [] 0) as (graded & -> & Hlen & Hrec).
  cbn [rbind app]. destruct questions as [|q rest].
  - eexists. split; [reflexivity|]. cbn. repeat split; auto.
  - eexists. split; [reflexivity|]. cbn [total correct score results].
    repeat split; auto.
Qed.

End WithUpper.


End GradeFacts.

(* ===================================================================== *)
(** ** Facts about dictionaries *)
(* ===================================================================== *)

Module DictFacts.

Lemma dict_get_set_eq (key : pystr) (v : json) (d : dict) :
  dict_get key (dict_set key v d) = Some v.
Proof.
  induction d as [|[k w] rest IH]; cbn [dict_set dict_get].
  - now rewrite bool_decide_eq_true_2.
  - destruct (bool_decide (k = key)) eqn:E; cbn [dict_get]; rewrite E;
      [reflexivity|exact IH].
Qed.

Lemma dict_get_set_ne (key key' : pystr) (v : json) (d : dict) :
  key' <> key -> dict_get key' (dict_set key v d) = dict_get key' d.
Proof.
  intros Hne. induction d as [|[k w] rest IH]; cbn [dict_set dict_get].
  - rewrite bool_decide_eq_false_2; [reflexivity|congruence].
  - destruct (bool_decide (k = key)) eqn:E; cbn [dict_get].
    + apply bool_decide_eq_true in E. subst k.
      now rewrite !bool_decide_eq_false_2 by congruence.
    + destruct (bool_decide (k = key')); [reflexivity|exact IH].
Qed.

(** Setting a key keeps the keys in their order; a new key comes last. *)
Lemma dict_set_keys (key : pystr) (v : json) (d : dict) :
  List.map fst (dict_set key v d)
  = if bool_decide (key ∈ List.map fst d) then List.map fst d
    else List.map fst d ++ [key].
Proof.
  induction d as [|[k w] rest IH]; [reflexivity|].
  cbn [dict_set List.map fst].
  destruct (bool_decide (k = key)) eqn:E.
  - apply bool_decide_eq_true in E. subst k.
    rewrite bool_decide_eq_true_2; [reflexivity|set_solver].
  - apply bool_decide_eq_false in E. cbn [List.map fst]. rewrite IH.
    destruct (bool_decide (key ∈ List.map fst rest)) eqn:E'.
    + apply bool_decide_eq_true in E'.
      rewrite bool_decide_eq_true_2; [reflexivity|set_solver].
    + apply bool_decide_eq_false in E'.
      rewrite bool_decide_eq_false_2; [reflexivity|set_solver].
Qed.

End DictFacts.
Import DictFacts.

(* ===================================================================== *)
(** ** Facts about the candidate text of [_extract_json] *)
(* ===================================================================== *)

Module CandidateFacts.

Lemma contains_refl (t : pystr) : contains t t = true.
Proof. apply contains_spec. exists [], []. now rewrite app_nil_r. Qed.

Lemma contains_nil (t : pystr) : contains [] t = true.
Proof. apply contains_spec. now exists [], t. Qed.

Lemma contains_trans (s t u : pystr) :
  contains s t = true -> contains t u = true -> contains s u = true.
Proof.
  rewrite !contains_spec. intros (a & b & ->) (a' & b' & ->).
  exists (a' ++ a), (b ++ b'). now rewrite <- !app_assoc.
Qed.

(** A text without the pattern has no piece with the pattern. *)
Lemma contains_piece_false (s t u : pystr) :
  contains t u = true -> contains s u = false -> contains s t = false.
Proof.
  intros Ht Hs. destruct (contains s t) eqn:E; [|reflexivity].
  now rewrite (contains_trans _ _ _ E Ht) in Hs.
Qed.

Lemma head_piece_contained (sep t : pystr) :
  contains (head_piece sep t) t = true.
Proof.
  destruct (head_piece_prefix sep t) as (s & E & _).
  apply contains_spec. exists [], s. exact E.
Qed.

Lemma cut_rest_contained (sep t a b : pystr) :
  cut sep t = Some (a, b) -> contains b t = true.
Proof.
  intros H. apply cut_Some in H. apply contains_spec.
  exists (a ++ sep), []. now rewrite app_nil_r, <- app_assoc.
Qed.

(** Every part of [t.split(sep)] is a piece of [t] without the
    separator. *)
Lemma split_sep_parts (sep : pystr) :
  sep <> [] ->
  forall (t part : pystr), part ∈ split_sep sep t ->
    contains part t = true /\ contains sep part = false.
Proof.
  intros Hsep t. remember (length t) as n eqn:Hn.
  assert (Hle : length t <= n) by lia. clear Hn.
  revert t Hle. induction n as [|n IH]; intros t Hle part;
    rewrite split_sep_unfold by exact Hsep;
    destruct (cut sep t) as [[a b]|] eqn:E.
  - apply cut_length in E; [lia|exact Hsep].
  - intros Hp. apply list_elem_of_singleton in Hp. subst part.
    split; [apply contains_refl|now apply cut_None].
  - intros Hp. apply elem_of_cons in Hp as [->|Hp].
    + split; [|exact (cut_Some_first _ _ _ _ Hsep E)].
      apply cut_Some in E. apply contains_spec. exists [], (sep ++ b).
      exact E.
    + pose proof (cut_length _ _ _ _ Hsep E) as Hlen.
      destruct (IH b ltac:(lia) part Hp) as [Hin Hclean].
      split; [|exact Hclean].
      exact (contains_trans _ _ _ Hin (cut_rest_contained _ _ _ _ E)).
  - intros Hp. apply list_elem_of_singleton in Hp. subst part.
    split; [apply contains_refl|now apply cut_None].
Qed.

Lemma first_braced_part_cases (parts : list pystr) (text : pystr) :
  first_braced_part parts text = text
  \/ first_braced_part parts text ∈ parts.
Proof.
  unfold first_braced_part.
  destruct (List.find has_braces parts) as [part|] eqn:E; [right|now left].
  apply List.find_some in E as [E _]. now apply list_elem_of_In.
Qed.

Lemma upto_last_prefix (c : char) (t m : pystr) :
  upto_last c t = Some m -> exists b, t = m ++ b.
Proof.
  revert m. induction t as [|x t IH]; intros m; simpl; [discriminate|].
  destruct (upto_last c t) as [m0|].
  - intros [= <-]. destruct (IH _ eq_refl) as [b ->]. now exists b.
  - destruct (x =? c)%N; [|discriminate]. intros [= <-]. now exists t.
Qed.

Lemma re_search_contained (t m : pystr) :
  re_search_braces t = Some m -> contains m t = true.
Proof.
  rewrite contains_spec.
  induction t as [|x t IH]; simpl; [discriminate|].
  assert (Hrec : re_search_braces t = Some m ->
                 exists a b, x :: t = a ++ m ++ b).
  { intros H. destruct (IH H) as (a & b & ->). now exists (x :: a), b. }
  destruct (x =? LBRACE)%N; [|exact Hrec].
  destruct (upto_last RBRACE t) as [m0|] eqn:E; [|exact Hrec].
  intros [= <-]. apply upto_last_prefix in E as [b ->].
  now exists [], b.
Qed.

Lemma strip_contained (t : pystr) : contains (strip t) t = true.
Proof.
  destruct (strip_split t) as (l & r & E & _). apply contains_spec.
  now exists l, r.
Qed.

(** A text that neither starts nor ends with whitespace is left alone by
    [strip]; so [strip] changes nothing the second time. *)
Lemma strip_fixed (t : pystr) :
  (forall c r, t = c :: r -> is_space c = false) ->
  (forall c, last t = Some c -> is_space c = false) ->
  strip t = t.
Proof.
  intros Hhead Hlast. destruct t as [|x t]; [reflexivity|].
  pose proof (Hhead x t eq_refl) as Hx.
  destruct t as [|y t] using rev_ind; [now apply strip_keep1|].
  clear IHt. apply strip_keep; [exact Hx|].
  apply Hlast. change (x :: t ++ [y]) with ((x :: t) ++ [y]).
  now rewrite last_snoc.
Qed.

Lemma strip_idem (t : pystr) : strip (strip t) = strip t.
Proof. destruct (strip_ends t) as [H1 H2]. now apply strip_fixed. Qed.

Lemma lookup_middle {A} (a s b : list A) (i : nat) (x : A) :
  s !! i = Some x -> (a ++ s ++ b) !! (length a + i) = Some x.
Proof.
  intros H. rewrite lookup_app_r by lia.
  replace (length a + i - length a) with i by lia.
  rewrite lookup_app_l; [exact H|]. now apply lookup_lt_Some in H.
Qed.

(** The search finds nothing in a piece of a text in which it finds
    nothing. *)
Lemma re_search_piece_None (s t : pystr) :
  contains s t = true -> re_search_braces t = None ->
  re_search_braces s = None.
Proof.
  intros Hs Ht. apply contains_spec in Hs as (a & b & ->).
  apply re_search_None. intros i j Hij Hi Hj.
  apply (re_search_None_inv _ Ht (length a + i) (length a + j));
    [lia|now apply lookup_middle|now apply lookup_middle].
Qed.

(** An object is its own match. *)
Lemma re_search_own_object (mid : pystr) :
  re_search_braces (LBRACE :: mid ++ [RBRACE])
  = Some (LBRACE :: mid ++ [RBRACE]).
Proof.
  pose proof (re_search_object [] mid []) as H.
  rewrite app_nil_r in H. apply H; set_solver.
Qed.

(** The text that the fence handling of [_extract_json] hands to the brace
    search: a piece of the reply, without a fence when the reply has a json
    fence or a part with both braces. *)
Lemma fenced_text (text : pystr) :
  exists text1,
    (if contains fence_json text then
       (after <- index (split_sep fence_json text) 1 ;;
        index (split_sep fence after) 0)%result
     else if contains fence text then
       Ok (first_braced_part (split_sep fence text) text)
     else Ok text) = Ok text1
    /\ contains text1 text = true
    /\ (contains fence_json text = true -> contains fence text1 = false)
    /\ (text1 = text \/ contains fence text1 = false).
Proof.
  destruct (contains fence_json text) eqn:Hj.
  - destruct (cut fence_json text) as [[a b]|] eqn:Hcut;
      [|apply cut_None in Hcut; congruence].
    rewrite (index_split_1 _ _ _ _ fence_json_nonempty Hcut).
    cbn [rbind]. rewrite (index_split_0 _ _ fence_nonempty).
    eexists. split; [reflexivity|].
    pose proof (head_piece_clean fence (head_piece fence_json b)
                  fence_nonempty) as Hclean.
    split; [|split; [intros _; exact Hclean|right; exact Hclean]].
    apply (contains_trans _ (head_piece fence_json b));
      [apply head_piece_contained|].
    apply (contains_trans _ b); [apply head_piece_contained|].
    exact (cut_rest_contained _ _ _ _ Hcut).
  - destruct (contains fence text) eqn:Hf.
    + eexists. split; [reflexivity|].
      destruct (first_braced_part_cases (split_sep fence text) text)
        as [->|Hin].
      * split; [apply contains_refl|]. split; [discriminate|now left].
      * apply (split_sep_parts fence fence_nonempty) in Hin as [H1 H2].
        split; [exact H1|]. split; [discriminate|now right].
    + eexists. split; [reflexivity|].
      split; [apply contains_refl|]. split; [discriminate|now left].
Qed.

(** When no fence starts before it, the fence written after [pre] is the
    first one of the text. *)
Lemma cut_fence_first (pre rest : pystr) :
  contains fence (pre ++ [BACKTICK; BACKTICK]) = false ->
  cut fence (pre ++ fence ++ rest) = Some (pre, rest).
Proof.
  intros Hpre. apply cut_intro. intros a1 a2 -> Ha2.
  rewrite <- app_assoc in Hpre.
  apply contains_app_false in Hpre as [_ Hpre].
  destruct (starts_with _ _) eqn:E; [exfalso|reflexivity].
  rewrite fence_eq in E at 2.
  change [BACKTICK; BACKTICK; BACKTICK]
    with ([BACKTICK; BACKTICK] ++ [BACKTICK]) in E.
  rewrite <- !app_assoc, app_assoc in E.
  apply starts_with_shorten in E.
  - apply contains_here in E. congruence.
  - rewrite length_app. destruct a2; [congruence|].
    change (length fence) with 3. simpl. lia.
Qed.

(** The parts of a reply with a block between two fences. *)
Lemma split_fenced_block (pre inner post : pystr) :
  contains fence (pre ++ [BACKTICK; BACKTICK]) = false ->
  contains fence (inner ++ [BACKTICK; BACKTICK]) = false ->
  split_sep fence (pre ++ fence ++ inner ++ fence ++ post)
  = pre :: inner :: split_sep fence post.
Proof.
  intros Hpre Hinner.
  rewrite split_sep_unfold, (cut_fence_first pre _ Hpre)
    by exact fence_nonempty.
  now rewrite split_sep_unfold, (cut_fence_first inner _ Hinner)
    by exact fence_nonempty.
Qed.

Lemma has_braces_object (a mid b : pystr) :
  has_braces (a ++ (LBRACE :: mid ++ [RBRACE]) ++ b) = true.
Proof.
  unfold has_braces. apply andb_true_iff.
  split; apply contains_single; set_solver.
Qed.

End CandidateFacts.
Import CandidateFacts.

(* ===================================================================== *)
(** ** Facts about the parts between fences *)
(* ===================================================================== *)

Module PartsFacts.

(** The cut is at the first occurrence: the separator starts nowhere
    inside the part before it. *)
Lemma cut_Some_min (sep t a b : pystr) :
  sep <> [] -> cut sep t = Some (a, b) ->
  forall a1 a2, a = a1 ++ a2 -> a2 <> [] ->
    starts_with sep (a2 ++ sep ++ b) = false.
Proof.
  intros Hsep. revert a b. induction t as [|c t IH]; intros a b.
  - rewrite cut_nil by exact Hsep. discriminate.
  - cbn [cut]. destruct (starts_with sep (c :: t)) eqn:E.
    + intros [= <- <-] a1 a2 Ha Ha2.
      symmetry in Ha. apply app_eq_nil in Ha as [_ ->]. congruence.
    + destruct (cut sep t) as [[a' b']|] eqn:E'; [|discriminate].
      intros [= <- <-] a1 a2 Ha Ha2.
      pose proof (cut_Some _ _ _ _ E') as Ht.
      destruct a1 as [|x a1]; cbn [app] in Ha.
      * subst a2. cbn [app]. now rewrite <- Ht.
      * injection Ha as <- Ha. exact (IH _ _ eq_refl a1 a2 Ha Ha2).
Qed.

(** What follows the text does not move its first cut. *)
Lemma cut_app_first (sep u r a b : pystr) :
  sep <> [] -> cut sep u = Some (a, b) ->
  cut sep (u ++ r) = Some (a, b ++ r).
Proof.
  intros Hsep H. pose proof (cut_Some _ _ _ _ H) as ->.
  rewrite <- !app_assoc. apply cut_intro. intros a1 a2 Ha Ha2.
  pose proof (cut_Some_min _ _ _ _ Hsep H a1 a2 Ha Ha2) as Hmin.
  destruct (starts_with sep (a2 ++ sep ++ b ++ r)) eqn:E; [|reflexivity].
  rewrite <- Hmin. symmetry.
  apply (starts_with_shorten sep (a2 ++ sep ++ b) r).
  - now rewrite <- !app_assoc.
  - rewrite !length_app. lia.
Qed.

Lemma last_app_cons {A} (u : list A) (x : A) (v : list A) :
  last (u ++ x :: v) = last (x :: v).
Proof.
  induction u as [|y u IH]; [reflexivity|].
  cbn [app]. destruct (u ++ x :: v) eqn:E; [|exact IH].
  symmetry in E. now apply app_cons_not_nil in E.
Qed.

Lemma last_suffix {A} (u v : list A) (x : A) :
  last v = Some x -> last (u ++ v) = Some x.
Proof.
  destruct v as [|y v]; [discriminate|]. intros H.
  now rewrite last_app_cons.
Qed.

(** A short start of a fence in front of [r]: backticks, and [r] goes on
    with a backtick. *)
Lemma fence_straddle (k r s : pystr) :
  k <> [] -> k ++ r = fence ++ s -> contains fence k = false ->
  last k = Some BACKTICK /\ head r = Some BACKTICK.
Proof.
  rewrite fence_eq. intros Hk E Hclean.
  destruct k as [|c1 [|c2 [|c3 k]]]; cbn in E.
  - congruence.
  - injection E as -> E. destruct r; [discriminate|].
    injection E as -> _. split; reflexivity.
  - injection E as -> -> E. destruct r; [discriminate|].
    injection E as -> _. split; reflexivity.
  - injection E as -> -> -> _. now rewrite three_backticks in Hclean.
Qed.

(** [parts] are pieces of [wider] parts. *)
Lemma covered_lift (head_part : pystr) (parts wider : list pystr) :
  Forall (fun p => exists q, q ∈ wider /\ contains p q = true) parts ->
  Forall (fun p => exists q, q ∈ head_part :: wider /\ contains p q = true)
    parts.
Proof.
  intros H. eapply Forall_impl; [exact H|]. intros p (q & Hq & Hp).
  exists q. split; [now apply elem_of_cons; right|exact Hp].
Qed.

Lemma covered_refl (extra : pystr) (parts : list pystr) :
  Forall (fun p => exists q, q ∈ extra :: parts /\ contains p q = true)
    parts.
Proof.
  apply Forall_forall. intros p Hp. exists p.
  split; [now apply elem_of_cons; right|apply contains_refl].
Qed.

Lemma covered_trans (parts middle wider : list pystr) :
  Forall (fun p => exists q, q ∈ middle /\ contains p q = true) parts ->
  Forall (fun p => exists q, q ∈ wider /\ contains p q = true) middle ->
  Forall (fun p => exists q, q ∈ wider /\ contains p q = true) parts.
Proof.
  intros H1 H2. rewrite Forall_forall in H2.
  eapply Forall_impl; [exact H1|]. intros p (q & Hq & Hp).
  destruct (H2 q Hq) as (s & Hs & Hqs). exists s.
  split; [exact Hs|exact (contains_trans _ _ _ Hp Hqs)].
Qed.

(** The parts of a text are pieces of the parts of the text with more
    after it, unless a fence straddles the joint. *)
Lemma parts_app_r (r : pystr) (u : pystr) :
  ~ (last u = Some BACKTICK /\ head r = Some BACKTICK) ->
  Forall (fun p => exists q,
            q ∈ split_sep fence (u ++ r) /\ contains p q = true)
    (split_sep fence u).
Proof.
  remember (length u) as n eqn:Hn.
  assert (Hle : length u <= n) by lia. clear Hn.
  revert u Hle. induction n as [|n IH]; intros u Hle Hjoint.
  - destruct u; [|simpl in Hle; lia]. cbn [app].
    rewrite (split_sep_unfold fence []) by exact fence_nonempty.
    rewrite cut_nil by exact fence_nonempty.
    constructor; [|constructor].
    rewrite split_sep_unfold by exact fence_nonempty.
    destruct (cut fence r) as [[a b]|]; eexists;
      (split; [apply elem_of_cons; left; reflexivity|apply contains_nil]).
  - rewrite (split_sep_unfold fence u) by exact fence_nonempty.
    destruct (cut fence u) as [[a b]|] eqn:E.
    + rewrite split_sep_unfold by exact fence_nonempty.
      rewrite (cut_app_first _ _ r _ _ fence_nonempty E).
      constructor.
      * exists a. split; [apply elem_of_cons; now left|apply contains_refl].
      * apply covered_lift. apply IH.
        -- apply cut_length in E; [lia|exact fence_nonempty].
        -- intros [Hl Hh]. apply Hjoint. split; [|exact Hh].
           rewrite (cut_Some _ _ _ _ E), app_assoc.
           now apply last_suffix.
    + constructor; [|constructor].
      rewrite split_sep_unfold by exact fence_nonempty.
      destruct (cut fence (u ++ r)) as [[a' b']|] eqn:E'.
      * exists a'. split; [apply elem_of_cons; now left|].
        pose proof (cut_Some _ _ _ _ E') as Ht.
        apply app_eq_inv in Ht as [(k & Hu & Hk)|(k & Ha & _)].
        -- destruct k as [|x k].
           ++ rewrite app_nil_r in Hu. subst a'. apply contains_refl.
           ++ exfalso. apply Hjoint.
              apply cut_None in E. rewrite Hu in E.
              apply contains_app_false in E as [_ Ek].
              destruct (fence_straddle (x :: k) r b' ltac:(discriminate)
                          (eq_sym Hk) Ek) as [Hl Hh].
              split; [|exact Hh]. rewrite Hu. now apply last_suffix.
        -- subst a'. apply contains_spec. exists [], k. reflexivity.
      * exists (u ++ r). split; [apply elem_of_cons; now left|].
        apply contains_spec. exists [], r. reflexivity.
Qed.

(** The same with more in front of the text. *)
Lemma parts_app_l (u : pystr) (l : pystr) :
  ~ (last l = Some BACKTICK /\ head u = Some BACKTICK) ->
  Forall (fun p => exists q,
            q ∈ split_sep fence (l ++ u) /\ contains p q = true)
    (split_sep fence u).
Proof.
  remember (length l) as n eqn:Hn.
  assert (Hle : length l <= n) by lia. clear Hn.
  revert l Hle. induction n as [|n IH]; intros l Hle Hjoint.
  - destruct l; [|simpl in Hle; lia]. cbn [app].
    apply Forall_forall. intros p Hp. exists p.
    split; [exact Hp|apply contains_refl].
  - rewrite (split_sep_unfold fence (l ++ u)) by exact fence_nonempty.
    destruct (cut fence (l ++ u)) as [[a' b']|] eqn:E.
    + pose proof (cut_Some _ _ _ _ E) as Ht.
      apply app_eq_inv in Ht as [(k & Hl & Hk)|(k & Ha & Hu)].
      * (* the fence starts inside [l] or at its end *)
        symmetry in Hk.
        apply app_eq_inv in Hk as [(j & Hkj & Hb)|(j & Hf & Huj)].
        -- (* the fence ends inside [l]: [k = fence ++ j] *)
           subst b'. apply covered_lift. apply IH.
           ++ rewrite Hl, Hkj, !length_app in Hle.
              change (length fence) with 3 in Hle. lia.
           ++ intros [Hlast Hh]. apply Hjoint. split; [|exact Hh].
              rewrite Hl, Hkj, app_assoc. now apply last_suffix.
        -- (* the fence ends inside [u]: [fence = k ++ j] *)
           destruct j as [|y j].
           ++ (* [l] ends with the fence *)
              cbn [app] in Huj. subst u. apply covered_refl.
           ++ destruct k as [|x k].
              ** rewrite app_nil_r in Hl. subst a'. cbn [app] in Hf.
                 rewrite <- Hf in Huj. subst u.
                 rewrite (split_sep_unfold fence (fence ++ b'))
                   by exact fence_nonempty.
                 rewrite cut_here.
                 constructor.
                 --- exists l. split; [apply elem_of_cons; now left|].
                     apply contains_spec. exists [], l. reflexivity.
                 --- apply covered_refl.
              ** exfalso. apply Hjoint.
                 assert (Hx : Forall (fun c => c = BACKTICK)
                                ((x :: k) ++ y :: j)).
                 { rewrite <- Hf, fence_eq. repeat constructor. }
                 apply Forall_app in Hx as [Hk Hj].
                 split.
                 --- rewrite Hl. apply last_suffix.
                     destruct (last (x :: k)) as [z|] eqn:Ez.
                     +++ f_equal. rewrite Forall_forall in Hk. apply Hk.
                         apply last_Some in Ez as [k' Ez]. rewrite Ez.
                         set_solver.
                     +++ apply last_None in Ez. discriminate Ez.
                 --- rewrite Huj. cbn [app head]. f_equal.
                     now apply Forall_inv in Hj.
      * (* the fence starts inside [u] *)
        subst a'.
        assert (Hcut : cut fence u = Some (k, b')).
        { rewrite Hu. apply cut_intro. intros k1 k2 Hk Hk2.
          apply (cut_Some_min _ _ _ _ fence_nonempty E (l ++ k1) k2);
            [|exact Hk2]. now rewrite Hk, app_assoc. }
        rewrite (split_sep_unfold fence u), Hcut by exact fence_nonempty.
        constructor.
        -- exists (l ++ k). split; [apply elem_of_cons; now left|].
           apply contains_spec. exists l, []. now rewrite app_nil_r.
        -- apply covered_refl.
    + apply cut_None in E. apply contains_app_false in E as [_ E].
      rewrite split_sep_unfold by exact fence_nonempty.
      apply cut_None in E. rewrite E. constructor; [|constructor].
      exists (l ++ u). split; [apply elem_of_cons; now left|].
      apply contains_spec. exists l, []. now rewrite app_nil_r.
Qed.

Lemma has_braces_piece (p q : pystr) :
  contains p q = true -> has_braces q = false -> has_braces p = false.
Proof.
  intros Hp Hq. destruct (has_braces p) eqn:E; [|reflexivity].
  unfold has_braces in *. apply andb_true_iff in E as [E1 E2].
  now rewrite (contains_trans _ _ _ E1 Hp), (contains_trans _ _ _ E2 Hp)
    in Hq.
Qed.

(** When no part has both braces, no part of an inner text has. *)
Lemma find_braced_covered (parts wider : list pystr) :
  Forall (fun p => exists q, q ∈ wider /\ contains p q = true) parts ->
  List.find has_braces wider = None ->
  List.find has_braces parts = None.
Proof.
  intros Hcov Hnone.
  destruct (List.find has_braces parts) as [p|] eqn:E; [|reflexivity].
  apply List.find_some in E as [Hin Hb].
  rewrite Forall_forall in Hcov.
  destruct (Hcov p ltac:(now apply list_elem_of_In)) as (q & Hq & Hp).
  apply list_elem_of_In in Hq.
  pose proof (List.find_none _ _ Hnone q Hq) as Hqb.
  now rewrite (has_braces_piece _ _ Hp Hqb) in Hb.
Qed.

(** An inner text whose ends are not backticks: its parts are pieces of
    the parts of the text around it. *)
Lemma parts_inside (l u r : pystr) :
  head u <> Some BACKTICK \/ last l <> Some BACKTICK ->
  last u <> Some BACKTICK \/ head r <> Some BACKTICK ->
  u <> [] ->
  Forall (fun p => exists q,
            q ∈ split_sep fence (l ++ u ++ r) /\ contains p q = true)
    (split_sep fence u).
Proof.
  intros Hl Hr Hu.
  apply (covered_trans _ (split_sep fence (u ++ r))).
  - apply parts_app_r. tauto.
  - apply parts_app_l. intros [H1 H2]. destruct u as [|x u]; [congruence|].
    cbn [app head] in H2. cbn [head] in Hl. tauto.
Qed.

End PartsFacts.

(* ===================================================================== *)
(** ** Facts about [list(set(...))] and about the quiz dictionaries *)
(* ===================================================================== *)

Module SourceFacts.

Lemma py_eq_spec (a b : meta) : py_eq a b = true <-> eq_class a = eq_class b.
Proof. unfold py_eq. apply bool_decide_eq_true. Qed.

Lemma py_eq_false (a b : meta) :
  py_eq a b = false <-> eq_class a <> eq_class b.
Proof. unfold py_eq. apply bool_decide_eq_false. Qed.

Lemma eq_class_plain (m : meta) : (forall b, m <> MBool b) -> eq_class m = m.
Proof.
  destruct m as [s|z|b]; [reflexivity|reflexivity|].
  intros H. destruct (H b eq_refl).
Qed.

(** The value that the set keeps for a class: the first of the list. *)
Lemma first_of_class (xs : list meta) (k : meta) :
  k ∈ eq_class <$> xs ->
  exists i x, list_find (fun x => eq_class x = k) xs = Some (i, x).
Proof.
  intros H. apply list_elem_of_fmap in H as (x & -> & Hx).
  destruct (list_find_elem_of (fun y => eq_class y = eq_class x) xs x Hx
              eq_refl) as [[i y] E].
  eauto.
Qed.

Lemma omap_inverse {A B} (g : A -> option B) (h : B -> A) (ks : list A) :
  Forall (fun k => exists x, g k = Some x /\ h x = k) ks ->
  h <$> omap g ks = ks.
Proof.
  induction 1 as [|k ks (x & Hg & Hh) _ IH]; [reflexivity|].
  cbn [omap list_omap]. rewrite Hg. cbn [fmap list_fmap].
  rewrite Hh. f_equal. exact IH.
Qed.

(** The classes of the values of the set are the classes of the list,
    each of them once. *)
Lemma classes_of_set (xs : list meta) :
  eq_class <$> list_of_set xs
  = elements (list_to_set (eq_class <$> xs) : gset meta).
Proof.
  unfold list_of_set. apply omap_inverse, Forall_forall. intros k Hk.
  apply elem_of_elements, elem_of_list_to_set in Hk.
  destruct (first_of_class xs k Hk) as (i & x & E).
  exists x. rewrite E. split; [reflexivity|].
  now apply list_find_Some in E as (_ & E & _).
Qed.

Lemma list_of_set_distinct (xs : list meta) (i j : nat) (a b : meta) :
  list_of_set xs !! i = Some a -> list_of_set xs !! j = Some b ->
  py_eq a b = true -> i = j.
Proof.
  intros Hi Hj Hab. apply py_eq_spec in Hab.
  apply (NoDup_lookup (eq_class <$> list_of_set xs) i j (eq_class a)).
  - rewrite classes_of_set. apply NoDup_elements.
  - now rewrite list_lookup_fmap, Hi.
  - now rewrite list_lookup_fmap, Hj, Hab.
Qed.

Lemma list_of_set_first (xs : list meta) (x : meta) :
  x ∈ list_of_set xs ->
  exists i, xs !! i = Some x
            /\ forall j y, j < i -> xs !! j = Some y -> py_eq y x = false.
Proof.
  unfold list_of_set. intros H.
  apply list_elem_of_omap in H as (k & _ & Hk).
  destruct (list_find (fun x => eq_class x = k) xs) as [[i y]|] eqn:E;
    [|discriminate Hk].
  injection Hk as ->.
  apply list_find_Some in E as (Hi & Hx & Hfirst).
  exists i. split; [exact Hi|]. intros j y Hj Hy.
  apply py_eq_false. rewrite Hx. exact (Hfirst j y Hy Hj).
Qed.

Lemma list_of_set_covers (xs : list meta) (x : meta) :
  x ∈ xs -> exists y, y ∈ list_of_set xs /\ py_eq y x = true.
Proof.
  intros Hx.
  assert (Hk : eq_class x ∈ eq_class <$> xs)
    by (apply list_elem_of_fmap; eauto).
  destruct (first_of_class xs (eq_class x) Hk) as (i & y & E).
  exists y. split.
  - unfold list_of_set. apply list_elem_of_omap. exists (eq_class x).
    split; [now apply elem_of_elements, elem_of_list_to_set|].
    now rewrite E.
  - apply py_eq_spec. now apply list_find_Some in E as (_ & E & _).
Qed.

Lemma list_of_set_length (xs : list meta) :
  length (list_of_set xs) <= length xs.
Proof.
  rewrite <- (length_fmap eq_class (list_of_set xs)), classes_of_set.
  rewrite <- (length_fmap eq_class xs).
  apply submseteq_length, NoDup_submseteq; [apply NoDup_elements|].
  intros k Hk. now apply elem_of_elements, elem_of_list_to_set in Hk.
Qed.

(** Without booleans the values of the set are the values of the list,
    each of them once. *)
Lemma list_of_set_plain (xs : list meta) :
  (forall x b, x ∈ xs -> x <> MBool b) ->
  NoDup (list_of_set xs) /\ forall x, x ∈ list_of_set xs <-> x ∈ xs.
Proof.
  intros Hplain. split.
  - apply (NoDup_fmap_1 eq_class). rewrite classes_of_set.
    apply NoDup_elements.
  - intros x. split.
    + intros H. apply list_of_set_first in H as (i & Hi & _).
      eapply list_elem_of_lookup_2. exact Hi.
    + intros Hx. destruct (list_of_set_covers xs x Hx) as (y & Hy & Hyx).
      apply py_eq_spec in Hyx.
      assert (Hy' : y ∈ xs).
      { apply list_of_set_first in Hy as (i & Hi & _).
        eapply list_elem_of_lookup_2. exact Hi. }
      rewrite (eq_class_plain x), (eq_class_plain y) in Hyx.
      * now subst y.
      * intros b. now apply Hplain.
      * intros b. now apply Hplain.
Qed.

(** The sources that are listed for some chunks. *)
Lemma sources_spec (docs : list Document) :
  let names := list_of_set (List.map doc_source docs) in
  (forall i j a b, names !! i = Some a -> names !! j = Some b ->
     py_eq a b = true -> i = j)
  /\ (forall s, s ∈ names ->
        exists i d, docs !! i = Some d /\ doc_source d = s
          /\ forall j d', j < i -> docs !! j = Some d' ->
               py_eq (doc_source d') s = false)
  /\ (forall d, d ∈ docs ->
        exists s, s ∈ names /\ py_eq s (doc_source d) = true)
  /\ length names <= length docs
  /\ ((forall d b, d ∈ docs -> doc_source d <> MBool b) ->
      NoDup names
      /\ forall s, s ∈ names <-> exists d, d ∈ docs /\ doc_source d = s).
Proof.
  intros names. unfold names.
  change (List.map doc_source docs) with (doc_source <$> docs).
  split; [apply list_of_set_distinct|]. split; [|split; [|split]].
  - intros s Hs. apply list_of_set_first in Hs as (i & Hi & Hfirst).
    apply list_lookup_fmap_Some in Hi as (d & -> & Hd).
    exists i, d. split; [exact Hd|]. split; [reflexivity|].
    intros j d' Hj Hd'. apply (Hfirst j); [exact Hj|].
    now rewrite list_lookup_fmap, Hd'.
  - intros d Hd. apply list_of_set_covers, list_elem_of_fmap. eauto.
  - etransitivity; [apply list_of_set_length|]. now rewrite length_fmap.
  - intros Hplain.
    destruct (list_of_set_plain (doc_source <$> docs)) as [Hnd Hin].
    { intros x b Hx. apply list_elem_of_fmap in Hx as (d & -> & Hd).
      now apply Hplain. }
    split; [exact Hnd|]. intros s. rewrite Hin, list_elem_of_fmap.
    split; intros (d & H1 & H2); eauto.
Qed.

End SourceFacts.

Module QuizShape.

Section WithWorld.

Variable type_error_text : json -> pystr.

(** What passes the shape test. *)
Lemma check_structure_ok (v : json) (d : dict) :
  check_structure type_error_text v = Ok d ->
  v = JDict d /\ exists items, dict_get (py "questions") d = Some (JList items).
Proof.
  destruct v; simpl; try discriminate.
  - destruct (contains _ _); discriminate.
  - destruct (existsb _ _); discriminate.
  - destruct (dict_get _ _) as [[]|] eqn:E; try discriminate.
    intros [= <-]. eauto.
Qed.

Lemma check_structure_pass (d : dict) (items : list json) :
  dict_get (py "questions") d = Some (JList items) ->
  check_structure type_error_text (JDict d) = Ok d.
Proof. intros H. simpl. now rewrite H. Qed.

End WithWorld.

(** The dictionary of a failure: an error text, no questions, no quiz
    metadata. *)
Lemma handle_failure_error (e : exn) (quiz_text : option pystr) :
  let res := handle_failure e quiz_text in
  dict_get (py "questions") res = Some (JList [])
  /\ (exists msg, dict_get (py "error") res = Some (JStr msg))
  /\ dict_get (py "metadata") res = None.
Proof.
  unfold handle_failure. destruct (exn_kind e); repeat split; eauto.
Qed.

End QuizShape.

(* ===================================================================== *)
(** ** Whitespace around the reply *)
(* ===================================================================== *)

Module PaddingFacts.

Lemma space_not_special (c : char) :
  is_space c = true -> c <> BACKTICK /\ c <> LBRACE /\ c <> RBRACE.
Proof. intros H. repeat split; intros ->; discriminate H. Qed.

(** The last steps of [_extract_json]: the brace search and the
    trimming. *)
Lemma search_strip_cons (c : char) (x : pystr) :
  is_space c = true ->
  strip match re_search_braces (c :: x) with
        | Some m => m
        | None => c :: x
        end
  = strip match re_search_braces x with
          | Some m => m
          | None => x
          end.
Proof.
  intros Hc. destruct (space_not_special c Hc) as (_ & Hl & _).
  cbn [re_search_braces]. apply N.eqb_neq in Hl. rewrite Hl.
  destruct (re_search_braces x); [reflexivity|].
  now apply strip_cons_space.
Qed.

Lemma search_strip_snoc (c : char) (x : pystr) :
  is_space c = true ->
  strip match re_search_braces (x ++ [c]) with
        | Some m => m
        | None => x ++ [c]
        end
  = strip match re_search_braces x with
          | Some m => m
          | None => x
          end.
Proof.
  intros Hc. destruct (space_not_special c Hc) as (_ & _ & Hr).
  rewrite re_search_app_tail by set_solver.
  destruct (re_search_braces x); [reflexivity|].
  now apply strip_app_space.
Qed.

(** A character that is not the first of the pattern starts no match. *)
Lemma starts_with_other (sep t : pystr) (c x : char) :
  c <> x -> starts_with (x :: sep) (c :: t) = false.
Proof.
  intros H. cbn [starts_with]. apply N.eqb_neq in H.
  rewrite N.eqb_sym, H. reflexivity.
Qed.

Lemma contains_cons_other (sep t : pystr) (c x : char) :
  c <> x -> contains (x :: sep) (c :: t) = contains (x :: sep) t.
Proof.
  intros H. cbn [contains]. now rewrite starts_with_other.
Qed.

Lemma cut_cons_other (sep t : pystr) (c x : char) :
  c <> x ->
  cut (x :: sep) (c :: t)
  = match cut (x :: sep) t with
    | Some (a, b) => Some (c :: a, b)
    | None => None
    end.
Proof. intros H. cbn [cut]. now rewrite starts_with_other. Qed.

(** A character that does not occur in the pattern ends no match. *)
Lemma starts_with_snoc (sep t : pystr) (c : char) :
  c ∉ sep -> starts_with sep (t ++ [c]) = starts_with sep t.
Proof.
  revert t. induction sep as [|x sep IH]; intros t Hc; [reflexivity|].
  destruct t as [|y t]; cbn [app starts_with].
  - assert (Hx : (x =? c)%N = false) by (apply N.eqb_neq; set_solver).
    now rewrite Hx.
  - rewrite IH by set_solver. reflexivity.
Qed.

Lemma contains_snoc (sep t : pystr) (c : char) :
  sep <> [] -> c ∉ sep -> contains sep (t ++ [c]) = contains sep t.
Proof.
  intros Hsep Hc. induction t as [|y t IH].
  - destruct sep as [|x sep]; [congruence|].
    assert (Hx : (x =? c)%N = false) by (apply N.eqb_neq; set_solver).
    cbn [app contains starts_with]. now rewrite Hx.
  - change ((y :: t) ++ [c]) with (y :: (t ++ [c])). cbn [contains].
    rewrite IH.
    change (y :: t ++ [c]) with ((y :: t) ++ [c]).
    now rewrite starts_with_snoc.
Qed.

Lemma has_braces_cons (c : char) (p : pystr) :
  is_space c = true -> has_braces (c :: p) = has_braces p.
Proof.
  intros Hc. destruct (space_not_special c Hc) as (_ & Hl & Hr).
  unfold has_braces. now rewrite !contains_cons_other.
Qed.

Lemma has_braces_snoc (c : char) (p : pystr) :
  is_space c = true -> has_braces (p ++ [c]) = has_braces p.
Proof.
  intros Hc. destruct (space_not_special c Hc) as (_ & Hl & Hr).
  unfold has_braces. rewrite !contains_snoc; [reflexivity| | | |];
    try discriminate; set_solver.
Qed.

Lemma head_piece_snoc (sep t : pystr) (c : char) :
  sep <> [] -> c ∉ sep ->
  head_piece sep (t ++ [c]) = head_piece sep t
  \/ head_piece sep (t ++ [c]) = head_piece sep t ++ [c].
Proof.
  intros Hsep Hc. unfold head_piece.
  destruct (cut sep t) as [[a b]|] eqn:E.
  - rewrite (PartsFacts.cut_app_first _ _ [c] _ _ Hsep E). now left.
  - apply cut_None in E.
    rewrite <- (contains_snoc sep t c Hsep Hc) in E.
    apply cut_None in E. rewrite E. now right.
Qed.

(** The part that the loop over the parts takes, for a reply with one
    more whitespace character at its end. *)
Lemma first_braced_part_snoc (c : char) :
  is_space c = true ->
  forall (t fallback : pystr),
    first_braced_part (split_sep fence (t ++ [c])) (fallback ++ [c])
    = first_braced_part (split_sep fence t) fallback
    \/ first_braced_part (split_sep fence (t ++ [c])) (fallback ++ [c])
       = first_braced_part (split_sep fence t) fallback ++ [c].
Proof.
  intros Hc t. destruct (space_not_special c Hc) as (Hb & _ & _).
  assert (Hnot : c ∉ fence).
  { rewrite fence_eq. set_solver. }
  remember (length t) as n eqn:Hn.
  assert (Hle : length t <= n) by lia. clear Hn.
  revert t Hle. induction n as [|n IH]; intros t Hle fallback;
    rewrite (split_sep_unfold fence t),
      (split_sep_unfold fence (t ++ [c])) by exact fence_nonempty;
    destruct (cut fence t) as [[a b]|] eqn:E.
  - apply cut_length in E; [lia|exact fence_nonempty].
  - apply cut_None in E.
    rewrite <- (contains_snoc fence t c fence_nonempty Hnot) in E.
    apply cut_None in E. rewrite E. unfold first_braced_part.
    cbn [List.find]. rewrite (has_braces_snoc c t Hc).
    destruct (has_braces t); [now right|now right].
  - rewrite (PartsFacts.cut_app_first _ _ [c] _ _ fence_nonempty E).
    unfold first_braced_part. cbn [List.find].
    destruct (has_braces a); [now left|].
    apply cut_length in E; [|exact fence_nonempty].
    apply (IH b ltac:(lia) fallback).
  - apply cut_None in E.
    rewrite <- (contains_snoc fence t c fence_nonempty Hnot) in E.
    apply cut_None in E. rewrite E. unfold first_braced_part.
    cbn [List.find]. rewrite (has_braces_snoc c t Hc).
    destruct (has_braces t); [now right|now right].
Qed.

(** One whitespace character in front of the reply. *)
Lemma extract_json_cons (c : char) (t : pystr) :
  is_space c = true -> _extract_json (c :: t) = _extract_json t.
Proof.
  intros Hc. destruct (space_not_special c Hc) as (Hb & _ & _).
  unfold _extract_json.
  rewrite fence_json_eq, fence_eq.
  rewrite !(contains_cons_other _ t c BACKTICK Hb).
  rewrite <- fence_json_eq, <- fence_eq.
  destruct (contains fence_json t) eqn:Hj.
  - destruct (cut fence_json t) as [[a b]|] eqn:Hcut;
      [|apply cut_None in Hcut; congruence].
    assert (Hcut' : cut fence_json (c :: t) = Some (c :: a, b)).
    { rewrite fence_json_eq, cut_cons_other by exact Hb.
      rewrite <- fence_json_eq. now rewrite Hcut. }
    now rewrite (index_split_1 _ _ _ _ fence_json_nonempty Hcut),
      (index_split_1 _ _ _ _ fence_json_nonempty Hcut').
  - destruct (contains fence t) eqn:Hf.
    + cbn [rbind].
      destruct (cut fence t) as [[a b]|] eqn:Hcut;
        [|apply cut_None in Hcut; congruence].
      assert (Hcut' : cut fence (c :: t) = Some (c :: a, b)).
      { rewrite fence_eq, cut_cons_other by exact Hb.
        rewrite <- fence_eq. now rewrite Hcut. }
      rewrite (split_sep_unfold fence t), Hcut by exact fence_nonempty.
      rewrite (split_sep_unfold fence (c :: t)), Hcut'
        by exact fence_nonempty.
      unfold first_braced_part. cbn [List.find].
      rewrite (has_braces_cons c a Hc).
      destruct (has_braces a); [now rewrite search_strip_cons|].
      destruct (List.find has_braces (split_sep fence b));
        [reflexivity|now rewrite search_strip_cons].
    + cbn [rbind]. now rewrite search_strip_cons.
Qed.

(** One whitespace character after the reply. *)
Lemma extract_json_snoc (c : char) (t : pystr) :
  is_space c = true -> _extract_json (t ++ [c]) = _extract_json t.
Proof.
  intros Hc. destruct (space_not_special c Hc) as (Hb & _ & _).
  assert (Hnot : c ∉ fence) by (rewrite fence_eq; set_solver).
  assert (Hnotj : c ∉ fence_json).
  { rewrite fence_json_eq. intros H.
    repeat (apply elem_of_cons in H as [->|H]; [discriminate Hc|]).
    inversion H. }
  unfold _extract_json.
  rewrite (contains_snoc fence_json t c fence_json_nonempty Hnotj).
  rewrite (contains_snoc fence t c fence_nonempty Hnot).
  destruct (contains fence_json t) eqn:Hj.
  - destruct (cut fence_json t) as [[a b]|] eqn:Hcut;
      [|apply cut_None in Hcut; congruence].
    rewrite (index_split_1 _ _ _ _ fence_json_nonempty Hcut).
    rewrite (index_split_1 _ _ _ _ fence_json_nonempty
               (PartsFacts.cut_app_first _ _ [c] _ _ fence_json_nonempty
                  Hcut)).
    cbn [rbind]. rewrite !(index_split_0 _ _ fence_nonempty). cbn [rbind].
    destruct (head_piece_snoc fence_json b c fence_json_nonempty Hnotj)
      as [->| ->]; [reflexivity|].
    destruct (head_piece_snoc fence (head_piece fence_json b) c
                fence_nonempty Hnot) as [->| ->];
      [reflexivity|now rewrite search_strip_snoc].
  - destruct (contains fence t) eqn:Hf; cbn [rbind].
    + destruct (first_braced_part_snoc c Hc t t) as [->| ->];
        [reflexivity|now rewrite search_strip_snoc].
    + now rewrite search_strip_snoc.
Qed.

End PaddingFacts.

(* ===================================================================== *)
(** ** More facts about the grading loop *)
(* ===================================================================== *)

Module GradeLoop.

Section WithUpper.

Variable upper : pystr -> pystr.

(** The loop on a list in two parts. *)
Lemma grade_loop_app (user_answers : gmap Z pystr)
  (first_part rest : list dict) :
  forall idx results correct_count,
    grade_loop upper user_answers idx (first_part ++ rest) results
      correct_count
    = match grade_loop upper user_answers idx first_part results
              correct_count with
      | Ok (results', correct_count') =>
          grade_loop upper user_answers (idx + length first_part) rest
            results' correct_count'
      | Raise e => Raise e
      end.
Proof.
  induction first_part as [|q qs IH]; intros idx results correct_count.
  - cbn. now rewrite Nat.add_0_r.
  - cbn [app grade_loop length].
    destruct (grade_one upper user_answers idx q) as [g|e]; cbn [rbind];
      [|reflexivity].
    rewrite IH. now rewrite Nat.add_succ_comm.
Qed.

(** The body of the loop reads the answer at its own index only. *)
Lemma grade_one_ext (ua ub : gmap Z pystr) (idx : nat) (question : dict) :
  ua !! Z.of_nat idx = ub !! Z.of_nat idx ->
  grade_one upper ua idx question = grade_one upper ub idx question.
Proof. intros H. unfold grade_one. unfold pystr in *. now rewrite H. Qed.

Lemma grade_loop_ext (ua ub : gmap Z pystr) (questions : list dict) :
  forall idx results correct_count,
    (forall i, i < length questions ->
       ua !! Z.of_nat (idx + i) = ub !! Z.of_nat (idx + i)) ->
    grade_loop upper ua idx questions results correct_count
    = grade_loop upper ub idx questions results correct_count.
Proof.
  induction questions as [|q qs IH]; intros idx results correct_count H;
    [reflexivity|].
  cbn [grade_loop].
  rewrite (grade_one_ext ua ub idx q).
  - destruct (grade_one upper ub idx q) as [g|e]; cbn [rbind];
      [|reflexivity].
    apply IH. intros i Hi. rewrite Nat.add_succ_comm. apply H. simpl. lia.
  - specialize (H 0). rewrite Nat.add_0_r in H. apply H. simpl. lia.
Qed.

(** The counter of the loop counts the records that are marked correct. *)
Lemma count_correct_flags (user_answers : gmap Z pystr)
  (questions : list dict) :
  forall idx (graded : list GradedAnswer),
    length graded = length questions ->
    (forall i question, questions !! i = Some question ->
       exists g, graded !! i = Some g
         /\ grade_one upper user_answers (idx + i) question = Ok g) ->
    Forall has_key questions ->
    count_correct upper user_answers idx questions
    = length (List.filter is_correct graded)
    /\ List.map question_number graded
       = List.map (fun i => (Z.of_nat i + 1)%Z) (seq idx (length questions)).
Proof.
  induction questions as [|q qs IH]; intros idx graded Hlen Hrec Hk.
  - destruct graded; [split; reflexivity|discriminate].
  - destruct graded as [|g graded]; [discriminate|].
    apply Forall_cons in Hk as [[key Hkey] Hk].
    destruct (Hrec 0 q eq_refl) as (g' & [= <-] & Hone).
    rewrite Nat.add_0_r in Hone.
    destruct (GradeFacts.grade_one_ok upper user_answers idx q key Hkey)
      as (g0 & Hone0 & Hnum & Hmatch & _).
    rewrite Hone in Hone0. injection Hone0 as <-.
    destruct (IH (S idx) graded) as [Hcount Hnums].
    + simpl in Hlen. lia.
    + intros i q' Hq'. destruct (Hrec (S i) q' Hq') as (g1 & Hg1 & Hone1).
      exists g1. split; [exact Hg1|]. now rewrite Nat.add_succ_comm.
    + exact Hk.
    + split.
      * cbn [count_correct List.filter]. rewrite Hcount, <- Hmatch.
        destruct (is_correct g); reflexivity.
      * cbn [List.map length seq]. now rewrite Hnum, Hnums.
Qed.

(** The first question whose key is not a string ends the grading. *)
Lemma grade_quiz_first_malformed (readable : list dict) (malformed : dict)
  (rest : list dict) (v : json) (user_answers : gmap Z pystr) :
  Forall has_key readable ->
  dict_get (py "correct_answer") malformed = Some v ->
  (forall s, v <> JStr s) ->
  grade_quiz upper (readable ++ malformed :: rest) user_answers
  = Raise (Exn AttributeError
             (py "'" ++ type_name v
              ++ py "' object has no attribute 'upper'")).
Proof.
  intros Hk Hv Hns. unfold grade_quiz. rewrite grade_loop_app.
  destruct (GradeFacts.grade_loop_ok upper user_answers readable Hk 0 [] 0)
    as (graded & -> & _).
  cbn [grade_loop]. unfold grade_one, dict_get_default. rewrite Hv.
  destruct v; try reflexivity. now destruct (Hns s).
Qed.

(** The score and the percentage text of a quiz with questions: both are
    made of the tenths of the same float. *)
Lemma grade_quiz_percent (user_answers : gmap Z pystr)
  (questions : list dict) :
  Forall has_key questions -> questions <> [] ->
  let percent :=
    Binary64.mul
      (Binary64.truediv
         (Z.of_nat (count_correct upper user_answers 0 questions))
         (Z.of_nat (length questions)))
      (Binary64.of_Z 100) in
  exists r,
    grade_quiz upper questions user_answers = Ok r
    /\ correct r = count_correct upper user_answers 0 questions
    /\ score r
       = PyFloat (Binary64.round_nearest_even (Binary64.tenths percent) 10)
    /\ percentage r = percent_text (Binary64.tenths percent).
Proof.
  intros Hk Hne percent. unfold grade_quiz.
  destruct (GradeFacts.grade_loop_ok upper user_answers questions Hk 0 [] 0)
    as (graded & -> & _).
  cbn [rbind app Nat.add]. destruct questions as [|q qs]; [congruence|].
  eexists. split; [reflexivity|]. repeat split.
Qed.

End WithUpper.

End GradeLoop.

(* ===================================================================== *)
(** ** More facts about the extraction and the clean-up *)
(* ===================================================================== *)

Module PageFacts.

(** The page loop on pages that were read, followed by nothing or by a
    page that fails. *)
Lemma pdf_loop_pages (filename : pystr) (tail : list (result pystr)) :
  tail = [] \/ (exists e rest, tail = Raise e :: rest) ->
  forall (texts : list pystr) (page_num : Z) (documents : list RawDoc),
    pdf_loop filename page_num (List.map Ok texts ++ tail) documents
    = documents
      ++ List.map (page_document filename)
           (List.filter has_text (enumerate page_num texts)).
Proof.
  intros Htail. induction texts as [|text texts IH];
    intros page_num documents.
  - cbn. rewrite app_nil_r.
    destruct Htail as [->|(e & rest & ->)]; reflexivity.
  - cbn [List.map app pdf_loop enumerate List.filter]. rewrite IH.
    unfold has_text at 2. cbn [snd].
    destruct (strip text) as [|c s]; [reflexivity|].
    cbn [List.map]. now rewrite <- app_assoc.
Qed.

(** Every list of pages is such a list. *)
Lemma pages_split (pages : list (result pystr)) :
  exists texts tail,
    pages = List.map Ok texts ++ tail
    /\ (tail = [] \/ exists e rest, tail = Raise e :: rest).
Proof.
  induction pages as [|[text|e] pages (texts & tail & -> & Htail)].
  - exists [], []. split; [reflexivity|now left].
  - exists (text :: texts), tail. split; [reflexivity|exact Htail].
  - exists [], (Raise e :: List.map Ok texts ++ tail).
    split; [reflexivity|right; eauto].
Qed.

Lemma enumerate_lookup {A} (items : list A) :
  forall (start : Z) (n : Z) (item : A),
    (n, item) ∈ enumerate start items
    <-> exists i, items !! i = Some item /\ n = (start + Z.of_nat i)%Z.
Proof.
  induction items as [|x items IH]; intros start n item; cbn [enumerate].
  - split; [intros H; inversion H|intros (i & H & _); discriminate H].
  - rewrite elem_of_cons, IH. split.
    + intros [[= -> ->]|(i & Hi & ->)].
      * exists 0. split; [reflexivity|lia].
      * exists (S i). split; [exact Hi|lia].
    + intros ([|i] & Hi & ->); cbn in Hi.
      * injection Hi as ->. left. f_equal. lia.
      * right. exists i. split; [exact Hi|lia].
Qed.

End PageFacts.

Module CleanMore.

Lemma is_space_SPACE : is_space SPACE = true.
Proof. reflexivity. Qed.

Lemma is_space_NUL : is_space NUL = false.
Proof. reflexivity. Qed.

Lemma visible_space (c : char) : is_space c = true -> visible c = false.
Proof. intros H. unfold visible. now rewrite H. Qed.

Lemma filter_visible_spaces (t : pystr) :
  all_space t -> List.filter visible t = [].
Proof.
  induction 1 as [|c t Hc _ IH]; [reflexivity|].
  cbn [List.filter]. now rewrite (visible_space c Hc).
Qed.

Lemma filter_visible_strip (t : pystr) :
  List.filter visible (strip t) = List.filter visible t.
Proof.
  destruct (strip_split t) as (l & r & E & Hl & Hr).
  rewrite E at 2. rewrite !List.filter_app.
  now rewrite (filter_visible_spaces l Hl), (filter_visible_spaces r Hr),
    app_nil_r.
Qed.

Lemma filter_visible_nulls (t : pystr) :
  List.filter visible (strip_nulls t) = List.filter visible t.
Proof.
  unfold strip_nulls. induction t as [|c t IH]; [reflexivity|].
  cbn [List.filter]. destruct (N.eqb_spec c NUL) as [->|Hc].
  - cbn [negb]. unfold visible at 2. rewrite N.eqb_refl, andb_false_r.
    exact IH.
  - cbn [negb List.filter]. now rewrite IH.
Qed.

Lemma filter_visible_collapse (t : pystr) :
  List.filter visible (collapse_whitespace t) = List.filter visible t.
Proof.
  induction t as [|c r IH]; [reflexivity|].
  destruct (is_space c) eqn:Hc.
  - cbn [List.filter]. rewrite (visible_space c Hc).
    destruct r as [|c' r'].
    + cbn [collapse_whitespace]. now rewrite Hc.
    + rewrite (collapse_space_cons c c' r' Hc).
      destruct (is_space c'); [exact IH|].
      cbn [List.filter]. rewrite (visible_space SPACE is_space_SPACE).
      exact IH.
  - rewrite collapse_nonspace by exact Hc. cbn [List.filter].
    now rewrite IH.
Qed.

Lemma length_lstrip (t : pystr) : length (lstrip t) <= length t.
Proof.
  induction t as [|c t IH]; cbn [lstrip length]; [lia|].
  destruct (is_space c); cbn [length]; lia.
Qed.

Lemma length_strip (t : pystr) : length (strip t) <= length t.
Proof.
  destruct (strip_split t) as (l & r & E & _).
  rewrite E at 2. rewrite !length_app. lia.
Qed.

Lemma length_collapse (t : pystr) :
  length (collapse_whitespace t) <= length t.
Proof.
  induction t as [|c r IH]; [reflexivity|].
  destruct (is_space c) eqn:Hc.
  - destruct r as [|c' r'].
    + cbn [collapse_whitespace]. now rewrite Hc.
    + rewrite (collapse_space_cons c c' r' Hc).
      destruct (is_space c'); cbn [length] in *; lia.
  - rewrite collapse_nonspace by exact Hc. cbn [length]. lia.
Qed.

Lemma length_strip_nulls (t : pystr) : length (strip_nulls t) <= length t.
Proof. apply List.filter_length_le. Qed.

(** A collapsed text has the characters of the text and spaces. *)
Lemma collapse_elem (t : pystr) (c : char) :
  c ∈ collapse_whitespace t -> c = SPACE \/ (c ∈ t /\ is_space c = false).
Proof.
  induction t as [|x r IH]; [intros H; inversion H|].
  destruct (is_space x) eqn:Hx.
  - destruct r as [|x' r'].
    + cbn [collapse_whitespace]. rewrite Hx. intros H.
      apply list_elem_of_singleton in H. now left.
    + rewrite (collapse_space_cons x x' r' Hx).
      destruct (is_space x').
      * intros H. destruct (IH H) as [->|[Hin Hc]]; [now left|].
        right. split; [set_solver|exact Hc].
      * intros H. apply elem_of_cons in H as [->|H]; [now left|].
        destruct (IH H) as [->|[Hin Hc]]; [now left|].
        right. split; [set_solver|exact Hc].
  - rewrite collapse_nonspace by exact Hx. intros H.
    apply elem_of_cons in H as [->|H].
    + right. split; [set_solver|exact Hx].
    + destruct (IH H) as [->|[Hin Hc]]; [now left|].
      right. split; [set_solver|exact Hc].
Qed.

Lemma strip_nulls_sublist (t : pystr) (c : char) :
  c ∈ strip_nulls t -> c ∈ t.
Proof.
  unfold strip_nulls. rewrite !list_elem_of_In, List.filter_In. tauto.
Qed.

(** Every character of a cleaned text is a space or a character of the
    text that is not whitespace. *)
Lemma clean_text_elem (t : pystr) (c : char) :
  c ∈ clean_text t -> c = SPACE \/ (c ∈ t /\ is_space c = false).
Proof.
  rewrite clean_text_spec. unfold cleanup_spec. intros H.
  apply strip_sublist, strip_nulls_sublist in H. now apply collapse_elem.
Qed.

(** No two whitespace characters in a row. *)
Lemma single_spaced_cons2 (c c' : char) (r : pystr) :
  single_spaced (c :: c' :: r)
  = negb (is_space c && is_space c') && single_spaced (c' :: r).
Proof. reflexivity. Qed.

Lemma single_spaced_tail (c : char) (t : pystr) :
  single_spaced (c :: t) = true -> single_spaced t = true.
Proof.
  destruct t as [|c' t]; [reflexivity|]. rewrite single_spaced_cons2.
  intros H. now apply andb_true_iff in H as [_ H].
Qed.

Lemma single_spaced_cons (c : char) (t : pystr) :
  is_space c = false -> single_spaced t = true ->
  single_spaced (c :: t) = true.
Proof.
  intros Hc Ht. destruct t as [|c' t]; [reflexivity|].
  now rewrite single_spaced_cons2, Hc, Ht.
Qed.

Lemma single_spaced_lstrip (t : pystr) :
  single_spaced t = true -> single_spaced (lstrip t) = true.
Proof.
  induction t as [|c t IH]; [reflexivity|]. intros H. cbn [lstrip].
  destruct (is_space c); [|exact H].
  apply IH. exact (single_spaced_tail _ _ H).
Qed.

Lemma rstrip_cons (c : char) (t : pystr) :
  rstrip (c :: t)
  = match rstrip t with
    | [] => if is_space c then [] else [c]
    | x :: r => c :: x :: r
    end.
Proof. reflexivity. Qed.

Lemma single_spaced_rstrip (t : pystr) :
  single_spaced t = true -> single_spaced (rstrip t) = true.
Proof.
  induction t as [|c t IH]; [reflexivity|]. intros H.
  specialize (IH (single_spaced_tail _ _ H)). rewrite rstrip_cons.
  destruct (rstrip t) as [|x r] eqn:E.
  - destruct (is_space c); reflexivity.
  - destruct (rstrip_head _ _ _ E) as [r' ->].
    rewrite single_spaced_cons2 in H |- *.
    apply andb_true_iff in H as [H _]. now rewrite H, IH.
Qed.

Lemma single_spaced_strip (t : pystr) :
  single_spaced t = true -> single_spaced (strip t) = true.
Proof.
  intros H. unfold strip. now apply single_spaced_rstrip, single_spaced_lstrip.
Qed.

Lemma collapse_head_space (c : char) (r : pystr) (x : char) (y : pystr) :
  is_space c = true -> collapse_whitespace (c :: r) = x :: y ->
  x = SPACE /\ match y with
               | [] => True
               | z :: _ => is_space z = false
               end.
Proof.
  intros Hc E. destruct (collapse_space_head c r Hc) as (y' & E' & Hy').
  rewrite E' in E. injection E as <- <-. split; [reflexivity|].
  destruct y' as [|z y']; [exact I|].
  exact (lstrip_head _ _ _ Hy').
Qed.

Lemma single_spaced_collapse (t : pystr) :
  single_spaced (collapse_whitespace t) = true.
Proof.
  induction t as [|c r IH]; [reflexivity|].
  destruct (is_space c) eqn:Hc.
  - destruct (collapse_whitespace (c :: r)) as [|x y] eqn:E; [reflexivity|].
    destruct (collapse_head_space c r x y Hc E) as [-> Hy].
    destruct r as [|c' r'].
    + cbn [collapse_whitespace] in E. rewrite Hc in E.
      now injection E as <-.
    + rewrite (collapse_space_cons c c' r' Hc) in E.
      destruct y as [|z y]; [reflexivity|].
      rewrite single_spaced_cons2, Hy, andb_false_r. cbn [negb andb].
      destruct (is_space c').
      * apply (single_spaced_tail SPACE). rewrite <- E. exact IH.
      * injection E as E. rewrite <- E. exact IH.
  - rewrite collapse_nonspace by exact Hc.
    now apply single_spaced_cons.
Qed.

(** The items of [t.split()] are words. *)
Lemma split_ws_words (t : pystr) : Forall is_word (split_ws t).
Proof.
  induction t as [|c r IH]; [constructor|].
  destruct (is_space c) eqn:Hc; [now rewrite split_ws_space|].
  destruct r as [|c' r'].
  - cbn [split_ws]. rewrite Hc. repeat constructor; [discriminate|exact Hc].
  - destruct (is_space c') eqn:Hc'.
    + rewrite split_ws_end by assumption. constructor; [|exact IH].
      split; [discriminate|]. repeat constructor. exact Hc.
    + rewrite split_ws_cont by assumption.
      destruct (split_ws (c' :: r')) as [|w ws].
      * repeat constructor; [discriminate|exact Hc].
      * apply Forall_cons in IH as [[_ Hw] Hws].
        constructor; [|exact Hws]. split; [discriminate|].
        now constructor.
Qed.

(** A word in front of nothing or of whitespace is the first item. *)
Lemma split_ws_word_app (w rest : pystr) :
  is_word w ->
  (rest = [] \/ exists s r, rest = s :: r /\ is_space s = true) ->
  split_ws (w ++ rest) = w :: split_ws rest.
Proof.
  intros [Hne Hw] Hrest. induction Hw as [|c w Hc Hw IH]; [congruence|].
  clear Hne. destruct w as [|c' w].
  - cbn [app]. destruct Hrest as [->|(s & r & -> & Hs)].
    + cbn [split_ws]. now rewrite Hc.
    + now rewrite split_ws_end.
  - apply Forall_cons in Hw as [Hc' Hw'].
    change ((c :: c' :: w) ++ rest) with (c :: c' :: (w ++ rest)).
    rewrite split_ws_cont by assumption.
    change (c' :: w ++ rest) with ((c' :: w) ++ rest).
    rewrite IH; [reflexivity|discriminate].
Qed.

(** Splitting what was joined with single spaces gives the words back. *)
Lemma split_ws_join (ws : list pystr) :
  Forall is_word ws -> split_ws (join [SPACE] ws) = ws.
Proof.
  induction 1 as [|w ws Hw Hws IH]; [reflexivity|].
  destruct ws as [|w' ws].
  - cbn [join]. rewrite <- (app_nil_r w) at 1.
    rewrite split_ws_word_app; [reflexivity|exact Hw|now left].
  - rewrite join_cons2. rewrite split_ws_word_app; [|exact Hw|].
    + cbn [app]. rewrite split_ws_space by reflexivity. now rewrite IH.
    + right. eexists _, _. split; [reflexivity|reflexivity].
Qed.

Lemma join_words_elem (t : pystr) (c : char) :
  c ∈ join [SPACE] (split_ws t) -> c = SPACE \/ c ∈ t.
Proof.
  rewrite join_words_collapse. intros H. apply strip_sublist in H.
  apply collapse_elem in H. tauto.
Qed.

(** Without null characters the clean-up is the joining of the words. *)
Lemma clean_text_words (t : pystr) :
  NUL ∉ t -> clean_text t = join [SPACE] (split_ws t).
Proof.
  intros Hnul. unfold clean_text. rewrite replace_nul.
  rewrite strip_nulls_id.
  - rewrite join_words_collapse. apply strip_idem.
  - intros H. apply join_words_elem in H as [H|H]; [discriminate|tauto].
Qed.

Lemma collapse_word_app (w rest : pystr) :
  Forall (fun c => is_space c = false) w ->
  collapse_whitespace (w ++ rest) = w ++ collapse_whitespace rest.
Proof.
  induction 1 as [|c w Hc _ IH]; [reflexivity|].
  cbn [app]. rewrite collapse_nonspace by exact Hc. now rewrite IH.
Qed.

Lemma collapse_word (w : pystr) :
  Forall (fun c => is_space c = false) w -> collapse_whitespace w = w.
Proof.
  intros H. rewrite <- (app_nil_r w) at 1.
  rewrite collapse_word_app by exact H. now rewrite app_nil_r.
Qed.

(** A text of whitespace only is cleaned to the empty text. *)
Lemma clean_text_blank (t : pystr) : strip t = [] -> clean_text t = [].
Proof.
  intros Hblank.
  assert (Hspace : all_space t).
  { destruct (strip_split t) as (l & r & E & Hl & Hr).
    rewrite Hblank in E. rewrite E. cbn [app].
    now apply Forall_app. }
  destruct (clean_text t) as [|c s] eqn:E; [reflexivity|].
  assert (Hvis : visible c = true).
  { unfold visible. apply andb_true_iff. split; apply negb_true_iff.
    - rewrite clean_text_spec in E. exact (proj1 (strip_ends _) c s E).
    - apply N.eqb_neq. intros ->.
      apply (clean_text_no_nul t). rewrite E. set_solver. }
  assert (Hkeep : List.filter visible (clean_text t) = List.filter visible t).
  { rewrite clean_text_spec. unfold cleanup_spec.
    now rewrite filter_visible_strip, filter_visible_nulls,
      filter_visible_collapse. }
  rewrite E, (filter_visible_spaces t Hspace) in Hkeep.
  cbn [List.filter] in Hkeep. rewrite Hvis in Hkeep. discriminate Hkeep.
Qed.

End CleanMore.

(* ===================================================================== *)
(** ** Quiz JSON extraction *)
(* ===================================================================== *)

Module ExtractJson.

Lemma strip_object (mid : pystr) :
  strip (LBRACE :: mid ++ [RBRACE]) = LBRACE :: mid ++ [RBRACE].
Proof. apply strip_keep; reflexivity. Qed.

(** The fenced case of the extraction, with the block content [inner]
    kept abstract. *)
Lemma extract_json_fenced (pre inner post : pystr) :
  contains fence_json (pre ++ fence_json_head) = false ->
  contains fence inner = false ->
  _extract_json (pre ++ fence_json ++ inner ++ fence ++ post)
  = Ok (strip match re_search_braces inner with
              | Some m => m
              | None =>
                  head_piece fence
                    (head_piece fence_json (inner ++ fence ++ post))
              end).
Proof.
  intros Hpre Hin. unfold _extract_json.
  assert (Hc : contains fence_json
                 (pre ++ fence_json ++ inner ++ fence ++ post) = true).
  { apply contains_spec. eauto. }
  rewrite Hc.
  rewrite (index_split_1 _ _ _ _ fence_json_nonempty
             (cut_fence_json_first pre _ Hpre)).
  cbn [rbind]. rewrite (index_split_0 _ _ fence_nonempty). cbn [rbind].
  now rewrite fenced_block_search.
Qed.

(** The unfenced case: the candidate is the match of the brace search, or
    the text itself when nothing matches. *)
Lemma extract_json_unfenced (text : pystr) :
  contains fence text = false ->
  _extract_json text
  = Ok (strip match re_search_braces text with
              | Some m => m
              | None => text
              end).
Proof.
  intros H. unfold _extract_json.
  now rewrite (no_fence_no_json _ H), H.
Qed.

(** The two index operations of the json-fence branch never fail. *)
Lemma extract_json_defined (text : pystr) :
  exists s, _extract_json text = Ok s.
Proof.
  unfold _extract_json.
  destruct (contains fence_json text) eqn:Hj.
  - destruct (cut fence_json text) as [[a b]|] eqn:Hcut.
    + rewrite (index_split_1 _ _ _ _ fence_json_nonempty Hcut).
      cbn [rbind]. rewrite (index_split_0 _ _ fence_nonempty).
      cbn [rbind]. eauto.
    + apply cut_None in Hcut. congruence.
  - destruct (contains fence text); cbn [rbind]; eauto.
Qed.

End ExtractJson.

(** C1 (amended). Fenced output: when the json fence of the block is the
    first json fence of the output and the block between it and the closing
    fence holds, without any triple backtick, an object preceded by text
    without an opening brace and followed by text without a closing brace,
    [_extract_json] returns exactly the object.  Unfenced output: for prose
    around a bare object, with no triple backtick anywhere, [_extract_json]
    returns the span from the first opening brace to the last closing
    brace, which is the object itself when the prose has no brace on the
    wrong side. *)
Theorem extract_json_recovers_object (pre a mid b post : pystr) :
  let obj := LBRACE :: mid ++ [RBRACE] in
  (contains fence_json (pre ++ fence_json_head) = false ->
   contains fence (a ++ obj ++ b) = false ->
   contains [LBRACE] a = false ->
   contains [RBRACE] b = false ->
   _extract_json (pre ++ fence_json ++ (a ++ obj ++ b) ++ fence ++ post)
   = Ok obj)
  /\
  (contains fence (pre ++ obj ++ post) = false ->
   _extract_json (pre ++ obj ++ post) = Ok (brace_span (pre ++ obj ++ post))
   /\ (contains [LBRACE] pre = false ->
       contains [RBRACE] post = false ->
       _extract_json (pre ++ obj ++ post) = Ok obj)).
Proof.
  intros obj. split.
  - intros Hpre Hin Ha Hb.
    rewrite ExtractJson.extract_json_fenced by assumption.
    apply contains_single_false in Ha, Hb.
    unfold obj. rewrite re_search_object by assumption.
    now rewrite ExtractJson.strip_object.
  - intros Hno. rewrite ExtractJson.extract_json_unfenced by exact Hno.
    split.
    + unfold obj. rewrite re_search_around_object.
      destruct (re_search_shape _ _ (re_search_around_object pre mid post))
        as [m' ->].
      now rewrite ExtractJson.strip_object.
    + intros Ha Hb. apply contains_single_false in Ha, Hb.
      unfold obj. rewrite re_search_object by assumption.
      now rewrite ExtractJson.strip_object.
Qed.

(** C1, counterexample: a json-fenced block whose object has a triple
    backtick inside a string is cut at that backtick; and in prose that
    quotes a snippet between triple backticks the snippet is returned, not
    the span from the first opening brace to the last closing brace. *)
Lemma extract_json_fenced_counterexample :
  (_extract_json (fence_json ++ [NEWLINE] ++ Samples.quiz_with_fence
                  ++ [NEWLINE] ++ fence)
   = Ok (py "{" ++ [DQUOTE] ++ py "questions" ++ [DQUOTE] ++ py ": [{"
         ++ [DQUOTE] ++ py "question" ++ [DQUOTE] ++ py ": " ++ [DQUOTE]
         ++ py "What does")
   /\ _extract_json (fence_json ++ [NEWLINE] ++ Samples.quiz_with_fence
                     ++ [NEWLINE] ++ fence)
      <> Ok Samples.quiz_with_fence)
  /\ (_extract_json (py "Shaped like ```{x}``` it is: {y}") = Ok (py "{x}")
      /\ brace_span (py "Shaped like ```{x}``` it is: {y}")
         = py "{x}``` it is: {y}").
Proof. repeat split; (reflexivity || discriminate). Qed.

Lemma extract_json_recovers_object_witness :
  _extract_json
    (py "Here is your ```quiz```: " ++ fence_json
     ++ ([NEWLINE] ++ (LBRACE :: Samples.questions_body ++ [RBRACE])
         ++ [NEWLINE])
     ++ fence ++ py " Good luck!")
  = Ok (LBRACE :: Samples.questions_body ++ [RBRACE])
  /\ _extract_json
       (py "Sure {ok}: " ++ (LBRACE :: Samples.questions_body ++ [RBRACE])
        ++ py " - done")
     = Ok (brace_span
             (py "Sure {ok}: "
              ++ (LBRACE :: Samples.questions_body ++ [RBRACE])
              ++ py " - done"))
  /\ _extract_json
       (py "Sure: " ++ (LBRACE :: Samples.questions_body ++ [RBRACE])
        ++ py " - done")
     = Ok (LBRACE :: Samples.questions_body ++ [RBRACE]).
Proof.
  split; [|split].
  - apply (proj1 (extract_json_recovers_object
                    (py "Here is your ```quiz```: ") [NEWLINE]
                    (Samples.questions_body) [NEWLINE] (py " Good luck!")));
      reflexivity.
  - apply (proj2 (extract_json_recovers_object
                    (py "Sure {ok}: ") [] (Samples.questions_body) []
                    (py " - done"))).
    reflexivity.
  - apply (proj2 (extract_json_recovers_object
                    (py "Sure: ") [] (Samples.questions_body) []
                    (py " - done")));
      reflexivity.
Defined.

(** C10. [_extract_json] returns a string for every input string: the two
    index operations of the json-fence branch cannot fail.  When the input
    has no triple backtick and no opening brace followed by a closing
    brace, the result is the input with the surrounding whitespace
    stripped. *)
Theorem extract_json_total (text : pystr) :
  (exists s, _extract_json text = Ok s)
  /\ (contains fence text = false ->
      (forall i j, i < j ->
         text !! i = Some LBRACE -> text !! j = Some RBRACE -> False) ->
      _extract_json text = Ok (strip text)).
Proof.
  split; [apply ExtractJson.extract_json_defined|].
  intros Hno Hspan.
  rewrite ExtractJson.extract_json_unfenced by exact Hno.
  now rewrite re_search_None.
Qed.

Lemma extract_json_total_witness :
  (exists s, _extract_json (py "  } no json here {  ") = Ok s)
  /\ _extract_json (py "  } no json here {  ") = Ok (py "} no json here {").
Proof.
  split.
  - apply (proj1 (extract_json_total (py "  } no json here {  "))).
  - apply (proj2 (extract_json_total (py "  } no json here {  "))).
    + reflexivity.
    + apply re_search_None_inv. reflexivity.
Defined.

(* ===================================================================== *)
(** ** Retrieval: sentinels, context budgets, citations *)
(* ===================================================================== *)

Module RagFacts.

Section WithWorld.

Variable similarity_search : pystr -> Z -> result (list Document).
Variable llm_invoke : pystr -> result pystr.

Lemma run_search_bind {A} (query : pystr) (k : Z)
  (cont : list Document -> Eff A) (docs : list Document) :
  similarity_search query k = Ok docs ->
  run (ebind (search similarity_search query k) cont)
  = cont docs [SearchCall query k].
Proof. intros H. unfold run, ebind, search. now rewrite H. Qed.

Lemma summarize_search (query : option pystr) (summary_type : pystr) (k : Z)
  (docs : list Document) :
  similarity_search (summary_query query) k = Ok docs ->
  run (summarize similarity_search llm_invoke query summary_type k)
  = match docs with
    | [] =>
        eret {| summary := py "No content found to summarize.";
                summary_sources := [] |}
    | _ :: _ =>
        ebind
          (invoke llm_invoke
             (SUMMARIZATION_PROMPT_TEMPLATE
                (take 4000 (join para (List.map page_content docs)))
                summary_type))
          (fun summary =>
             eret {| summary := summary;
                     summary_sources :=
                       list_of_set (List.map doc_source docs) |})
    end [SearchCall (summary_query query) k].
Proof.
  intros H. unfold summarize.
  destruct query as [[|c q]|]; simpl in H;
    rewrite (run_search_bind _ _ _ _ H); reflexivity.
Qed.

Lemma log_invoke_bind {A} (prompt : pystr) (cont : pystr -> Eff A)
  (log : list event) :
  (forall a log', snd (cont a log') = log') ->
  snd (ebind (invoke llm_invoke prompt) cont log) = log ++ [LlmCall prompt].
Proof.
  intros H. unfold ebind, invoke.
  destruct (llm_invoke prompt); [apply H|reflexivity].
Qed.

End WithWorld.

End RagFacts.

(** C5. With an empty retrieval each of the three operations returns
    normally, with its fixed sentinel text and an empty list of sources,
    after the one call to the store and without a call to the model. *)
Theorem empty_retrieval_is_success
  (similarity_search : pystr -> Z -> result (list Document))
  (llm_invoke : pystr -> result pystr)
  (question : pystr) (query : option pystr) (summary_type topic : pystr)
  (k : Z) :
  (similarity_search question k = Ok [] ->
   run (ask_question similarity_search llm_invoke question k)
   = (Ok {| answer :=
              py "I couldn't find relevant information in your study materials.";
            sources := [] |},
      [SearchCall question k]))
  /\ (similarity_search (summary_query query) k = Ok [] ->
      run (summarize similarity_search llm_invoke query summary_type k)
      = (Ok {| summary := py "No content found to summarize.";
               summary_sources := [] |},
         [SearchCall (summary_query query) k]))
  /\ (similarity_search topic k = Ok [] ->
      run (extract_definitions similarity_search llm_invoke topic k)
      = (Ok {| definitions := py "No definitions found.";
               definitions_sources := [] |},
         [SearchCall topic k])).
Proof.
  split; [|split]; intros H.
  - unfold ask_question. now rewrite (RagFacts.run_search_bind _ _ _ _ _ H).
  - now rewrite (RagFacts.summarize_search _ _ _ _ _ _ H).
  - unfold extract_definitions.
    now rewrite (RagFacts.run_search_bind _ _ _ _ _ H).
Qed.

Lemma empty_retrieval_is_success_witness :
  let store : pystr -> Z -> result (list Document) := fun _ _ => Ok [] in
  let model : pystr -> result pystr := fun _ => Ok (py "unused") in
  run (ask_question store model (py "What is entropy?") 5)
  = (Ok {| answer :=
             py "I couldn't find relevant information in your study materials.";
           sources := [] |},
     [SearchCall (py "What is entropy?") 5])
  /\ run (summarize store model None (py "bullets") 5)
     = (Ok {| summary := py "No content found to summarize.";
              summary_sources := [] |},
        [SearchCall (py "overview main concepts key topics") 5])
  /\ run (extract_definitions store model (py "definitions terms concepts") 5)
     = (Ok {| definitions := py "No definitions found.";
              definitions_sources := [] |},
        [SearchCall (py "definitions terms concepts") 5]).
Proof.
  intros store model.
  pose proof (empty_retrieval_is_success store model
                (py "What is entropy?") None (py "bullets")
                (py "definitions terms concepts") 5) as (H1 & H2 & H3).
  split; [|split].
  - apply H1. reflexivity.
  - apply H2. reflexivity.
  - apply H3. reflexivity.
Defined.

(** C7. With a non-empty retrieval, [generate_quiz] calls the model once,
    with the quiz prompt rendered on the content of the first 8 chunks at
    most, joined and cut to 3000 characters; [summarize] and
    [extract_definitions] call it once with their prompt rendered on the
    joined content of the chunks cut to 4000 characters. *)
Theorem context_budgets
  (similarity_search : pystr -> Z -> result (list Document))
  (llm_invoke : pystr -> result pystr)
  (json_loads : pystr -> result json)
  (type_error_text : json -> pystr)
  (topic difficulty summary_type : pystr) (query : option pystr)
  (num_questions k : Z) (doc : Document) (docs : list Document) :
  let joined := join para (List.map page_content (doc :: docs)) in
  let quiz_ctx :=
    take 3000 (join para (List.map page_content (take 8 (doc :: docs)))) in
  (similarity_search topic k = Ok (doc :: docs) ->
   snd (run (generate_quiz similarity_search llm_invoke json_loads
               type_error_text topic num_questions difficulty k))
   = [SearchCall topic k;
      LlmCall (QUIZ_GENERATION_PROMPT num_questions quiz_ctx difficulty)]
   /\ length quiz_ctx <= 3000)
  /\ (similarity_search (summary_query query) k = Ok (doc :: docs) ->
      snd (run (summarize similarity_search llm_invoke query summary_type k))
      = [SearchCall (summary_query query) k;
         LlmCall (SUMMARIZATION_PROMPT_TEMPLATE (take 4000 joined)
                    summary_type)]
      /\ length (take 4000 joined) <= 4000)
  /\ (similarity_search topic k = Ok (doc :: docs) ->
      snd (run (extract_definitions similarity_search llm_invoke topic k))
      = [SearchCall topic k;
         LlmCall (DEFINITION_EXTRACTION_PROMPT (take 4000 joined))]
      /\ length (take 4000 joined) <= 4000).
Proof.
  intros joined quiz_ctx. split; [|split]; intros H.
  - split; [|unfold quiz_ctx; rewrite length_take; lia].
    unfold generate_quiz. rewrite (RagFacts.run_search_bind _ _ _ _ _ H).
    unfold ebind, ecatch, invoke, eret.
    destruct (llm_invoke _); reflexivity.
  - split; [|rewrite length_take; lia].
    rewrite (RagFacts.summarize_search _ _ _ _ _ _ H).
    now rewrite RagFacts.log_invoke_bind.
  - split; [|rewrite length_take; lia].
    unfold extract_definitions.
    rewrite (RagFacts.run_search_bind _ _ _ _ _ H).
    now rewrite RagFacts.log_invoke_bind.
Qed.

Lemma context_budgets_witness :
  let store := Samples.store_of Samples.ten_chunks in
  let model := Samples.model_of (py "ok") in
  let joined := join para (List.map page_content Samples.ten_chunks) in
  let quiz_ctx :=
    take 3000 (join para (List.map page_content (take 8 Samples.ten_chunks))) in
  (snd (run (generate_quiz store model Samples.loads_sample
               Samples.no_type_error (py "entropy") 3 (py "easy") 15))
   = [SearchCall (py "entropy") 15;
      LlmCall (QUIZ_GENERATION_PROMPT 3 quiz_ctx (py "easy"))]
   /\ length quiz_ctx <= 3000)
  /\ (snd (run (summarize store model (Some (py "entropy")) (py "short") 10))
      = [SearchCall (py "entropy") 10;
         LlmCall (SUMMARIZATION_PROMPT_TEMPLATE (take 4000 joined)
                    (py "short"))]
      /\ length (take 4000 joined) <= 4000)
  /\ (snd (run (extract_definitions store model (py "entropy") 10))
      = [SearchCall (py "entropy") 10;
         LlmCall (DEFINITION_EXTRACTION_PROMPT (take 4000 joined))]
      /\ length (take 4000 joined) <= 4000).
Proof.
  intros store model joined quiz_ctx.
  pose proof (context_budgets store model Samples.loads_sample
                Samples.no_type_error (py "entropy") (py "easy") (py "short")
                (Some (py "entropy")) 3 15
                Samples.first_chunk Samples.more_chunks) as (H1 & _ & _).
  pose proof (context_budgets store model Samples.loads_sample
                Samples.no_type_error (py "entropy") (py "easy") (py "short")
                (Some (py "entropy")) 3 10
                Samples.first_chunk Samples.more_chunks) as (_ & H2 & H3).
  split; [|split].
  - apply H1. reflexivity.
  - apply H2. reflexivity.
  - apply H3. reflexivity.
Defined.

(** C8 (amended). With a non-empty retrieval and an answer from the model,
    [ask_question] returns one citation per retrieved chunk, in order; the
    citation carries the chunk's source and page (['unknown'] and ['N/A']
    when the metadata lacks them) and, as excerpt, the first 200 characters
    of the chunk's content at most, followed by three dots: 203 characters
    at most. *)
Theorem citation_excerpts
  (similarity_search : pystr -> Z -> result (list Document))
  (llm_invoke : pystr -> result pystr)
  (question reply : pystr) (k : Z) (doc : Document) (docs : list Document) :
  similarity_search question k = Ok (doc :: docs) ->
  llm_invoke
    (QA_PROMPT_TEMPLATE
       (join para (List.map qa_context_entry (doc :: docs))) question)
  = Ok reply ->
  exists r,
    fst (run (ask_question similarity_search llm_invoke question k)) = Ok r
    /\ answer r = reply
    /\ length (sources r) = length (doc :: docs)
    /\ forall i d, (doc :: docs) !! i = Some d ->
         exists c, sources r !! i = Some c
           /\ source c = meta_get (py "source") (MStr (py "unknown")) (metadata d)
           /\ page c = meta_get (py "page") (MStr (py "N/A")) (metadata d)
           /\ excerpt c = take 200 (page_content d) ++ py "..."
           /\ length (take 200 (page_content d)) <= 200
           /\ length (excerpt c) <= 203.
Proof.
  intros Hs Hm. unfold ask_question.
  rewrite (RagFacts.run_search_bind _ _ _ _ _ Hs).
  unfold ebind, invoke, eret. rewrite Hm. cbn [fst].
  eexists. split; [reflexivity|]. cbn [answer sources].
  split; [reflexivity|]. split; [now rewrite length_map|].
  intros i d Hd. exists (make_citation d).
  split; [now rewrite list_lookup_fmap, Hd|].
  unfold make_citation, doc_source, doc_page. cbn [source page excerpt].
  repeat split; try reflexivity.
  - rewrite length_take. lia.
  - rewrite length_app, length_take.
    change (length (py "...")) with 3. lia.
Qed.

(** C8, counterexample: for a chunk of 250 characters the excerpt of the
    citation has 203 characters. *)
Lemma citation_excerpt_counterexample :
  let doc := Samples.chunk 250 (py "notes.pdf") 1 in
  exists r,
    fst (run (ask_question (Samples.store_of [doc])
                (Samples.model_of (py "An answer.")) (py "What is x?") 5))
    = Ok r
    /\ List.map (fun c => length (excerpt c)) (sources r) = [203]
    /\ ~ Forall (fun c => length (excerpt c) <= 200) (sources r).
Proof.
  intros doc. eexists. split; [reflexivity|]. split; [reflexivity|].
  intros H. apply Forall_inv in H. vm_compute in H. lia.
Qed.

Lemma citation_excerpts_witness :
  let doc := Samples.chunk 250 (py "notes.pdf") 7 in
  exists r,
    fst (run (ask_question (Samples.store_of [doc])
                (Samples.model_of (py "An answer.")) (py "What is x?") 5))
    = Ok r
    /\ answer r = py "An answer."
    /\ length (sources r) = 1
    /\ forall i d, [doc] !! i = Some d ->
         exists c, sources r !! i = Some c
           /\ source c = meta_get (py "source") (MStr (py "unknown")) (metadata d)
           /\ page c = meta_get (py "page") (MStr (py "N/A")) (metadata d)
           /\ excerpt c = take 200 (page_content d) ++ py "..."
           /\ length (take 200 (page_content d)) <= 200
           /\ length (excerpt c) <= 203.
Proof.
  intros doc.
  apply (citation_excerpts (Samples.store_of [doc])
           (Samples.model_of (py "An answer.")) (py "What is x?")
           (py "An answer.") 5 doc []); reflexivity.
Defined.

(* ===================================================================== *)
(** ** Quiz generation: parse and shape failures *)
(* ===================================================================== *)

Module QuizFacts.

Section WithWorld.

Variable similarity_search : pystr -> Z -> result (list Document).
Variable llm_invoke : pystr -> result pystr.
Variable json_loads : pystr -> result json.
Variable type_error_text : json -> pystr.

(** The outcome of [generate_quiz] once the store has returned chunks and
    the model a reply from which [candidate] was extracted. *)
Lemma generate_quiz_parsed (topic difficulty raw candidate : pystr)
  (num_questions k : Z) (doc : Document) (docs : list Document) :
  similarity_search topic k = Ok (doc :: docs) ->
  llm_invoke
    (QUIZ_GENERATION_PROMPT num_questions (quiz_context (doc :: docs))
       difficulty) = Ok raw ->
  _extract_json raw = Ok candidate ->
  fst (run (generate_quiz similarity_search llm_invoke json_loads
              type_error_text topic num_questions difficulty k))
  = Ok (attempt (json_loads candidate) (Some candidate) (fun quiz_data =>
        attempt (check_structure type_error_text quiz_data) (Some candidate)
          (fun d =>
             dict_set (py "metadata")
               (quiz_metadata topic difficulty d (doc :: docs)) d))).
Proof.
  intros Hs Hm He. unfold generate_quiz.
  rewrite (RagFacts.run_search_bind _ _ _ _ _ Hs).
  unfold ebind, ecatch, invoke, eret. rewrite Hm. cbn [fst attempt].
  now rewrite He.
Qed.

(** A value that fails the shape test raises, and not a
    [JSONDecodeError]. *)
Lemma check_structure_fails (v : json) :
  ~ has_questions_list v ->
  exists e, check_structure type_error_text v = Raise e
            /\ exn_kind e <> JSONDecodeError.
Proof.
  intros Hv. destruct v; simpl; try (eexists; split; [reflexivity|discriminate]).
  - destruct (contains _ _); eexists; (split; [reflexivity|discriminate]).
  - destruct (existsb _ _); eexists; (split; [reflexivity|discriminate]).
  - destruct (dict_get _ _) as [[]|] eqn:E;
      try (eexists; split; [reflexivity|discriminate]).
    exfalso. apply Hv. eexists _, _. split; [reflexivity|exact E].
Qed.

Lemma handle_failure_shape (e : exn) (quiz_text : option pystr) :
  dict_get (py "questions") (handle_failure e quiz_text) = Some (JList [])
  /\ is_Some (dict_get (py "error") (handle_failure e quiz_text))
  /\ dict_get (py "metadata") (handle_failure e quiz_text) = None.
Proof.
  unfold handle_failure. destruct (exn_kind e); repeat split; eauto.
Qed.

End WithWorld.

End QuizFacts.

(** C4 (amended). After a reply of the model from which the text
    [candidate] was extracted: when [json.loads] raises its decode error
    on the candidate, [generate_quiz] returns the parse error with the
    candidate text (the extracted text, not the reply) as [raw_response]
    and an empty list of questions; when the parsed value is a dictionary
    without a list under ["questions"], it returns the error
    "Quiz generation failed: Invalid quiz structure" with an empty list of
    questions and no [raw_response]; and whenever parsing raises or the
    parsed value fails the shape test, the result is an error dictionary
    with an empty list of questions and no quiz metadata. *)
Theorem quiz_parse_failures
  (similarity_search : pystr -> Z -> result (list Document))
  (llm_invoke : pystr -> result pystr)
  (json_loads : pystr -> result json)
  (type_error_text : json -> pystr)
  (topic difficulty raw candidate : pystr) (num_questions k : Z)
  (doc : Document) (docs : list Document) :
  let outcome :=
    fst (run (generate_quiz similarity_search llm_invoke json_loads
                type_error_text topic num_questions difficulty k)) in
  similarity_search topic k = Ok (doc :: docs) ->
  llm_invoke
    (QUIZ_GENERATION_PROMPT num_questions
       (take 3000 (join para (List.map page_content (take 8 (doc :: docs)))))
       difficulty) = Ok raw ->
  _extract_json raw = Ok candidate ->
  (forall e, json_loads candidate = Raise e ->
     exn_kind e = JSONDecodeError ->
     outcome
     = Ok [ (py "error",
             JStr (py "Failed to parse quiz JSON: " ++ exn_msg e));
            (py "raw_response", JStr candidate);
            (py "questions", JList []) ])
  /\ (forall d, json_loads candidate = Ok (JDict d) ->
        (forall items, dict_get (py "questions") d <> Some (JList items)) ->
        outcome
        = Ok [ (py "error",
                JStr (py "Quiz generation failed: Invalid quiz structure"));
               (py "questions", JList []) ])
  /\ ((exists e, json_loads candidate = Raise e)
      \/ (exists v, json_loads candidate = Ok v /\ ~ has_questions_list v) ->
      exists res, outcome = Ok res
        /\ dict_get (py "questions") res = Some (JList [])
        /\ is_Some (dict_get (py "error") res)
        /\ dict_get (py "metadata") res = None).
Proof.
  intros outcome Hs Hm He. unfold outcome.
  rewrite (QuizFacts.generate_quiz_parsed _ _ _ _ _ _ _ _ _ _ _ _ Hs Hm He).
  split; [|split].
  - intros e Hl Hk. rewrite Hl. cbn [attempt]. unfold handle_failure.
    now rewrite Hk.
  - intros d Hl Hq. rewrite Hl. cbn [attempt check_structure].
    destruct (dict_get (py "questions") d) as [[]|] eqn:E;
      try reflexivity.
    now destruct (Hq items).
  - intros [[e Hl]|(v & Hl & Hv)]; rewrite Hl; cbn [attempt].
    + eexists. split; [reflexivity|]. apply QuizFacts.handle_failure_shape.
    + destruct (QuizFacts.check_structure_fails type_error_text v Hv)
        as (e & -> & _).
      cbn [attempt]. eexists. split; [reflexivity|].
      apply QuizFacts.handle_failure_shape.
Qed.

(** C4, counterexample: a reply that parses to an object without
    ["questions"] gives an error dictionary that does not carry the reply;
    and for a reply in a json fence that does not parse, [raw_response] is
    the extracted text and not the reply. *)
Lemma quiz_shape_failure_counterexample :
  let store := Samples.store_of [Samples.first_chunk] in
  (fst (run (generate_quiz store (Samples.model_of Samples.quiz_key_text)
               Samples.loads_sample Samples.no_type_error
               (py "entropy") 3 (py "easy") 15))
   = Ok [ (py "error",
           JStr (py "Quiz generation failed: Invalid quiz structure"));
          (py "questions", JList []) ]
   /\ dict_get (py "raw_response")
        [ (py "error",
           JStr (py "Quiz generation failed: Invalid quiz structure"));
          (py "questions", JList []) ] = None)
  /\ (exists res,
        fst (run (generate_quiz store (Samples.model_of Samples.fenced_prose)
                    Samples.loads_sample Samples.no_type_error
                    (py "entropy") 3 (py "easy") 15)) = Ok res
        /\ dict_get (py "raw_response") res = Some (JStr (py "not json"))
        /\ dict_get (py "raw_response") res
           <> Some (JStr Samples.fenced_prose)).
Proof.
  intros store. split.
  - split; reflexivity.
  - eexists. split; [reflexivity|]. split; [reflexivity|discriminate].
Qed.

Lemma quiz_parse_failures_witness :
  let store := Samples.store_of [Samples.first_chunk] in
  fst (run (generate_quiz store (Samples.model_of Samples.fenced_prose)
              Samples.loads_sample Samples.no_type_error
              (py "entropy") 3 (py "easy") 15))
  = Ok [ (py "error",
          JStr (py "Failed to parse quiz JSON: "
                ++ py "Expecting value: line 1 column 1 (char 0)"));
         (py "raw_response", JStr (py "not json"));
         (py "questions", JList []) ]
  /\ fst (run (generate_quiz store (Samples.model_of Samples.quiz_key_text)
                 Samples.loads_sample Samples.no_type_error
                 (py "entropy") 3 (py "easy") 15))
     = Ok [ (py "error",
             JStr (py "Quiz generation failed: Invalid quiz structure"));
            (py "questions", JList []) ]
  /\ exists res,
       fst (run (generate_quiz store (Samples.model_of Samples.quiz_key_text)
                   Samples.loads_sample Samples.no_type_error
                   (py "entropy") 3 (py "easy") 15)) = Ok res
       /\ dict_get (py "questions") res = Some (JList [])
       /\ is_Some (dict_get (py "error") res)
       /\ dict_get (py "metadata") res = None.
Proof.
  intros store.
  pose proof (quiz_parse_failures store (Samples.model_of Samples.fenced_prose)
                Samples.loads_sample Samples.no_type_error
                (py "entropy") (py "easy") Samples.fenced_prose
                (py "not json") 3 15 Samples.first_chunk []
                eq_refl eq_refl eq_refl) as (H1 & _ & _).
  pose proof (quiz_parse_failures store (Samples.model_of Samples.quiz_key_text)
                Samples.loads_sample Samples.no_type_error
                (py "entropy") (py "easy") Samples.quiz_key_text
                Samples.quiz_key_text 3 15 Samples.first_chunk []
                eq_refl eq_refl eq_refl) as (_ & H2 & H3).
  split; [|split].
  - apply (H1 (Exn JSONDecodeError
                 (py "Expecting value: line 1 column 1 (char 0)")));
      reflexivity.
  - apply (H2 [(py "quiz", JList [])]); [reflexivity|].
    intros items. discriminate.
  - apply H3. right. exists (JDict [(py "quiz", JList [])]).
    split; [reflexivity|].
    intros (d & items & [= <-] & Hq). discriminate Hq.
Defined.

(* ===================================================================== *)
(** ** Ingestion: clean-up, short documents, missing content *)
(* ===================================================================== *)

Module IngestFacts.

Section WithFiles.

Variable read_text : pystr -> result pystr.
Variable pdf_pages : pystr -> result (list (result pystr)).
Variable path_name : pystr -> pystr.
Variable path_suffix_lower : pystr -> pystr.
Variable split_documents : list Document -> list Document.

(** Blank pages add nothing to the documents read so far. *)
Lemma pdf_loop_blank (filename : pystr) (page_num : Z)
  (pages : list (result pystr)) (documents : list RawDoc) :
  Forall (fun p => exists t, p = Ok t /\ strip t = []) pages ->
  pdf_loop filename page_num pages documents = documents.
Proof.
  intros H. revert page_num. induction H as [|p pages (t & -> & Ht) _ IH];
    intros page_num; [reflexivity|].
  cbn [pdf_loop]. rewrite Ht. apply IH.
Qed.

Lemma process_documents_no_content (file_path : pystr) :
  (path_suffix_lower file_path = py ".pdf"
   /\ extract_text_from_pdf pdf_pages path_name file_path = [])
  \/ (path_suffix_lower file_path = py ".txt"
      /\ extract_text_from_txt read_text path_name file_path = []) ->
  process_documents read_text pdf_pages path_name path_suffix_lower
    split_documents file_path
  = Raise (Exn ValueError (py "No content extracted from document")).
Proof.
  unfold process_documents. intros [[-> E]|[-> E]]; now rewrite E.
Qed.

(** With a supported extension the extraction decides: no document is
    the error, any document goes through the cleaning to the splitter. *)
Lemma process_documents_supported (file_path : pystr) :
  path_suffix_lower file_path = py ".pdf"
  \/ path_suffix_lower file_path = py ".txt" ->
  process_documents read_text pdf_pages path_name path_suffix_lower
    split_documents file_path
  = match (if bool_decide (path_suffix_lower file_path = py ".pdf")
           then extract_text_from_pdf pdf_pages path_name file_path
           else extract_text_from_txt read_text path_name file_path) with
    | [] => Raise (Exn ValueError (py "No content extracted from document"))
    | doc :: rest => Ok (split_documents (clean_documents (doc :: rest)))
    end.
Proof.
  unfold process_documents. intros [E|E]; rewrite E.
  - rewrite bool_decide_eq_true_2 by reflexivity. cbn [rbind].
    now destruct (extract_text_from_pdf pdf_pages path_name file_path).
  - rewrite bool_decide_eq_false_2 by discriminate.
    rewrite bool_decide_eq_true_2 by reflexivity. cbn [rbind].
    now destruct (extract_text_from_txt read_text path_name file_path).
Qed.

End WithFiles.

End IngestFacts.

(** C6 (amended). [clean_text] collapses every run of whitespace to one
    space, then removes the null characters, then trims: its result has
    no null character, no whitespace other than the plain space, and
    neither starts nor ends with whitespace; it has no two whitespace
    characters in a row when the text has no null character.  For a file with a supported extension from which
    the extraction yields a document, [process_documents] hands to the
    splitter the cleaned documents whose cleaned text has more than 50
    characters, and no other, so every document under 50 characters is
    dropped.  It raises the error "No content extracted from document"
    exactly when the extension is supported and the extraction yields no
    document: the PDF cannot be opened or has only blank pages, the text
    file cannot be read.  A text file that is read never raises it: when
    its cleaned text has 50 characters or fewer, the empty file included,
    the splitter's result on the empty list is returned. *)
Theorem ingestion_cleanup
  (read_text : pystr -> result pystr)
  (pdf_pages : pystr -> result (list (result pystr)))
  (path_name path_suffix_lower : pystr -> pystr)
  (split_documents : list Document -> list Document)
  (text file_path : pystr) :
  let process :=
    process_documents read_text pdf_pages path_name path_suffix_lower
      split_documents in
  let no_content :=
    Raise (Exn ValueError (py "No content extracted from document")) in
  let extension := path_suffix_lower file_path in
  let supported := extension = py ".pdf" \/ extension = py ".txt" in
  let extracted :=
    if bool_decide (extension = py ".pdf")
    then extract_text_from_pdf pdf_pages path_name file_path
    else extract_text_from_txt read_text path_name file_path in
  let kept :=
    List.filter (fun doc => 50 <? length (clean_text (content doc)))
      extracted in
  (clean_text text = strip (strip_nulls (collapse_whitespace text))
   /\ (NUL ∉ clean_text text)
   /\ (forall c r, clean_text text = c :: r -> is_space c = false)
   /\ (forall c, last (clean_text text) = Some c -> is_space c = false)
   /\ Forall (fun c => is_space c = true -> c = SPACE) (clean_text text)
   /\ (NUL ∉ text -> single_spaced (clean_text text) = true))
  /\ (supported -> extracted <> [] ->
      process file_path
      = Ok (split_documents
              (List.map
                 (fun doc => {| page_content := clean_text (content doc);
                                metadata := raw_metadata doc |})
                 kept))
      /\ (forall doc, doc ∈ kept
            <-> doc ∈ extracted /\ 50 < length (clean_text (content doc))))
  /\ (process file_path = no_content <-> supported /\ extracted = [])
  /\ (extension = py ".pdf" ->
      (exists e, pdf_pages file_path = Raise e)
      \/ (exists pages, pdf_pages file_path = Ok pages
            /\ Forall (fun p => exists t, p = Ok t /\ strip t = []) pages) ->
      process file_path = no_content)
  /\ (extension = py ".txt" ->
      (exists e, read_text file_path = Raise e) ->
      process file_path = no_content)
  /\ (extension = py ".txt" ->
      forall t, read_text file_path = Ok t ->
        length (clean_text t) <= 50 ->
        process file_path = Ok (split_documents [])).
Proof.
  intros process no_content extension supported extracted kept.
  split; [|split; [|split; [|split; [|split]]]].
  - split; [apply clean_text_spec|]. split; [apply clean_text_no_nul|].
    split; [|split; [|split]]; try (unfold clean_text; apply strip_ends).
    { apply Forall_forall. intros c Hc Hs.
      apply CleanMore.clean_text_elem in Hc as [->|[_ Hns]];
        [reflexivity|congruence]. }
    intros Hnul. rewrite clean_text_spec. unfold cleanup_spec.
    rewrite strip_nulls_id.
    + apply CleanMore.single_spaced_strip, CleanMore.single_spaced_collapse.
    + intros H. apply CleanMore.collapse_elem in H as [H|[H _]];
        [discriminate|tauto].
  - intros Hs Hne. split.
    + unfold process.
      rewrite (IngestFacts.process_documents_supported _ _ _ _ _ _ Hs).
      fold extension extracted.
      destruct extracted as [|doc rest] eqn:E; [congruence|].
      now rewrite clean_documents_filter.
    + intros doc. unfold kept.
      rewrite !list_elem_of_In, List.filter_In, Nat.ltb_lt. tauto.
  - split.
    + intros H.
      assert (Hs : supported).
      { destruct (decide (extension = py ".pdf")) as [Hpdf|Hpdf];
          [now left|].
        destruct (decide (extension = py ".txt")) as [Htxt|Htxt];
          [now right|].
        unfold process, process_documents in H. fold extension in H.
        rewrite !bool_decide_eq_false_2 in H by assumption.
        discriminate H. }
      split; [exact Hs|]. unfold process in H.
      rewrite (IngestFacts.process_documents_supported _ _ _ _ _ _ Hs) in H.
      unfold extracted, extension.
      destruct (if bool_decide (path_suffix_lower file_path = py ".pdf")
                then extract_text_from_pdf pdf_pages path_name file_path
                else extract_text_from_txt read_text path_name file_path);
        [reflexivity|discriminate H].
    + intros [Hs E]. unfold process.
      rewrite (IngestFacts.process_documents_supported _ _ _ _ _ _ Hs).
      fold extension extracted. now rewrite E.
  - intros Hext H. apply IngestFacts.process_documents_no_content.
    left. split; [exact Hext|]. unfold extract_text_from_pdf.
    destruct H as [[e ->]|(pages & -> & Hblank)]; [reflexivity|].
    now apply IngestFacts.pdf_loop_blank.
  - intros Hext [e He]. apply IngestFacts.process_documents_no_content.
    right. split; [exact Hext|]. unfold extract_text_from_txt.
    now rewrite He.
  - intros Hext t Hread Hlen. unfold process, process_documents.
    fold extension. rewrite Hext.
    rewrite bool_decide_eq_false_2 by discriminate.
    rewrite bool_decide_eq_true_2 by reflexivity.
    unfold extract_text_from_txt. rewrite Hread. cbn [rbind].
    rewrite clean_documents_filter. cbn [List.filter content].
    destruct (Nat.ltb_spec 50 (length (clean_text t))); [lia|reflexivity].
Qed.

(** C6, counterexample: an empty text file is read, nothing is extracted
    from it, and [process_documents] returns the empty list of chunks: it
    raises no error.  And a null character between two spaces leaves two
    spaces in a row in the cleaned text. *)
Lemma empty_text_file_counterexample :
  (extract_text_from_txt (fun _ => Ok []) (fun p => p) (py "empty.txt")
   = [ {| content := [];
          raw_metadata := [ (py "source", MStr (py "empty.txt"));
                            (py "type", MStr (py "txt")) ] |} ]
   /\ process_documents (fun _ => Ok []) Samples.blank_pdf (fun p => p)
        (fun _ => py ".txt") Samples.whole_documents (py "empty.txt")
      = Ok []
   /\ process_documents (fun _ => Ok []) Samples.blank_pdf (fun p => p)
        (fun _ => py ".txt") Samples.whole_documents (py "empty.txt")
      <> Raise (Exn ValueError (py "No content extracted from document")))
  /\ (clean_text (py "Heat" ++ [SPACE; NUL; SPACE] ++ py "flows")
      = py "Heat  flows"
      /\ single_spaced (py "Heat  flows") = false).
Proof.
  split; [split; [reflexivity|split; [reflexivity|discriminate]]|].
  split; reflexivity.
Qed.

Lemma ingestion_cleanup_witness :
  clean_text (py "  Entropy   is" ++ [NEWLINE; NUL] ++ py "a measure. ")
  = py "Entropy is a measure."
  /\ process_documents Samples.missing_file Samples.blank_pdf
       (fun p => p) (fun _ => py ".pdf") Samples.whole_documents
       (py "blank.pdf")
     = Raise (Exn ValueError (py "No content extracted from document"))
  /\ process_documents Samples.missing_file Samples.blank_pdf
       (fun p => p) (fun _ => py ".txt") Samples.whole_documents
       (py "gone.txt")
     = Raise (Exn ValueError (py "No content extracted from document"))
  /\ process_documents (fun _ => Ok (py " too   short ")) Samples.blank_pdf
       (fun p => p) (fun _ => py ".txt") Samples.whole_documents
       (py "short.txt")
     = Ok []
  /\ process_documents (fun _ => Ok (List.repeat 120%N 60)) Samples.blank_pdf
       (fun p => p) (fun _ => py ".txt") Samples.whole_documents
       (py "notes.txt")
     = Ok [ {| page_content := List.repeat 120%N 60;
               metadata := [ (py "source", MStr (py "notes.txt"));
                             (py "type", MStr (py "txt")) ] |} ].
Proof.
  split; [|split; [|split; [|split]]].
  - rewrite (proj1 (proj1 (ingestion_cleanup Samples.missing_file
                             Samples.blank_pdf (fun p => p)
                             (fun _ => py ".pdf") Samples.whole_documents
                             (py "  Entropy   is" ++ [NEWLINE; NUL]
                              ++ py "a measure. ")
                             (py "blank.pdf")))).
    reflexivity.
  - apply (proj1 (proj2 (proj2 (proj2
             (ingestion_cleanup Samples.missing_file Samples.blank_pdf
                (fun p => p) (fun _ => py ".pdf") Samples.whole_documents
                [] (py "blank.pdf")))))); [reflexivity|].
    right. eexists. split; [reflexivity|].
    repeat constructor; eexists; (split; [reflexivity|reflexivity]).
  - apply (proj1 (proj2 (proj2 (proj2 (proj2
             (ingestion_cleanup Samples.missing_file Samples.blank_pdf
                (fun p => p) (fun _ => py ".txt") Samples.whole_documents
                [] (py "gone.txt"))))))); [reflexivity|].
    eexists. reflexivity.
  - apply (proj2 (proj2 (proj2 (proj2 (proj2
             (ingestion_cleanup (fun _ => Ok (py " too   short "))
                Samples.blank_pdf (fun p => p) (fun _ => py ".txt")
                Samples.whole_documents [] (py "short.txt")))))) eq_refl
             (py " too   short ") eq_refl).
    vm_compute. lia.
  - rewrite (proj1 (proj1 (proj2
               (ingestion_cleanup (fun _ => Ok (List.repeat 120%N 60))
                  Samples.blank_pdf (fun p => p) (fun _ => py ".txt")
                  Samples.whole_documents [] (py "notes.txt")))
               ltac:(right; reflexivity) ltac:(discriminate))).
    reflexivity.
Defined.

(* ===================================================================== *)
(** ** Grading *)
(* ===================================================================== *)



(** C3 (amended). The only exception that [grade_quiz] can raise is the
    [AttributeError] of a question whose answer key is not a string: no
    missing answer makes it raise, and for questions whose key is a string
    or is missing it returns.  The comparison is made on the upper-cased
    labels: an answer matches exactly when its upper case equals the upper
    case of the key, so "a" matches the key "A".  A question whose index
    is absent from the answers is reported as "Not answered", and it does
    not match whenever the upper case of its key is not empty. *)
Theorem grade_quiz_missing_answers (upper : pystr -> pystr)
  (questions : list dict) (user_answers : gmap Z pystr) :
  upper [] = [] ->
  (forall e, grade_quiz upper questions user_answers = Raise e ->
     exn_kind e = AttributeError /\ ~ Forall has_key questions)
  /\ (Forall has_key questions ->
      exists r,
        grade_quiz upper questions user_answers = Ok r
        /\ length (results r) = length questions
        /\ forall i question key,
             questions !! i = Some question ->
             answer_key question = Some key ->
             exists g,
               results r !! i = Some g
               /\ correct_answer g = upper key
               /\ (forall a, user_answers !! Z.of_nat i = Some a ->
                     (is_correct g = true <-> upper a = upper key))
               /\ (user_answers !! Z.of_nat i = None ->
                     user_answer g = py "Not answered"
                     /\ (upper key <> [] -> is_correct g = false))).
Proof.
  intros Hnil. split; [apply GradeFacts.grade_quiz_raise|]. intros Hk.
  destruct (GradeFacts.grade_quiz_ok upper user_answers questions Hk)
    as (r & Hr & _ & _ & _ & Hlen & Hrec).
  exists r. split; [exact Hr|]. split; [exact Hlen|].
  intros i q key Hq Hkey.
  destruct (Hrec i q Hq) as (g & Hg & Hone).
  destruct (GradeFacts.grade_one_ok upper user_answers i q key Hkey)
    as (g' & Hone' & _ & _ & Hcorrect & Hca & Hua).
  rewrite Hone in Hone'. injection Hone' as <-.
  exists g. split; [exact Hg|]. split; [exact Hca|].
  unfold pystr in *. split.
  - intros a Ha. rewrite Hcorrect, Ha. cbn [default].
    apply bool_decide_eq_true.
  - intros Hnone. rewrite Hua, Hcorrect, Hnone. cbn [default].
    rewrite Hnil. split; [reflexivity|].
    intros Hne. apply bool_decide_eq_false. congruence.
Qed.

(** C3, counterexample: a question without an answer key and no answer
    for it; the missing answer is graded as correct. *)
Lemma missing_answer_counterexample :
  exists r g,
    grade_quiz ascii_upper [Samples.question_without_key] ∅ = Ok r
    /\ results r = [g]
    /\ user_answer g = py "Not answered"
    /\ is_correct g = true
    /\ correct r = 1.
Proof. eexists _, _. repeat split; reflexivity. Qed.

Lemma grade_quiz_missing_answers_witness :
  exists r,
    grade_quiz ascii_upper Samples.three_questions Samples.two_answers = Ok r
    /\ (exists g, results r !! 0 = Some g /\ is_correct g = true)
    /\ (exists g, results r !! 2 = Some g
                  /\ user_answer g = py "Not answered"
                  /\ is_correct g = false).
Proof.
  destruct (proj2 (grade_quiz_missing_answers ascii_upper
                     Samples.three_questions Samples.two_answers eq_refl))
    as (r & Hr & _ & Hrec).
  { repeat constructor; eexists; reflexivity. }
  exists r. split; [exact Hr|]. split.
  - destruct (Hrec 0 (Samples.question_with (py "Q1") (py "A")) (py "A")
                eq_refl eq_refl) as (g & Hg & _ & Hsome & _).
    exists g. split; [exact Hg|].
    apply (Hsome (py "a")); reflexivity.
  - destruct (Hrec 2 (Samples.question_with (py "Q3") (py "C")) (py "C")
                eq_refl eq_refl) as (g & Hg & _ & _ & Hnone).
    exists g. split; [exact Hg|].
    destruct (Hnone eq_refl) as [Hua Hic].
    split; [exact Hua|]. apply Hic. discriminate.
Defined.

(** C9. A question whose ["correct_answer"] is missing or is the empty
    string, and which the user did not answer, is graded as correct: the
    submitted label and the key both default to the empty string.  It is
    reported as "Not answered" and it is counted in the number of correct
    answers. *)
Theorem unanswered_matches_empty_key (upper : pystr -> pystr)
  (questions : list dict) (user_answers : gmap Z pystr)
  (i : nat) (question : dict) :
  upper [] = [] ->
  Forall has_key questions ->
  questions !! i = Some question ->
  dict_get (py "correct_answer") question = None
  \/ dict_get (py "correct_answer") question = Some (JStr []) ->
  user_answers !! Z.of_nat i = None ->
  exists r g,
    grade_quiz upper questions user_answers = Ok r
    /\ results r !! i = Some g
    /\ user_answer g = py "Not answered"
    /\ correct_answer g = []
    /\ is_correct g = true
    /\ 1 <= correct r.
Proof.
  intros Hnil Hk Hq Hempty Hnone.
  assert (Hkey : answer_key question = Some []).
  { unfold answer_key. now destruct Hempty as [-> | ->]. }
  destruct (GradeFacts.grade_quiz_ok upper user_answers questions Hk)
    as (r & Hr & _ & Hc & _ & _ & Hrec).
  destruct (Hrec i question Hq) as (g & Hg & Hone).
  destruct (GradeFacts.grade_one_ok upper user_answers i question [] Hkey)
    as (g' & Hone' & _ & Hm & Hcorrect & Hca & Hua).
  rewrite Hone in Hone'. injection Hone' as <-.
  unfold pystr in *. rewrite Hnone in Hcorrect, Hua. cbn [default] in *.
  rewrite Hnil in *.
  exists r, g. split; [exact Hr|]. split; [exact Hg|].
  split; [exact Hua|]. split; [exact Hca|].
  assert (Hic : is_correct g = true)
    by (rewrite Hcorrect; now apply bool_decide_eq_true).
  split; [exact Hic|]. rewrite Hc.
  apply (GradeFacts.count_correct_pos upper user_answers questions 0 i question
           Hq).
  cbn [Nat.add]. now rewrite <- Hm.
Qed.

Lemma unanswered_matches_empty_key_witness :
  exists r g,
    grade_quiz ascii_upper
      (Samples.three_questions ++ [Samples.question_without_key])
      Samples.two_answers = Ok r
    /\ results r !! 3 = Some g
    /\ user_answer g = py "Not answered"
    /\ correct_answer g = []
    /\ is_correct g = true
    /\ 1 <= correct r.
Proof.
  apply (unanswered_matches_empty_key ascii_upper
           (Samples.three_questions ++ [Samples.question_without_key])
           Samples.two_answers 3 Samples.question_without_key eq_refl).
  - repeat constructor; eexists; reflexivity.
  - reflexivity.
  - left. reflexivity.
  - reflexivity.
Defined.

(* ===================================================================== *)
(** ** The reply that goes to the brace search as a whole *)
(* ===================================================================== *)

Module IdemFacts.

(** When the text handed to the brace search holds a fence, it is the
    whole reply: the reply has no json fence, and none of its parts has
    both braces. *)
Lemma fenced_text_kept (text text1 : pystr) :
  (if contains fence_json text then
     (after <- index (split_sep fence_json text) 1 ;;
      index (split_sep fence after) 0)%result
   else if contains fence text then
     Ok (first_braced_part (split_sep fence text) text)
   else Ok text) = Ok text1 ->
  contains fence text1 = true ->
  text1 = text
  /\ contains fence_json text = false
  /\ List.find has_braces (split_sep fence text) = None.
Proof.
  intros H Hf. destruct (fenced_text text) as (t & Ht & _ & Hjson & _).
  rewrite H in Ht. injection Ht as <-.
  destruct (contains fence_json text) eqn:Hj;
    [rewrite Hjson in Hf by reflexivity; discriminate|].
  destruct (contains fence text) eqn:Hc.
  - injection H as <-. unfold first_braced_part in *.
    destruct (List.find has_braces (split_sep fence text)) as [part|] eqn:E;
      [|auto].
    apply List.find_some in E as [E _]. apply list_elem_of_In in E.
    apply (split_sep_parts fence fence_nonempty) in E as [_ E]. congruence.
  - injection H as <-. congruence.
Qed.

(** A piece of such a reply whose ends are not backticks is handed to the
    brace search as it is. *)
Lemma kept_piece (text l s r : pystr) :
  text = l ++ s ++ r ->
  contains fence_json text = false ->
  List.find has_braces (split_sep fence text) = None ->
  head s <> Some BACKTICK \/ last l <> Some BACKTICK ->
  last s <> Some BACKTICK \/ head r <> Some BACKTICK ->
  _extract_json s
  = Ok (strip match re_search_braces s with
              | Some m => m
              | None => s
              end).
Proof.
  intros Ht Hj Hnone Hl Hr.
  destruct (contains fence s) eqn:Hf;
    [|now apply ExtractJson.extract_json_unfenced].
  assert (Hpiece : contains s text = true).
  { apply contains_spec. now exists l, r. }
  assert (Hs : s <> []).
  { intros ->. discriminate Hf. }
  unfold _extract_json.
  rewrite (contains_piece_false _ _ _ Hpiece Hj), Hf.
  unfold first_braced_part.
  rewrite (PartsFacts.find_braced_covered (split_sep fence s)
             (split_sep fence text)); [reflexivity| |exact Hnone].
  rewrite Ht. now apply PartsFacts.parts_inside.
Qed.

Lemma all_space_last (l : pystr) : all_space l -> last l <> Some BACKTICK.
Proof.
  intros Hl H. apply last_Some in H as [l' ->].
  apply Forall_app in Hl as [_ Hl]. apply Forall_inv in Hl.
  discriminate Hl.
Qed.

Lemma all_space_head (r : pystr) : all_space r -> head r <> Some BACKTICK.
Proof.
  intros Hr H. destruct r as [|c r]; [discriminate|].
  injection H as ->. apply Forall_inv in Hr. discriminate Hr.
Qed.

Lemma object_last (mid : pystr) :
  last (LBRACE :: mid ++ [RBRACE]) = Some RBRACE.
Proof.
  change (LBRACE :: mid ++ [RBRACE]) with ((LBRACE :: mid) ++ [RBRACE]).
  apply last_snoc.
Qed.

End IdemFacts.

(* ===================================================================== *)
(** ** The outcomes of [generate_quiz] *)
(* ===================================================================== *)

Module QuizOutcomes.

Section WithWorld.

Variable similarity_search : pystr -> Z -> result (list Document).
Variable llm_invoke : pystr -> result pystr.
Variable json_loads : pystr -> result json.
Variable type_error_text : json -> pystr.

Lemma generate_quiz_search_raises (topic difficulty : pystr)
  (num_questions k : Z) (e : exn) :
  similarity_search topic k = Raise e ->
  run (generate_quiz similarity_search llm_invoke json_loads type_error_text
         topic num_questions difficulty k)
  = (Raise e, [SearchCall topic k]).
Proof. intros H. unfold generate_quiz, run, ebind, search. now rewrite H. Qed.

Lemma generate_quiz_nothing_found (topic difficulty : pystr)
  (num_questions k : Z) :
  similarity_search topic k = Ok [] ->
  run (generate_quiz similarity_search llm_invoke json_loads type_error_text
         topic num_questions difficulty k)
  = (Ok [ (py "error",
           JStr (py "No relevant content found for quiz generation"));
          (py "questions", JList []) ],
     [SearchCall topic k]).
Proof.
  intros H. unfold generate_quiz.
  now rewrite (RagFacts.run_search_bind _ _ _ _ _ H).
Qed.

(** With chunks from the store the model is called once, and the result is
    an error dictionary or the parsed dictionary with its metadata. *)
Lemma generate_quiz_answered (topic difficulty : pystr)
  (num_questions k : Z) (doc : Document) (docs : list Document) :
  similarity_search topic k = Ok (doc :: docs) ->
  exists res items,
    run (generate_quiz similarity_search llm_invoke json_loads
           type_error_text topic num_questions difficulty k)
    = (Ok res,
       [SearchCall topic k;
        LlmCall (QUIZ_GENERATION_PROMPT num_questions
                   (quiz_context (doc :: docs)) difficulty)])
    /\ dict_get (py "questions") res = Some (JList items)
    /\ ((items = []
         /\ (exists msg, dict_get (py "error") res = Some (JStr msg))
         /\ dict_get (py "metadata") res = None)
        \/ (exists raw candidate d,
              llm_invoke
                (QUIZ_GENERATION_PROMPT num_questions
                   (quiz_context (doc :: docs)) difficulty) = Ok raw
              /\ _extract_json raw = Ok candidate
              /\ json_loads candidate = Ok (JDict d)
              /\ dict_get (py "questions") d = Some (JList items)
              /\ res = dict_set (py "metadata")
                         (quiz_metadata topic difficulty d (doc :: docs))
                         d)).
Proof.
  intros H. unfold generate_quiz.
  rewrite (RagFacts.run_search_bind _ _ _ _ _ H).
  unfold ebind, ecatch, invoke, eret.
  set (prompt := QUIZ_GENERATION_PROMPT num_questions
                   (quiz_context (doc :: docs)) difficulty).
  assert (Hfail : forall e quiz_text,
            exists res items,
              (Ok (handle_failure e quiz_text),
               [SearchCall topic k] ++ [LlmCall prompt])
              = (Ok res, [SearchCall topic k; LlmCall prompt])
              /\ dict_get (py "questions") res = Some (JList items)
              /\ ((items = []
                   /\ (exists msg,
                         dict_get (py "error") res = Some (JStr msg))
                   /\ dict_get (py "metadata") res = None)
                  \/ (exists raw candidate d,
                        llm_invoke prompt = Ok raw
                        /\ _extract_json raw = Ok candidate
                        /\ json_loads candidate = Ok (JDict d)
                        /\ dict_get (py "questions") d = Some (JList items)
                        /\ res = dict_set (py "metadata")
                                   (quiz_metadata topic difficulty d
                                      (doc :: docs)) d))).
  { intros e quiz_text.
    destruct (QuizShape.handle_failure_error e quiz_text)
      as (Hq & Herr & Hmeta).
    exists (handle_failure e quiz_text), []. split; [reflexivity|].
    split; [exact Hq|]. left. auto. }
  destruct (llm_invoke prompt) as [raw|e] eqn:Hm; cbn [attempt];
    [|apply Hfail].
  destruct (_extract_json raw) as [candidate|e] eqn:He; cbn [attempt];
    [|apply Hfail].
  destruct (json_loads candidate) as [v|e] eqn:Hl; cbn [attempt];
    [|apply Hfail].
  destruct (check_structure type_error_text v) as [d|e] eqn:Hc;
    cbn [attempt]; [|apply Hfail].
  apply QuizShape.check_structure_ok in Hc as (-> & items & Hitems).
  eexists _, items. split; [reflexivity|]. split.
  - rewrite dict_get_set_ne by discriminate. exact Hitems.
  - right. exists raw, candidate, d. auto.
Qed.

(** The outcome once the reply has been parsed to a dictionary with a list
    of questions. *)
Lemma generate_quiz_parsed_ok (topic difficulty raw candidate : pystr)
  (num_questions k : Z) (doc : Document) (docs : list Document)
  (d : dict) (items : list json) :
  similarity_search topic k = Ok (doc :: docs) ->
  llm_invoke
    (QUIZ_GENERATION_PROMPT num_questions (quiz_context (doc :: docs))
       difficulty) = Ok raw ->
  _extract_json raw = Ok candidate ->
  json_loads candidate = Ok (JDict d) ->
  dict_get (py "questions") d = Some (JList items) ->
  run (generate_quiz similarity_search llm_invoke json_loads
         type_error_text topic num_questions difficulty k)
  = (Ok (dict_set (py "metadata")
           (quiz_metadata topic difficulty d (doc :: docs)) d),
     [SearchCall topic k;
      LlmCall (QUIZ_GENERATION_PROMPT num_questions
                 (quiz_context (doc :: docs)) difficulty)]).
Proof.
  intros Hs Hm He Hl Hq. unfold generate_quiz.
  rewrite (RagFacts.run_search_bind _ _ _ _ _ Hs).
  unfold ebind, ecatch, invoke, eret. rewrite Hm. cbn [attempt].
  rewrite He. cbn [attempt]. rewrite Hl. cbn [attempt].
  now rewrite (QuizShape.check_structure_pass _ _ _ Hq).
Qed.

End WithWorld.

End QuizOutcomes.

(* ===================================================================== *)
(** ** Quiz generation: what the caller gets in every case *)
(* ===================================================================== *)



(** X2. When the reply of the model parses to a dictionary with a list
    under "questions", [generate_quiz] returns that dictionary with one
    change: the entry "metadata" is set.  Every other entry is as the model
    gave it, the questions included.  The metadata holds the topic, the
    difficulty, as "num_questions" the number of questions in the list
    (not the number that was asked for), and as "sources" the source names
    of the first five retrieved chunks as a set holds them: no two listed
    names are equal under [==], every listed name is the source of one of
    the five chunks and the first of them among the names equal to it,
    and the source of each of the five chunks is equal to a listed name.
    When no source is a boolean (file names are strings) the list has the
    source names of the five chunks, each of them once. *)
Theorem generate_quiz_success
  (similarity_search : pystr -> Z -> result (list Document))
  (llm_invoke : pystr -> result pystr)
  (json_loads : pystr -> result json)
  (type_error_text : json -> pystr)
  (topic difficulty raw candidate : pystr) (num_questions k : Z)
  (doc : Document) (docs : list Document) (d : dict) (items : list json) :
  similarity_search topic k = Ok (doc :: docs) ->
  llm_invoke
    (QUIZ_GENERATION_PROMPT num_questions (quiz_context (doc :: docs))
       difficulty) = Ok raw ->
  _extract_json raw = Ok candidate ->
  json_loads candidate = Ok (JDict d) ->
  dict_get (py "questions") d = Some (JList items) ->
  exists res names,
    fst (run (generate_quiz similarity_search llm_invoke json_loads
                type_error_text topic num_questions difficulty k)) = Ok res
    /\ (forall key, key <> py "metadata" ->
          dict_get key res = dict_get key d)
    /\ dict_get (py "questions") res = Some (JList items)
    /\ dict_get (py "metadata") res
       = Some (JDict [ (py "topic", JStr topic);
                       (py "difficulty", JStr difficulty);
                       (py "num_questions", JInt (Z.of_nat (length items)));
                       (py "sources", JList (List.map json_of_meta names)) ])
    /\ (forall i j a b, names !! i = Some a -> names !! j = Some b ->
          py_eq a b = true -> i = j)
    /\ (forall s, s ∈ names ->
          exists i c, take 5 (doc :: docs) !! i = Some c /\ doc_source c = s
            /\ forall j c', j < i -> take 5 (doc :: docs) !! j = Some c' ->
                 py_eq (doc_source c') s = false)
    /\ (forall c, c ∈ take 5 (doc :: docs) ->
          exists s, s ∈ names /\ py_eq s (doc_source c) = true)
    /\ ((forall c b, c ∈ take 5 (doc :: docs) -> doc_source c <> MBool b) ->
        NoDup names
        /\ forall s, s ∈ names
             <-> exists c, c ∈ take 5 (doc :: docs) /\ doc_source c = s)
    /\ List.map fst res
       = if bool_decide (py "metadata" ∈ List.map fst d)
         then List.map fst d
         else List.map fst d ++ [py "metadata"].
Proof.
  intros Hs Hm He Hl Hq.
  rewrite (QuizFacts.generate_quiz_parsed _ _ _ _ _ _ _ _ _ _ _ _ Hs Hm He).
  rewrite Hl. cbn [attempt].
  rewrite (QuizShape.check_structure_pass _ _ _ Hq). cbn [attempt].
  destruct (SourceFacts.sources_spec (take 5 (doc :: docs)))
    as (Hdistinct & Hfirst & Hcover & _ & Hplain).
  eexists _, _. split; [reflexivity|].
  split; [intros key Hkey; now apply dict_get_set_ne|].
  split; [rewrite dict_get_set_ne by discriminate; exact Hq|].
  split; [rewrite dict_get_set_eq; unfold quiz_metadata, questions_count;
          rewrite Hq; reflexivity|].
  split; [exact Hdistinct|]. split; [exact Hfirst|].
  split; [exact Hcover|]. split; [exact Hplain|]. apply dict_set_keys.
Qed.

Lemma generate_quiz_success_witness :
  exists res names,
    fst (run (generate_quiz (Samples.store_of Samples.ten_chunks)
                (Samples.model_of Samples.questions_text)
                Samples.loads_sample Samples.no_type_error
                (py "entropy") 3 (py "easy") 15)) = Ok res
    /\ dict_get (py "questions") res = Some (JList [])
    /\ dict_get (py "metadata") res
       = Some (JDict [ (py "topic", JStr (py "entropy"));
                       (py "difficulty", JStr (py "easy"));
                       (py "num_questions", JInt 0);
                       (py "sources", JList (List.map json_of_meta names)) ])
    /\ (forall s, s ∈ names ->
          exists c, c ∈ take 5 Samples.ten_chunks /\ doc_source c = s)
    /\ (exists s, s ∈ names /\ py_eq s (MStr (py "notes.pdf")) = true)
    /\ List.map fst res = [py "questions"; py "metadata"].
Proof.
  destruct (generate_quiz_success (Samples.store_of Samples.ten_chunks)
              (Samples.model_of Samples.questions_text)
              Samples.loads_sample Samples.no_type_error
              (py "entropy") (py "easy") Samples.questions_text
              Samples.questions_text 3 15 Samples.first_chunk
              Samples.more_chunks [(py "questions", JList [])] []
              eq_refl eq_refl eq_refl eq_refl eq_refl)
    as (res & names & Hres & _ & Hq & Hmeta & _ & Hfirst & Hcover & _ & Hkeys).
  exists res, names. split; [exact Hres|]. split; [exact Hq|].
  split; [exact Hmeta|]. split; [|split; [|exact Hkeys]].
  - intros s Hin. destruct (Hfirst s Hin) as (i & c & Hi & Hc & _).
    exists c. split; [|exact Hc]. eapply list_elem_of_lookup_2. exact Hi.
  - apply (Hcover Samples.first_chunk). apply elem_of_cons. now left.
Defined.

(* ===================================================================== *)
(** ** Quiz JSON extraction: what the candidate text is *)
(* ===================================================================== *)

(** X3. The text that [_extract_json] returns is a contiguous piece of the
    reply of the model: nothing is added or rewritten.  It neither starts
    nor ends with whitespace.  It either starts with an opening brace and
    ends with a closing brace, or holds no opening brace that is followed
    by a closing brace.  When the reply has a json fence, the returned text
    holds no triple backtick. *)
Theorem extract_json_candidate (text : pystr) :
  exists s,
    _extract_json text = Ok s
    /\ contains s text = true
    /\ strip s = s
    /\ ((exists mid, s = LBRACE :: mid ++ [RBRACE])
        \/ (forall i j, i < j ->
              s !! i = Some LBRACE -> s !! j = Some RBRACE -> False))
    /\ (contains fence_json text = true -> contains fence s = false).
Proof.
  unfold _extract_json.
  destruct (fenced_text text) as (text1 & -> & Hin & Hjson & _).
  cbn [rbind]. eexists. split; [reflexivity|].
  destruct (re_search_braces text1) as [m|] eqn:Hm.
  - destruct (re_search_shape _ _ Hm) as [mid ->].
    rewrite !ExtractJson.strip_object.
    pose proof (re_search_contained _ _ Hm) as Hpiece.
    split; [exact (contains_trans _ _ _ Hpiece Hin)|].
    split; [reflexivity|]. split; [left; eauto|].
    intros Hj. exact (contains_piece_false _ _ _ Hpiece (Hjson Hj)).
  - pose proof (strip_contained text1) as Hpiece.
    split; [exact (contains_trans _ _ _ Hpiece Hin)|].
    split; [apply strip_idem|]. split.
    + right. apply re_search_None_inv.
      exact (re_search_piece_None _ _ Hpiece Hm).
    + intros Hj. exact (contains_piece_false _ _ _ Hpiece (Hjson Hj)).
Qed.

(** X21. A reply with a code block between plain fences and no json
    fence: the parts between the fences are tried in order, and the first
    part that holds both an opening and a closing brace is taken.  When
    the text before the block does not hold both braces, and the block
    holds an object preceded by text without an opening brace and
    followed by text without a closing brace, [_extract_json] returns
    exactly the object.  When the text before the block holds both
    braces, the block is not looked at: the result is taken from the
    text before it. *)
Theorem extract_json_plain_fence (pre a mid b post : pystr) :
  let obj := LBRACE :: mid ++ [RBRACE] in
  let block := a ++ obj ++ b in
  let text := pre ++ fence ++ block ++ fence ++ post in
  contains fence_json text = false ->
  contains fence (pre ++ [BACKTICK; BACKTICK]) = false ->
  contains fence (block ++ [BACKTICK; BACKTICK]) = false ->
  (has_braces pre = false ->
   contains [LBRACE] a = false ->
   contains [RBRACE] b = false ->
   _extract_json text = Ok obj)
  /\ (has_braces pre = true ->
      _extract_json text
      = Ok (strip match re_search_braces pre with
                  | Some m => m
                  | None => pre
                  end)).
Proof.
  intros obj block text Hjson Hpre Hblock.
  assert (Hfence : contains fence text = true).
  { apply contains_spec. exists pre, (block ++ fence ++ post).
    reflexivity. }
  assert (Hparts : split_sep fence text
                   = pre :: block :: split_sep fence post)
    by now apply split_fenced_block.
  unfold _extract_json. rewrite Hjson, Hfence, Hparts.
  unfold first_braced_part. cbn [List.find rbind].
  split.
  - intros Hb Ha Hb'. rewrite Hb.
    unfold block, obj. rewrite has_braces_object.
    apply contains_single_false in Ha, Hb'.
    rewrite re_search_object by assumption.
    now rewrite ExtractJson.strip_object.
  - intros Hb. now rewrite Hb.
Qed.

Lemma extract_json_plain_fence_witness :
  _extract_json
    (py "Here you go: " ++ fence
     ++ (py "python " ++ (LBRACE :: Samples.questions_body ++ [RBRACE])
         ++ [NEWLINE])
     ++ fence ++ py " Enjoy!")
  = Ok (LBRACE :: Samples.questions_body ++ [RBRACE])
  /\ _extract_json
       (py "Use the form {x}: " ++ fence
        ++ ([] ++ (LBRACE :: Samples.questions_body ++ [RBRACE]) ++ [])
        ++ fence ++ [])
     = Ok (py "{x}").
Proof.
  split.
  - apply (proj1 (extract_json_plain_fence (py "Here you go: ")
                    (py "python ") Samples.questions_body [NEWLINE]
                    (py " Enjoy!") eq_refl eq_refl eq_refl));
      reflexivity.
  - rewrite (proj2 (extract_json_plain_fence (py "Use the form {x}: ")
                      [] Samples.questions_body [] []
                      eq_refl eq_refl eq_refl) eq_refl).
    reflexivity.
Defined.

(** X22. Extracting twice is extracting once: for every reply,
    [_extract_json] applied to its own result returns that result
    unchanged.  A candidate text that was extracted and stored can be
    passed through the extraction again. *)
Theorem extract_json_idempotent (text : pystr) :
  exists s, _extract_json text = Ok s /\ _extract_json s = Ok s.
Proof.
  unfold _extract_json at 1.
  destruct (fenced_text text) as (text1 & Htext1 & Hin & _).
  rewrite Htext1. cbn [rbind]. eexists. split; [reflexivity|].
  destruct (contains fence text1) eqn:Hf.
  - (* the whole reply went to the brace search *)
    destruct (IdemFacts.fenced_text_kept text text1 Htext1 Hf)
      as (-> & Hj & Hnone).
    destruct (re_search_braces text) as [m|] eqn:Hm.
    + destruct (re_search_shape _ _ Hm) as [mid ->].
      rewrite ExtractJson.strip_object.
      pose proof (re_search_contained _ _ Hm) as Hpiece.
      apply contains_spec in Hpiece as (l & r & Ht).
      rewrite (IdemFacts.kept_piece text l _ r Ht Hj Hnone).
      * now rewrite re_search_own_object, ExtractJson.strip_object.
      * left. discriminate.
      * left. rewrite IdemFacts.object_last. discriminate.
    + destruct (strip_split text) as (l & r & Ht & Hl & Hr).
      rewrite (IdemFacts.kept_piece text l _ r Ht Hj Hnone).
      * rewrite (re_search_piece_None _ _ (strip_contained text) Hm).
        now rewrite strip_idem.
      * right. now apply IdemFacts.all_space_last.
      * right. now apply IdemFacts.all_space_head.
  - (* the text that went to the brace search has no fence *)
    destruct (re_search_braces text1) as [m|] eqn:Hm.
    + destruct (re_search_shape _ _ Hm) as [mid ->].
      rewrite ExtractJson.strip_object.
      rewrite ExtractJson.extract_json_unfenced.
      * now rewrite re_search_own_object, ExtractJson.strip_object.
      * exact (contains_piece_false _ _ _ (re_search_contained _ _ Hm) Hf).
    + rewrite ExtractJson.extract_json_unfenced.
      * rewrite (re_search_piece_None _ _ (strip_contained text1) Hm).
        now rewrite strip_idem.
      * exact (contains_piece_false _ _ _ (strip_contained text1) Hf).
Qed.

(** X24. Whitespace around the reply of the model does not count:
    [_extract_json] returns the same text for a reply and for the same
    reply with any whitespace before it and after it. *)
Theorem extract_json_ignores_padding (before text after : pystr) :
  all_space before -> all_space after ->
  _extract_json (before ++ text ++ after) = _extract_json text.
Proof.
  intros Hb Ha. induction Hb as [|c before Hc _ IH].
  - cbn [app]. induction after as [|c after IH] using rev_ind.
    + now rewrite app_nil_r.
    + apply Forall_app in Ha as [Ha Hc]. apply Forall_inv in Hc.
      rewrite app_assoc, PaddingFacts.extract_json_snoc by exact Hc.
      exact (IH Ha).
  - cbn [app]. now rewrite PaddingFacts.extract_json_cons.
Qed.

Lemma extract_json_ignores_padding_witness :
  _extract_json
    ([NEWLINE; SPACE] ++ Samples.fenced_prose ++ [SPACE; NEWLINE; NEWLINE])
  = _extract_json Samples.fenced_prose.
Proof.
  apply (extract_json_ignores_padding [NEWLINE; SPACE] Samples.fenced_prose
           [SPACE; NEWLINE; NEWLINE]);
    repeat constructor.
Defined.

(* ===================================================================== *)
(** ** Grading: malformed questions, the report, the answers read *)
(* ===================================================================== *)

(** X4. One question whose "correct_answer" is not a string makes the
    whole grading fail, whatever the answers are: [grade_quiz] raises the
    [AttributeError] of the first such question, whose message names the
    type of the value, and returns no result for the questions before
    it. *)
Theorem grade_quiz_malformed_key (upper : pystr -> pystr)
  (readable : list dict) (malformed : dict) (rest : list dict)
  (v : json) (user_answers : gmap Z pystr) :
  Forall has_key readable ->
  dict_get (py "correct_answer") malformed = Some v ->
  (forall s, v <> JStr s) ->
  grade_quiz upper (readable ++ malformed :: rest) user_answers
  = Raise (Exn AttributeError
             (py "'" ++ type_name v
              ++ py "' object has no attribute 'upper'")).
Proof.
  intros Hk Hv Hns. unfold grade_quiz.
  rewrite GradeLoop.grade_loop_app.
  destruct (GradeFacts.grade_loop_ok upper user_answers readable Hk 0 [] 0)
    as (graded & -> & _).
  cbn [grade_loop]. unfold grade_one, dict_get_default. rewrite Hv.
  destruct v; try reflexivity. now destruct (Hns s).
Qed.

Lemma grade_quiz_malformed_key_witness :
  grade_quiz ascii_upper
    ([Samples.question_with (py "Q1") (py "A")]
     ++ [(py "question", JStr (py "Q2")); (py "correct_answer", JInt 2)]
     :: [Samples.question_with (py "Q3") (py "C")])
    Samples.right_answers
  = Raise (Exn AttributeError
             (py "'int' object has no attribute 'upper'")).
Proof.
  apply (grade_quiz_malformed_key ascii_upper
           [Samples.question_with (py "Q1") (py "A")]
           [(py "question", JStr (py "Q2")); (py "correct_answer", JInt 2)]
           [Samples.question_with (py "Q3") (py "C")] (JInt 2)
           Samples.right_answers).
  - repeat constructor; eexists; reflexivity.
  - reflexivity.
  - discriminate.
Defined.

(** X5. The report of [grade_quiz] is consistent.  The records are
    numbered 1, 2, ... in the order of the questions; each carries the
    question text and the explanation of its question (the explanation
    defaults to the empty string), and the answer in upper case.  The
    count of correct answers is the number of records marked correct.
    The percentage text and the score show the same number of tenths,
    which lies between 0 and 1000 (for fewer than [2 ^ 40] questions): the
    score never leaves the range from 0 to 100. *)
Theorem grade_quiz_report (upper : pystr -> pystr)
  (questions : list dict) (user_answers : gmap Z pystr) :
  Forall has_key questions ->
  exists r,
    grade_quiz upper questions user_answers = Ok r
    /\ List.map question_number (results r)
       = List.map (fun i => (Z.of_nat i + 1)%Z) (seq 0 (length questions))
    /\ correct r = length (List.filter is_correct (results r))
    /\ (forall i question g,
          questions !! i = Some question -> results r !! i = Some g ->
          graded_question g = dict_get (py "question") question
          /\ explanation g
             = dict_get_default (py "explanation") (JStr []) question
          /\ (forall a, user_answers !! Z.of_nat i = Some a ->
                upper a <> [] -> user_answer g = upper a))
    /\ exists tenths,
         percentage r = percent_text tenths
         /\ match questions with
            | [] => score r = PyInt 0 /\ tenths = 0%Z
            | _ :: _ =>
                score r = PyFloat (Binary64.round_nearest_even tenths 10)
            end
         /\ ((Z.of_nat (length questions) < 2 ^ 40)%Z ->
             (0 <= tenths <= 1000)%Z).
Proof.
  intros Hk.
  pose proof (GradeFacts.count_correct_le upper user_answers questions 0)
    as Hle.
  unfold grade_quiz.
  destruct (GradeFacts.grade_loop_ok upper user_answers questions Hk 0 [] 0)
    as (graded & Hloop & Hlen & Hrec).
  rewrite Hloop. cbn [rbind app Nat.add].
  destruct (GradeLoop.count_correct_flags upper user_answers questions 0
              graded Hlen Hrec Hk) as [Hcount Hnums].
  assert (Hrecords :
            forall i question g,
              questions !! i = Some question -> graded !! i = Some g ->
              graded_question g = dict_get (py "question") question
              /\ explanation g
                 = dict_get_default (py "explanation") (JStr []) question
              /\ (forall a, user_answers !! Z.of_nat i = Some a ->
                    upper a <> [] -> user_answer g = upper a)).
  { intros i q g Hq Hg. destruct (Hrec i q Hq) as (g' & Hg' & Hone).
    rewrite Hg in Hg'. injection Hg' as <-. cbn [Nat.add] in Hone.
    unfold grade_one in Hone.
    destruct (upper_of _) as [key|e]; cbn [rbind] in Hone; [|discriminate].
    injection Hone as <-.
    cbn [graded_question explanation user_answer].
    split; [reflexivity|]. split; [reflexivity|].
    intros a Ha Hne. unfold pystr in *. rewrite Ha. cbn [default id].
    destruct (upper a); [congruence|reflexivity]. }
  destruct questions as [|q qs].
  - eexists. split; [reflexivity|]. cbn [results correct percentage score].
    split; [exact Hnums|]. split; [exact Hcount|]. split; [exact Hrecords|].
    exists 0%Z. split; [reflexivity|]. split; [auto|lia].
  - eexists. split; [reflexivity|]. cbn [results correct percentage score].
    split; [exact Hnums|]. split; [exact Hcount|]. split; [exact Hrecords|].
    eexists. split; [reflexivity|]. split; [reflexivity|].
    intros Hsmall.
    set (c := count_correct upper user_answers 0 (q :: qs)) in *.
    set (n := length (q :: qs)) in *.
    pose proof (Binary64Facts.score_accuracy (Z.of_nat c) (Z.of_nat n)
                  ltac:(lia) ltac:(subst n; cbn [length] in *; lia)) as Hacc.
    set (t := Binary64.tenths _) in *.
    assert (Hn : (0 < Z.of_nat n)%Z) by (subst n; cbn [length]; lia).
    assert (Hc : (0 <= Z.of_nat c <= Z.of_nat n)%Z) by lia.
    clearbody t. clear - Hacc Hn Hc. nia.
Qed.

Lemma grade_quiz_report_witness :
  exists r,
    grade_quiz ascii_upper Samples.three_questions Samples.two_answers = Ok r
    /\ List.map question_number (results r) = [1; 2; 3]%Z
    /\ correct r = 1
    /\ List.map user_answer (results r)
       = [py "A"; py "D"; py "Not answered"]
    /\ percentage r = py "33.3%".
Proof.
  destruct (grade_quiz_report ascii_upper Samples.three_questions
              Samples.two_answers)
    as (r & Hr & Hnums & Hcount & _).
  { repeat constructor; eexists; reflexivity. }
  exists r. split; [exact Hr|]. split; [exact Hnums|].
  vm_compute in Hr. injection Hr as <-. repeat split; reflexivity.
Defined.

(** X6. [grade_quiz] reads the answers at the indexes of the questions
    and no other: two submissions that agree on the indexes 0 to
    [len(questions) - 1] get the same result, so answers given for
    questions that do not exist change nothing. *)
Theorem grade_quiz_reads_own_indexes (upper : pystr -> pystr)
  (questions : list dict) (user_answers other_answers : gmap Z pystr) :
  (forall i, i < length questions ->
     user_answers !! Z.of_nat i = other_answers !! Z.of_nat i) ->
  grade_quiz upper questions user_answers
  = grade_quiz upper questions other_answers.
Proof.
  intros H. unfold grade_quiz.
  now rewrite (GradeLoop.grade_loop_ext upper user_answers other_answers
                 questions 0 [] 0 H).
Qed.

Lemma grade_quiz_reads_own_indexes_witness :
  grade_quiz ascii_upper Samples.three_questions Samples.two_answers
  = grade_quiz ascii_upper Samples.three_questions
      (<[7%Z := py "A"]> (<[(-1)%Z := py "C"]> Samples.two_answers)).
Proof.
  apply (grade_quiz_reads_own_indexes ascii_upper Samples.three_questions
           Samples.two_answers
           (<[7%Z := py "A"]> (<[(-1)%Z := py "C"]> Samples.two_answers))).
  intros i Hi. cbn in Hi.
  destruct i as [|[|[|i]]]; [reflexivity|reflexivity|reflexivity|lia].
Defined.

(** X20. For a quiz of fewer than 1000 questions the score follows the
    number of correct answers: of two submissions to the same quiz, the
    one with more correct answers gets strictly more tenths in its score
    and in its percentage text, and submissions with the same number of
    correct answers get the same score. *)
Theorem score_follows_correct_count (upper : pystr -> pystr)
  (questions : list dict) (user_answers other_answers : gmap Z pystr) :
  Forall has_key questions ->
  0 < length questions < 1000 ->
  exists r1 r2 tenths1 tenths2,
    grade_quiz upper questions user_answers = Ok r1
    /\ grade_quiz upper questions other_answers = Ok r2
    /\ score r1 = PyFloat (Binary64.round_nearest_even tenths1 10)
    /\ percentage r1 = percent_text tenths1
    /\ score r2 = PyFloat (Binary64.round_nearest_even tenths2 10)
    /\ percentage r2 = percent_text tenths2
    /\ (correct r1 < correct r2 <-> (tenths1 < tenths2)%Z)
    /\ (correct r1 = correct r2 <-> tenths1 = tenths2).
Proof.
  intros Hk Hn.
  assert (Hne : questions <> []) by (destruct questions; [simpl in Hn; lia|discriminate]).
  destruct (GradeLoop.grade_quiz_percent upper user_answers questions Hk Hne)
    as (r1 & Hr1 & Hc1 & Hs1 & Hp1).
  destruct (GradeLoop.grade_quiz_percent upper other_answers questions Hk Hne)
    as (r2 & Hr2 & Hc2 & Hs2 & Hp2).
  exists r1, r2. eexists _, _.
  split; [exact Hr1|]. split; [exact Hr2|]. split; [exact Hs1|].
  split; [exact Hp1|]. split; [exact Hs2|]. split; [exact Hp2|].
  rewrite Hc1, Hc2.
  pose proof (GradeFacts.count_correct_le upper user_answers questions 0)
    as Hle1.
  pose proof (GradeFacts.count_correct_le upper other_answers questions 0)
    as Hle2.
  set (c1 := count_correct upper user_answers 0 questions) in *.
  set (c2 := count_correct upper other_answers 0 questions) in *.
  set (n := length questions) in *.
  pose proof (Binary64Facts.score_accuracy (Z.of_nat c1) (Z.of_nat n)
                ltac:(lia) ltac:(lia)) as Hacc1.
  pose proof (Binary64Facts.score_accuracy (Z.of_nat c2) (Z.of_nat n)
                ltac:(lia) ltac:(lia)) as Hacc2.
  set (t1 := Binary64.tenths
               (Binary64.mul (Binary64.truediv (Z.of_nat c1) _) _)) in *.
  set (t2 := Binary64.tenths
               (Binary64.mul (Binary64.truediv (Z.of_nat c2) _) _)) in *.
  assert (Heq : c1 = c2 -> t1 = t2).
  { intros E. unfold t1, t2. now rewrite E. }
  clearbody t1 t2 c1 c2 n. clear - Hn Hle1 Hle2 Hacc1 Hacc2 Heq.
  assert (Hlt : forall a b ta tb : Z,
            (0 < Z.of_nat n < 1000)%Z ->
            (- Z.of_nat n <= 2 * ta * Z.of_nat n - 2000 * a <= Z.of_nat n)%Z ->
            (- Z.of_nat n <= 2 * tb * Z.of_nat n - 2000 * b <= Z.of_nat n)%Z ->
            (a < b)%Z -> (ta < tb)%Z).
  { intros a b ta tb Hn' Ha Hb Hab.
    assert (H : (0 < (tb - ta) * Z.of_nat n)%Z) by nia. nia. }
  assert (Hn' : (0 < Z.of_nat n < 1000)%Z) by lia.
  assert (H12 : c1 < c2 -> (t1 < t2)%Z).
  { intros H. apply (Hlt (Z.of_nat c1) (Z.of_nat c2)); try assumption. lia. }
  assert (H21 : c2 < c1 -> (t2 < t1)%Z).
  { intros H. apply (Hlt (Z.of_nat c2) (Z.of_nat c1)); try assumption. lia. }
  split; split.
  - exact H12.
  - intros H. destruct (Nat.lt_trichotomy c1 c2) as [Hc|[Hc|Hc]];
      [exact Hc|apply Heq in Hc; lia|apply H21 in Hc; lia].
  - exact Heq.
  - intros H. destruct (Nat.lt_trichotomy c1 c2) as [Hc|[Hc|Hc]];
      [apply H12 in Hc; lia|exact Hc|apply H21 in Hc; lia].
Qed.

Lemma score_follows_correct_count_witness :
  exists r1 r2,
    grade_quiz ascii_upper Samples.three_questions Samples.two_answers
    = Ok r1
    /\ grade_quiz ascii_upper Samples.three_questions Samples.right_answers
       = Ok r2
    /\ percentage r1 = py "33.3%" /\ percentage r2 = py "100.0%"
    /\ correct r1 < correct r2.
Proof.
  destruct (score_follows_correct_count ascii_upper Samples.three_questions
              Samples.two_answers Samples.right_answers)
    as (r1 & r2 & t1 & t2 & Hr1 & Hr2 & _).
  - repeat constructor; eexists; reflexivity.
  - cbn. lia.
  - exists r1, r2. split; [exact Hr1|]. split; [exact Hr2|].
    vm_compute in Hr1, Hr2. injection Hr1 as <-. injection Hr2 as <-.
    repeat split. cbn. lia.
Defined.

(* ===================================================================== *)
(** ** Retrieval: exceptions and the list of sources *)
(* ===================================================================== *)

(** X7. [ask_question], [summarize] and [extract_definitions] handle no
    exception.  When the search of the vector store raises, each of them
    raises the same exception without a call to the model; when the model
    raises on the prompt, each of them raises the exception of the model,
    after one search and one call to the model. *)
Theorem rag_exceptions_propagate
  (similarity_search : pystr -> Z -> result (list Document))
  (llm_invoke : pystr -> result pystr)
  (question summary_type topic : pystr) (query : option pystr) (k : Z)
  (e : exn) :
  ((similarity_search question k = Raise e ->
    run (ask_question similarity_search llm_invoke question k)
    = (Raise e, [SearchCall question k]))
   /\ (similarity_search (summary_query query) k = Raise e ->
       run (summarize similarity_search llm_invoke query summary_type k)
       = (Raise e, [SearchCall (summary_query query) k]))
   /\ (similarity_search topic k = Raise e ->
       run (extract_definitions similarity_search llm_invoke topic k)
       = (Raise e, [SearchCall topic k])))
  /\ (forall doc docs,
        let joined := join para (List.map page_content (doc :: docs)) in
        let qa_prompt :=
          QA_PROMPT_TEMPLATE
            (join para (List.map qa_context_entry (doc :: docs))) question in
        let summary_prompt :=
          SUMMARIZATION_PROMPT_TEMPLATE (take 4000 joined) summary_type in
        let definitions_prompt :=
          DEFINITION_EXTRACTION_PROMPT (take 4000 joined) in
        (similarity_search question k = Ok (doc :: docs) ->
         llm_invoke qa_prompt = Raise e ->
         run (ask_question similarity_search llm_invoke question k)
         = (Raise e, [SearchCall question k; LlmCall qa_prompt]))
        /\ (similarity_search (summary_query query) k = Ok (doc :: docs) ->
            llm_invoke summary_prompt = Raise e ->
            run (summarize similarity_search llm_invoke query summary_type k)
            = (Raise e, [SearchCall (summary_query query) k;
                         LlmCall summary_prompt]))
        /\ (similarity_search topic k = Ok (doc :: docs) ->
            llm_invoke definitions_prompt = Raise e ->
            run (extract_definitions similarity_search llm_invoke topic k)
            = (Raise e, [SearchCall topic k; LlmCall definitions_prompt]))).
Proof.
  split.
  - split; [|split]; intros H.
    + unfold ask_question, run, ebind, search. now rewrite H.
    + unfold summarize, run, ebind, search.
      destruct query as [[|c q]|]; cbn [summary_query] in H; now rewrite H.
    + unfold extract_definitions, run, ebind, search. now rewrite H.
  - intros doc docs joined qa_prompt summary_prompt definitions_prompt.
    split; [|split]; intros Hs Hm.
    + unfold ask_question. rewrite (RagFacts.run_search_bind _ _ _ _ _ Hs).
      unfold ebind, invoke. fold qa_prompt. now rewrite Hm.
    + rewrite (RagFacts.summarize_search _ _ _ _ _ _ Hs).
      unfold ebind, invoke. fold joined summary_prompt. now rewrite Hm.
    + unfold extract_definitions.
      rewrite (RagFacts.run_search_bind _ _ _ _ _ Hs).
      unfold ebind, invoke. fold joined definitions_prompt. now rewrite Hm.
Qed.

Lemma rag_exceptions_propagate_witness :
  let lost := Exn OtherException (py "collection not found") in
  let refused := Exn OtherException (py "connection refused") in
  run (summarize (fun _ _ => Raise lost) (Samples.model_of (py "unused"))
         None (py "bullets") 10)
  = (Raise lost, [SearchCall (py "overview main concepts key topics") 10])
  /\ fst (run (ask_question (Samples.store_of [Samples.first_chunk])
                 (fun _ => Raise refused) (py "What is entropy?") 5))
     = Raise refused.
Proof.
  intros lost refused. split.
  - apply (proj1 (rag_exceptions_propagate (fun _ _ => Raise lost)
                    (Samples.model_of (py "unused")) (py "q") (py "bullets")
                    (py "t") None 10 lost)).
    reflexivity.
  - rewrite (proj1 (proj2 (rag_exceptions_propagate
                             (Samples.store_of [Samples.first_chunk])
                             (fun _ => Raise refused)
                             (py "What is entropy?") (py "bullets") (py "t")
                             None 5 refused)
                      Samples.first_chunk []) eq_refl eq_refl).
    reflexivity.
Defined.

(** X8. The sources that [summarize] and [extract_definitions] return are
    the source names of the retrieved chunks (['unknown'] for a chunk
    without one) as a set holds them.  No two listed names are equal under
    [==]; every listed name is the source of a retrieved chunk, the first
    one among the chunks whose source is equal to it; the source of every
    retrieved chunk is equal to a listed name; and the list is not longer
    than the retrieval.  When no source is a boolean (the file names that
    the ingestion writes are strings) the list has no duplicate and holds
    a name exactly when some retrieved chunk has it.  A source [True] and
    a source [1] are equal, and only the first of them is listed. *)
Theorem sources_are_distinct
  (similarity_search : pystr -> Z -> result (list Document))
  (llm_invoke : pystr -> result pystr)
  (summary_type topic reply : pystr) (query : option pystr) (k : Z)
  (doc : Document) (docs : list Document) :
  let joined := join para (List.map page_content (doc :: docs)) in
  let source (d : Document) :=
    meta_get (py "source") (MStr (py "unknown")) (metadata d) in
  let listed (names : list meta) :=
    (forall i j a b, names !! i = Some a -> names !! j = Some b ->
       py_eq a b = true -> i = j)
    /\ (forall s, s ∈ names ->
          exists i d, (doc :: docs) !! i = Some d /\ source d = s
            /\ forall j d', j < i -> (doc :: docs) !! j = Some d' ->
                 py_eq (source d') s = false)
    /\ (forall d, d ∈ doc :: docs ->
          exists s, s ∈ names /\ py_eq s (source d) = true)
    /\ length names <= length (doc :: docs)
    /\ ((forall d b, d ∈ doc :: docs -> source d <> MBool b) ->
        NoDup names
        /\ forall s, s ∈ names
             <-> exists d, d ∈ doc :: docs /\ source d = s) in
  (similarity_search (summary_query query) k = Ok (doc :: docs) ->
   llm_invoke (SUMMARIZATION_PROMPT_TEMPLATE (take 4000 joined) summary_type)
   = Ok reply ->
   exists r,
     fst (run (summarize similarity_search llm_invoke query summary_type k))
     = Ok r
     /\ summary r = reply /\ listed (summary_sources r))
  /\ (similarity_search topic k = Ok (doc :: docs) ->
      llm_invoke (DEFINITION_EXTRACTION_PROMPT (take 4000 joined))
      = Ok reply ->
      exists r,
        fst (run (extract_definitions similarity_search llm_invoke topic k))
        = Ok r
        /\ definitions r = reply /\ listed (definitions_sources r)).
Proof.
  intros joined source listed.
  assert (Hlisted : listed (list_of_set (List.map doc_source (doc :: docs))))
    by apply SourceFacts.sources_spec.
  split; intros Hs Hm.
  - rewrite (RagFacts.summarize_search _ _ _ _ _ _ Hs).
    unfold ebind, invoke, eret. fold joined. rewrite Hm. cbn [fst].
    eexists. split; [reflexivity|]. split; [reflexivity|exact Hlisted].
  - unfold extract_definitions.
    rewrite (RagFacts.run_search_bind _ _ _ _ _ Hs).
    unfold ebind, invoke, eret. fold joined. rewrite Hm. cbn [fst].
    eexists. split; [reflexivity|]. split; [reflexivity|exact Hlisted].
Qed.

Lemma sources_are_distinct_witness :
  let numbered (source : meta) : Document :=
    {| page_content := py "Entropy."; metadata := [(py "source", source)] |} in
  exists r,
    fst (run (summarize
                (Samples.store_of [numbered (MInt 1); numbered (MBool true)])
                (Samples.model_of (py "A summary."))
                (Some (py "entropy")) (py "short") 10)) = Ok r
    /\ summary r = py "A summary."
    /\ (exists s, s ∈ summary_sources r /\ py_eq s (MBool true) = true)
    /\ (MBool true ∉ summary_sources r)
    /\ length (summary_sources r) <= 2.
Proof.
  intros numbered.
  destruct (proj1 (sources_are_distinct
                     (Samples.store_of
                        [numbered (MInt 1); numbered (MBool true)])
                     (Samples.model_of (py "A summary."))
                     (py "short") (py "entropy") (py "A summary.")
                     (Some (py "entropy")) 10
                     (numbered (MInt 1)) [numbered (MBool true)])
             eq_refl eq_refl)
    as (r & Hr & Hsum & _ & Hfirst & Hcover & Hlen & _).
  exists r. split; [exact Hr|]. split; [exact Hsum|].
  split; [|split; [|exact Hlen]].
  - apply (Hcover (numbered (MBool true))).
    apply elem_of_cons. right. apply elem_of_cons. now left.
  - intros Hin. destruct (Hfirst _ Hin) as (i & d & Hi & Hd & Hbefore).
    destruct i as [|[|i]]; cbn in Hi.
    + injection Hi as <-. discriminate Hd.
    + specialize (Hbefore 0 (numbered (MInt 1)) ltac:(lia) eq_refl).
      discriminate Hbefore.
    + discriminate Hi.
Defined.

(* ===================================================================== *)
(** ** Ingestion: pages, text files, failures, the cleaned text *)
(* ===================================================================== *)

(** X9. [extract_text_from_pdf] never raises.  When the pages of the PDF
    are read one after the other until the end or until a page fails, it
    returns one document for each page read that has text other than
    whitespace, in page order: its content is the text of the page as
    extracted, its metadata the file name, the number of the page in the
    PDF (counted from 1, blank pages included) and the type 'pdf'.  The
    pages from a failing page on are left out, without an error. *)
Theorem pdf_pages_numbered
  (pdf_pages : pystr -> result (list (result pystr)))
  (path_name : pystr -> pystr)
  (pdf_path : pystr) (texts : list pystr) (tail : list (result pystr)) :
  pdf_pages pdf_path = Ok (List.map Ok texts ++ tail) ->
  tail = [] \/ (exists e rest, tail = Raise e :: rest) ->
  let documents := extract_text_from_pdf pdf_pages path_name pdf_path in
  documents
  = List.map (page_document (path_name pdf_path))
      (List.filter has_text (enumerate 1 texts))
  /\ (forall doc, doc ∈ documents <->
        exists i text,
          texts !! i = Some text /\ strip text <> []
          /\ doc = {| content := text;
                      raw_metadata :=
                        [ (py "source", MStr (path_name pdf_path));
                          (py "page", MInt (1 + Z.of_nat i));
                          (py "type", MStr (py "pdf")) ] |})
  /\ length documents <= length texts.
Proof.
  intros Hp Htail documents.
  assert (E : documents
              = List.map (page_document (path_name pdf_path))
                  (List.filter has_text (enumerate 1 texts))).
  { unfold documents, extract_text_from_pdf. rewrite Hp.
    now rewrite (PageFacts.pdf_loop_pages _ tail Htail). }
  split; [exact E|]. split.
  - intros doc. rewrite E.
    change (List.map ?f ?l) with (f <$> l).
    rewrite list_elem_of_fmap. split.
    + intros ([n text] & -> & Hin).
      apply list_elem_of_In, List.filter_In in Hin as [Hin Htext].
      apply list_elem_of_In, PageFacts.enumerate_lookup in Hin
        as (i & Hi & ->).
      exists i, text. split; [exact Hi|]. split; [|reflexivity].
      unfold has_text in Htext. cbn [snd] in Htext.
      destruct (strip text); [discriminate|discriminate].
    + intros (i & text & Hi & Htext & ->).
      exists ((1 + Z.of_nat i)%Z, text). split; [reflexivity|].
      apply list_elem_of_In, List.filter_In. split.
      * apply list_elem_of_In, PageFacts.enumerate_lookup. eauto.
      * unfold has_text. cbn [snd]. destruct (strip text); congruence.
  - rewrite E, length_map.
    etransitivity; [apply List.filter_length_le|].
    clear. generalize 1%Z. induction texts as [|t ts IH]; intros n;
      cbn [enumerate length]; [lia|]. specialize (IH (n + 1)%Z). lia.
Qed.

Lemma pdf_pages_numbered_witness :
  extract_text_from_pdf
    (fun _ => Ok (List.map Ok [py "Entropy"; py "   "; py "Energy"]
                  ++ [Raise (Exn OtherException (py "broken page"));
                      Ok (py "Lost")]))
    (fun p => p) (py "notes.pdf")
  = [ {| content := py "Entropy";
         raw_metadata := [ (py "source", MStr (py "notes.pdf"));
                           (py "page", MInt 1);
                           (py "type", MStr (py "pdf")) ] |};
      {| content := py "Energy";
         raw_metadata := [ (py "source", MStr (py "notes.pdf"));
                           (py "page", MInt 3);
                           (py "type", MStr (py "pdf")) ] |} ].
Proof.
  rewrite (proj1 (pdf_pages_numbered
                    (fun _ => Ok (List.map Ok
                                    [py "Entropy"; py "   "; py "Energy"]
                                  ++ [Raise (Exn OtherException
                                               (py "broken page"));
                                      Ok (py "Lost")]))
                    (fun p => p) (py "notes.pdf")
                    [py "Entropy"; py "   "; py "Energy"]
                    [Raise (Exn OtherException (py "broken page"));
                     Ok (py "Lost")]
                    eq_refl ltac:(right; eauto))).
  reflexivity.
Defined.

(** X10. A text file that can be read never makes [process_documents]
    raise, not even an empty one: the whole file is one document, which is
    cleaned and handed to the splitter when its cleaned text has more than
    50 characters; otherwise the splitter gets no document at all and its
    result for the empty list is returned.  (The splitter is a function
    of the library that returns a list.) *)
Theorem text_file_processing
  (read_text : pystr -> result pystr)
  (pdf_pages : pystr -> result (list (result pystr)))
  (path_name path_suffix_lower : pystr -> pystr)
  (split_documents : list Document -> list Document)
  (file_path text : pystr) :
  path_suffix_lower file_path = py ".txt" ->
  read_text file_path = Ok text ->
  process_documents read_text pdf_pages path_name path_suffix_lower
    split_documents file_path
  = Ok (split_documents
          (if 50 <? length (clean_text text)
           then [ {| page_content := clean_text text;
                     metadata := [ (py "source", MStr (path_name file_path));
                                   (py "type", MStr (py "txt")) ] |} ]
           else [])).
Proof.
  intros Hext Hread. unfold process_documents, extract_text_from_txt.
  rewrite Hext, Hread. cbn [bool_decide rbind].
  rewrite bool_decide_eq_false_2 by discriminate.
  rewrite bool_decide_eq_true_2 by reflexivity. cbn [rbind].
  rewrite clean_documents_filter. cbn [List.filter content].
  now destruct (50 <? length (clean_text text)).
Qed.

Lemma text_file_processing_witness :
  process_documents (fun _ => Ok []) Samples.blank_pdf (fun p => p)
    (fun _ => py ".txt") Samples.whole_documents (py "empty.txt")
  = Ok [].
Proof.
  rewrite (text_file_processing (fun _ => Ok []) Samples.blank_pdf
             (fun p => p) (fun _ => py ".txt") Samples.whole_documents
             (py "empty.txt") [] eq_refl eq_refl).
  reflexivity.
Defined.

(** X11. Every failure of [process_documents] is a [ValueError] with one
    of two messages: "Unsupported file type: " followed by the extension,
    exactly when the lower-cased extension is neither '.pdf' nor '.txt';
    or "No content extracted from document", when the extension is
    supported and the extraction gave no document.  The exceptions of
    opening and reading the file never reach the caller.  When it returns,
    it returns the splitter's result on the cleaned documents of a
    non-empty extraction. *)
Theorem process_documents_failures
  (read_text : pystr -> result pystr)
  (pdf_pages : pystr -> result (list (result pystr)))
  (path_name path_suffix_lower : pystr -> pystr)
  (split_documents : list Document -> list Document)
  (file_path : pystr) :
  let process :=
    process_documents read_text pdf_pages path_name path_suffix_lower
      split_documents file_path in
  let extension := path_suffix_lower file_path in
  let supported := extension = py ".pdf" \/ extension = py ".txt" in
  (~ supported ->
   process
   = Raise (Exn ValueError (py "Unsupported file type: " ++ extension)))
  /\ (forall e, process = Raise e ->
        exn_kind e = ValueError
        /\ ((~ supported
             /\ exn_msg e = py "Unsupported file type: " ++ extension)
            \/ (supported
                /\ exn_msg e = py "No content extracted from document")))
  /\ (forall chunks, process = Ok chunks ->
        supported
        /\ exists raw_docs,
             raw_docs <> []
             /\ chunks = split_documents (clean_documents raw_docs)
             /\ (extension = py ".pdf" ->
                 raw_docs
                 = extract_text_from_pdf pdf_pages path_name file_path)
             /\ (extension <> py ".pdf" ->
                 raw_docs
                 = extract_text_from_txt read_text path_name file_path)).
Proof.
  intros process extension supported.
  unfold process, process_documents. fold extension.
  destruct (bool_decide (extension = py ".pdf")) eqn:Hpdf.
  - apply bool_decide_eq_true in Hpdf. cbn [rbind].
    assert (Hs : supported) by now left.
    split; [tauto|].
    destruct (extract_text_from_pdf pdf_pages path_name file_path)
      as [|doc raw] eqn:E.
    + split; [|discriminate]. intros e [= <-]. split; [reflexivity|].
      right. auto.
    + split; [discriminate|]. intros chunks [= <-]. split; [exact Hs|].
      exists (doc :: raw). split; [discriminate|]. split; [reflexivity|].
      split; [auto|tauto].
  - apply bool_decide_eq_false in Hpdf.
    destruct (bool_decide (extension = py ".txt")) eqn:Htxt.
    + apply bool_decide_eq_true in Htxt. cbn [rbind].
      assert (Hs : supported) by now right.
      split; [tauto|].
      destruct (extract_text_from_txt read_text path_name file_path)
        as [|doc raw] eqn:E.
      * split; [|discriminate]. intros e [= <-]. split; [reflexivity|].
        right. auto.
      * split; [discriminate|]. intros chunks [= <-]. split; [exact Hs|].
        exists (doc :: raw). split; [discriminate|]. split; [reflexivity|].
        split; [tauto|auto].
    + apply bool_decide_eq_false in Htxt. cbn [rbind].
      assert (Hs : ~ supported) by (unfold supported; tauto).
      split; [reflexivity|]. split; [|discriminate].
      intros e [= <-]. split; [reflexivity|]. left. auto.
Qed.

Lemma process_documents_failures_witness :
  process_documents Samples.missing_file Samples.blank_pdf (fun p => p)
    (fun _ => py ".docx") Samples.whole_documents (py "notes.docx")
  = Raise (Exn ValueError (py "Unsupported file type: .docx")).
Proof.
  apply (proj1 (process_documents_failures Samples.missing_file
                  Samples.blank_pdf (fun p => p) (fun _ => py ".docx")
                  Samples.whole_documents (py "notes.docx"))).
  intros [H|H]; discriminate H.
Defined.

(** X12. [clean_text] changes whitespace and null characters only: the
    characters of the text that are neither, read in order, are the same
    before and after.  Every whitespace character of the result is a
    plain space, and the result is not longer than the text. *)
Theorem clean_text_keeps_visible (text : pystr) :
  List.filter visible (clean_text text) = List.filter visible text
  /\ Forall (fun c => is_space c = true -> c = SPACE) (clean_text text)
  /\ length (clean_text text) <= length text.
Proof.
  split; [|split].
  - rewrite clean_text_spec. unfold cleanup_spec.
    now rewrite CleanMore.filter_visible_strip,
      CleanMore.filter_visible_nulls, CleanMore.filter_visible_collapse.
  - apply Forall_forall. intros c Hc Hs.
    apply CleanMore.clean_text_elem in Hc as [->|[_ Hns]];
      [reflexivity|congruence].
  - rewrite clean_text_spec. unfold cleanup_spec.
    etransitivity; [apply CleanMore.length_strip|].
    etransitivity; [apply CleanMore.length_strip_nulls|].
    apply CleanMore.length_collapse.
Qed.

(** X13. On a text without null characters [clean_text] is the joining of
    the words of the text with single spaces: the result has no two
    whitespace characters in a row, splitting it gives the words of the
    text back, and cleaning it again changes nothing.  The null
    characters are removed after the whitespace is collapsed: a null
    character between two spaces leaves both spaces in the result, which
    a second cleaning would then collapse. *)
Theorem clean_text_without_nulls (text u v : pystr) :
  (NUL ∉ text ->
   clean_text text = join [SPACE] (split_ws text)
   /\ single_spaced (clean_text text) = true
   /\ split_ws (clean_text text) = split_ws text
   /\ clean_text (clean_text text) = clean_text text)
  /\ (Forall (fun c => visible c = true) u ->
      Forall (fun c => visible c = true) v ->
      u <> [] -> v <> [] ->
      clean_text (u ++ [SPACE; NUL; SPACE] ++ v) = u ++ [SPACE; SPACE] ++ v
      /\ clean_text (u ++ [SPACE; SPACE] ++ v) = u ++ [SPACE] ++ v).
Proof.
  split.
  - intros Hnul. pose proof (CleanMore.clean_text_words text Hnul) as E.
    split; [exact E|]. split; [|split].
    + rewrite clean_text_spec. unfold cleanup_spec.
      rewrite strip_nulls_id.
      * apply CleanMore.single_spaced_strip,
          CleanMore.single_spaced_collapse.
      * intros H. apply CleanMore.collapse_elem in H as [H|[H _]];
          [discriminate|tauto].
    + rewrite E. apply CleanMore.split_ws_join, CleanMore.split_ws_words.
    + rewrite E at 1. rewrite CleanMore.clean_text_words.
      * rewrite CleanMore.split_ws_join by apply CleanMore.split_ws_words.
        now rewrite E.
      * intros H. apply CleanMore.join_words_elem in H as [H|H];
          [discriminate|tauto].
  - intros Hu Hv Hune Hvne.
    assert (Hvis : forall w, Forall (fun c => visible c = true) w ->
                     Forall (fun c => is_space c = false) w /\ (NUL ∉ w)).
    { intros w Hw. split.
      - eapply Forall_impl; [exact Hw|]. intros c Hc. unfold visible in Hc.
        apply andb_true_iff in Hc as [Hc _]. now apply negb_true_iff in Hc.
      - intros Hin. rewrite Forall_forall in Hw. apply Hw in Hin.
        discriminate Hin. }
    destruct (Hvis u Hu) as [Hus Hun]. destruct (Hvis v Hv) as [Hvs Hvn].
    assert (Hends : forall mid, strip (u ++ mid ++ v) = u ++ mid ++ v).
    { intros mid. apply strip_fixed.
      - intros c r E. destruct u as [|x u]; [congruence|].
        injection E as <- _. now apply Forall_inv in Hus.
      - intros c E. rewrite !app_assoc in E.
        destruct v as [|y v] using rev_ind; [congruence|].
        rewrite app_assoc, last_snoc in E. injection E as <-.
        apply Forall_app in Hvs as [_ Hy]. now apply Forall_inv in Hy. }
    assert (Hv1 : exists y v', v = y :: v' /\ is_space y = false).
    { destruct v as [|y v']; [congruence|]. exists y, v'.
      split; [reflexivity|]. now apply Forall_inv in Hvs. }
    destruct Hv1 as (y & v' & Ev & Hy).
    split; rewrite clean_text_spec; unfold cleanup_spec.
    + rewrite CleanMore.collapse_word_app by exact Hus.
      cbn [app]. rewrite collapse_space_cons by reflexivity.
      rewrite CleanMore.is_space_NUL.
      rewrite collapse_nonspace by reflexivity.
      rewrite Ev at 1. rewrite collapse_space_cons by reflexivity.
      rewrite Hy, <- Ev. rewrite (CleanMore.collapse_word v Hvs).
      rewrite strip_nulls_app. rewrite (strip_nulls_id u Hun).
      unfold strip_nulls at 1. cbn [List.filter N.eqb NUL SPACE negb].
      fold (strip_nulls v). rewrite (strip_nulls_id v Hvn).
      exact (Hends [SPACE; SPACE]).
    + rewrite CleanMore.collapse_word_app by exact Hus.
      cbn [app]. rewrite collapse_space_cons by reflexivity.
      rewrite CleanMore.is_space_SPACE.
      rewrite Ev at 1. rewrite collapse_space_cons by reflexivity.
      rewrite Hy, <- Ev. rewrite (CleanMore.collapse_word v Hvs).
      rewrite strip_nulls_app. rewrite (strip_nulls_id u Hun).
      unfold strip_nulls at 1. cbn [List.filter N.eqb NUL SPACE negb].
      fold (strip_nulls v). rewrite (strip_nulls_id v Hvn).
      exact (Hends [SPACE]).
Qed.

Lemma clean_text_without_nulls_witness :
  (clean_text (py "  Heat   flows" ++ [NEWLINE] ++ py "down. ")
   = py "Heat flows down."
   /\ split_ws (clean_text (py "  Heat   flows" ++ [NEWLINE] ++ py "down. "))
      = [py "Heat"; py "flows"; py "down."])
  /\ clean_text (py "Heat" ++ [SPACE; NUL; SPACE] ++ py "flows")
     = py "Heat  flows".
Proof.
  pose proof (clean_text_without_nulls
                (py "  Heat   flows" ++ [NEWLINE] ++ py "down. ")
                (py "Heat") (py "flows")) as [H1 H2].
  split.
  - destruct H1 as (E & _ & Hwords & _).
    + vm_compute. intros H. repeat (apply elem_of_cons in H as [H|H];
        [discriminate H|]). inversion H.
    + split; [rewrite E; reflexivity|rewrite Hwords; reflexivity].
  - apply H2; try discriminate;
      repeat constructor.
Defined.

(** X23. A PDF, from the file to the splitter: when all pages are read
    and some page has text, [process_documents] returns the splitter's
    result on one document for each page whose cleaned text has more than
    50 characters, in page order, with the cleaned text as content and
    the file name, the page number and the type 'pdf' as metadata.  The
    pages with less text are dropped without an error, and when every
    page is dropped the splitter gets the empty list. *)
Theorem pdf_processing
  (read_text : pystr -> result pystr)
  (pdf_pages : pystr -> result (list (result pystr)))
  (path_name path_suffix_lower : pystr -> pystr)
  (split_documents : list Document -> list Document)
  (file_path : pystr) (texts : list pystr) :
  path_suffix_lower file_path = py ".pdf" ->
  pdf_pages file_path = Ok (List.map Ok texts) ->
  Exists (fun text => strip text <> []) texts ->
  process_documents read_text pdf_pages path_name path_suffix_lower
    split_documents file_path
  = Ok (split_documents
          (List.map
             (fun numbered =>
                {| page_content := clean_text (snd numbered);
                   metadata := [ (py "source", MStr (path_name file_path));
                                 (py "page", MInt (fst numbered));
                                 (py "type", MStr (py "pdf")) ] |})
             (List.filter
                (fun numbered => 50 <? length (clean_text (snd numbered)))
                (enumerate 1 texts)))).
Proof.
  intros Hext Hpages Hsome. unfold process_documents.
  rewrite Hext. rewrite bool_decide_eq_true_2 by reflexivity. cbn [rbind].
  assert (Hdocs : extract_text_from_pdf pdf_pages path_name file_path
                  = List.map (page_document (path_name file_path))
                      (List.filter has_text (enumerate 1 texts))).
  { unfold extract_text_from_pdf. rewrite Hpages.
    rewrite <- (app_nil_r (List.map Ok texts)).
    now rewrite (PageFacts.pdf_loop_pages _ [] (or_introl eq_refl)). }
  rewrite Hdocs.
  assert (Hne : List.filter has_text (enumerate 1 texts) <> []).
  { clear - Hsome. generalize 1%Z.
    induction Hsome as [text texts Htext|text texts _ IH]; intros n;
      cbn [enumerate List.filter].
    - unfold has_text. cbn [snd]. destruct (strip text); [congruence|].
      discriminate.
    - destruct (has_text (n, text)); [discriminate|apply IH]. }
  destruct (List.map (page_document (path_name file_path))
              (List.filter has_text (enumerate 1 texts)))
    as [|first others] eqn:Emap.
  { apply map_eq_nil in Emap. congruence. }
  rewrite <- Emap. clear Emap Hne Hdocs.
  do 2 f_equal. rewrite clean_documents_filter.
  generalize (enumerate 1 texts) as pages. intros pages.
  induction pages as [|[n text] pages IH]; [reflexivity|].
  cbn [List.filter]. unfold has_text at 1. cbn [snd].
  destruct (strip text) as [|c s] eqn:Hstrip.
  - rewrite (CleanMore.clean_text_blank text Hstrip). cbn [length Nat.ltb].
    exact IH.
  - cbn [List.map List.filter page_document content snd fst].
    destruct (50 <? length (clean_text text)); [|exact IH].
    cbn [List.map raw_metadata content snd fst page_document].
    now rewrite <- IH.
Qed.

Lemma pdf_processing_witness :
  process_documents Samples.missing_file
    (fun _ => Ok (List.map Ok [py "   "; List.repeat 120%N 60; py "short"]))
    (fun p => p) (fun _ => py ".pdf") Samples.whole_documents
    (py "notes.pdf")
  = Ok [ {| page_content := List.repeat 120%N 60;
            metadata := [ (py "source", MStr (py "notes.pdf"));
                          (py "page", MInt 2);
                          (py "type", MStr (py "pdf")) ] |} ].
Proof.
  rewrite (pdf_processing Samples.missing_file
             (fun _ => Ok (List.map Ok
                             [py "   "; List.repeat 120%N 60; py "short"]))
             (fun p => p) (fun _ => py ".pdf") Samples.whole_documents
             (py "notes.pdf")
             [py "   "; List.repeat 120%N 60; py "short"]
             eq_refl eq_refl).
  - reflexivity.
  - apply Exists_cons_tl, Exists_cons_hd. discriminate.
Defined.

(* ===================================================================== *)
(** ** The endpoints: status codes *)
(* ===================================================================== *)

(** X14. With documents loaded, [POST /quiz/generate] answers with a quiz
    or with the status 500, nothing else.  A quiz that is sent has no
    "error" entry, a list under "questions" and the quiz metadata.  Every
    error dictionary of [generate_quiz] becomes the status 500 with the
    error text as detail; so an empty retrieval, which the other
    endpoints answer with a sentinel text, is the status 500 here.  An
    exception of the vector store is the status 500 too.  A reply of the
    model that parses to a dictionary with an "error" entry is refused
    with the status 500, even when it holds a list of questions: the
    detail is the value of that entry, and "Internal Server Error" when
    the value is null.  Without documents the answer is the status 400,
    and neither the store nor the model is called. *)
Theorem quiz_endpoint_replies (store : Type)
  (similarity_search : store -> pystr -> Z -> result (list Document))
  (quiz_llm_invoke : pystr -> result pystr)
  (json_loads : pystr -> result json)
  (type_error_text : json -> pystr)
  (gen : Api.QuizGenerator store)
  (topic difficulty : pystr) (num_questions : Z) :
  let search := similarity_search (Api.quiz_vector_store gen) in
  let reply :=
    fst (Api.generate_quiz similarity_search quiz_llm_invoke json_loads
           type_error_text (Some gen) topic num_questions difficulty []) in
  ((exists quiz items,
      reply = Api.Returned quiz
      /\ dict_get (py "error") quiz = None
      /\ dict_get (py "questions") quiz = Some (JList items)
      /\ is_Some (dict_get (py "metadata") quiz))
   \/ (exists detail, reply = Api.HTTPException 500 detail /\ detail <> JNull))
  /\ (forall e, search topic 15%Z = Raise e ->
        reply = Api.HTTPException 500
                  (JStr (py "Quiz generation failed: " ++ exn_msg e)))
  /\ (search topic 15%Z = Ok [] ->
      reply = Api.HTTPException 500
                (JStr (py "No relevant content found for quiz generation")))
  /\ (forall quiz log msg,
        run (generate_quiz search quiz_llm_invoke json_loads type_error_text
               topic num_questions difficulty 15) = (Ok quiz, log) ->
        dict_get (py "error") quiz = Some (JStr msg) ->
        reply = Api.HTTPException 500 (JStr msg))
  /\ (forall doc docs raw candidate d items detail,
        search topic 15%Z = Ok (doc :: docs) ->
        quiz_llm_invoke
          (QUIZ_GENERATION_PROMPT num_questions (quiz_context (doc :: docs))
             difficulty) = Ok raw ->
        _extract_json raw = Ok candidate ->
        json_loads candidate = Ok (JDict d) ->
        dict_get (py "questions") d = Some (JList items) ->
        dict_get (py "error") d = Some detail ->
        (detail <> JNull -> reply = Api.HTTPException 500 detail)
        /\ (detail = JNull ->
            reply = Api.HTTPException 500
                      (JStr (py "Internal Server Error"))))
  /\ Api.generate_quiz similarity_search quiz_llm_invoke json_loads
       type_error_text None topic num_questions difficulty []
     = (Api.no_documents, []).
Proof.
  intros search reply. unfold reply, Api.generate_quiz. fold search.
  fold (run (generate_quiz search quiz_llm_invoke json_loads type_error_text
               topic num_questions difficulty 15)).
  assert (Hdetail : forall detail : json,
            exists shown,
              @Api.server_error dict detail = Api.HTTPException 500 shown
              /\ shown <> JNull).
  { intros detail. unfold Api.server_error.
    destruct detail; eexists; (split; [reflexivity|discriminate]). }
  split; [|split; [|split; [|split; [|split]]]].
  - destruct (search topic 15%Z) as [[|doc docs]|e] eqn:Hs.
    + rewrite (QuizOutcomes.generate_quiz_nothing_found _ _ _ _ _ _ _ _ Hs).
      right. eexists. split; [reflexivity|discriminate].
    + destruct (QuizOutcomes.generate_quiz_answered search quiz_llm_invoke
                  json_loads type_error_text topic difficulty num_questions
                  15%Z doc docs Hs)
        as (res & items & -> & Hq & [(_ & [msg Herr] & _)|Hok]).
      * rewrite Herr. right. eexists. split; [reflexivity|discriminate].
      * destruct Hok as (raw & candidate & d & _ & _ & _ & Hd & Hres).
        destruct (dict_get (py "error") res) as [detail|] eqn:Herr.
        { right. destruct (Hdetail detail) as (shown & E & Hshown).
          exists shown. cbn [fst]. now rewrite E. }
        unfold dict_get_default. rewrite Hq. cbn [len_json fst].
        left. exists res, items. split; [reflexivity|].
        split; [exact Herr|]. split; [exact Hq|].
        rewrite Hres, dict_get_set_eq. eauto.
    + rewrite (QuizOutcomes.generate_quiz_search_raises _ _ _ _ _ _ _ _ _ Hs).
      right. eexists. split; [reflexivity|discriminate].
  - intros e Hs.
    now rewrite (QuizOutcomes.generate_quiz_search_raises _ _ _ _ _ _ _ _ _
                   Hs).
  - intros Hs.
    now rewrite (QuizOutcomes.generate_quiz_nothing_found _ _ _ _ _ _ _ _ Hs).
  - intros quiz log msg Hrun Herr. rewrite Hrun, Herr. reflexivity.
  - intros doc docs raw candidate d items detail Hs Hm He Hl Hq Herr.
    rewrite (QuizOutcomes.generate_quiz_parsed_ok _ _ _ _ _ _ _ _ _ _ _ _ _
               _ Hs Hm He Hl Hq).
    rewrite dict_get_set_ne by discriminate. rewrite Herr. cbn [fst].
    unfold Api.server_error. split.
    + intros Hnull. destruct detail; [congruence|reflexivity..].
    + intros ->. reflexivity.
  - reflexivity.
Qed.

Lemma quiz_endpoint_replies_witness :
  let refusal : pystr -> result json :=
    fun _ => Ok (JDict [ (py "error", JNull); (py "questions", JList []) ]) in
  fst (Api.generate_quiz (fun (_ : unit) _ _ => Ok [])
         (Samples.model_of (py "unused")) Samples.loads_sample
         Samples.no_type_error (Some (Api.Build_QuizGenerator tt))
         (py "entropy") 3 (py "easy") [])
  = Api.HTTPException 500
      (JStr (py "No relevant content found for quiz generation"))
  /\ fst (Api.generate_quiz
            (fun (_ : unit) _ _ => Ok [Samples.first_chunk])
            (Samples.model_of Samples.questions_text) refusal
            Samples.no_type_error (Some (Api.Build_QuizGenerator tt))
            (py "entropy") 3 (py "easy") [])
     = Api.HTTPException 500 (JStr (py "Internal Server Error")).
Proof.
  intros refusal. split.
  - apply (proj1 (proj2 (proj2 (quiz_endpoint_replies unit
                                  (fun _ _ _ => Ok [])
                                  (Samples.model_of (py "unused"))
                                  Samples.loads_sample Samples.no_type_error
                                  (Api.Build_QuizGenerator tt)
                                  (py "entropy") (py "easy") 3)))).
    reflexivity.
  - destruct (quiz_endpoint_replies unit
                (fun _ _ _ => Ok [Samples.first_chunk])
                (Samples.model_of Samples.questions_text) refusal
                Samples.no_type_error (Api.Build_QuizGenerator tt)
                (py "entropy") (py "easy") 3)
      as (_ & _ & _ & _ & H & _).
    apply (H Samples.first_chunk [] Samples.questions_text
             Samples.questions_text
             [ (py "error", JNull); (py "questions", JList []) ] [] JNull
             eq_refl eq_refl eq_refl eq_refl eq_refl eq_refl).
    reflexivity.
Defined.

(** X15. [POST /ask], [POST /summarize] and [POST /definitions]: without
    documents each answers with the status 400 and calls neither the store
    nor the model; with documents, an empty retrieval is answered with the
    sentinel text and no source (not with an error status), and every
    exception of the store or of the model becomes the status 500, whose
    detail is the message of the endpoint followed by the text of the
    exception. *)
Theorem rag_endpoint_replies (store : Type)
  (similarity_search : store -> pystr -> Z -> result (list Document))
  (rag_llm_invoke : pystr -> result pystr)
  (rag : Api.RAGSystem store)
  (question summary_type topic : pystr) (query : option pystr) (k : Z) :
  let search := similarity_search (Api.rag_vector_store rag) in
  let ask_endpoint := Api.ask_question similarity_search rag_llm_invoke in
  let summarize_endpoint := Api.summarize similarity_search rag_llm_invoke in
  let definitions_endpoint := Api.get_definitions similarity_search rag_llm_invoke in
  (ask_endpoint None question k [] = (Api.no_documents, [])
   /\ summarize_endpoint None query summary_type k [] = (Api.no_documents, [])
   /\ definitions_endpoint None topic [] = (Api.no_documents, []))
  /\ ((search question k = Ok [] ->
       ask_endpoint (Some rag) question k []
       = (Api.Returned
            {| answer :=
                 py "I couldn't find relevant information in your study materials.";
               sources := [] |},
          [SearchCall question k]))
      /\ (search (summary_query query) k = Ok [] ->
          summarize_endpoint (Some rag) query summary_type k []
          = (Api.Returned {| summary := py "No content found to summarize.";
                             summary_sources := [] |},
             [SearchCall (summary_query query) k]))
      /\ (search topic 10%Z = Ok [] ->
          definitions_endpoint (Some rag) topic []
          = (Api.Returned {| definitions := py "No definitions found.";
                             definitions_sources := [] |},
             [SearchCall topic 10])))
  /\ (forall e log,
        (run (ask_question search rag_llm_invoke question k)
         = (Raise e, log) ->
         ask_endpoint (Some rag) question k []
         = (Api.HTTPException 500
              (JStr (py "Question answering failed: " ++ exn_msg e)), log))
        /\ (run (summarize search rag_llm_invoke query summary_type k)
            = (Raise e, log) ->
            summarize_endpoint (Some rag) query summary_type k []
            = (Api.HTTPException 500
                 (JStr (py "Summarization failed: " ++ exn_msg e)), log))
        /\ (run (extract_definitions search rag_llm_invoke topic 10)
            = (Raise e, log) ->
            definitions_endpoint (Some rag) topic []
            = (Api.HTTPException 500
                 (JStr (py "Definition extraction failed: " ++ exn_msg e)),
               log))).
Proof.
  intros search ask_endpoint summarize_endpoint definitions_endpoint.
  split; [repeat split|]. split.
  - unfold ask_endpoint, summarize_endpoint, definitions_endpoint,
      Api.ask_question, Api.summarize, Api.get_definitions, Api.guarded.
    fold search. split; [|split]; intros Hs.
    + fold (run (ask_question search rag_llm_invoke question k)).
      unfold ask_question.
      now rewrite (RagFacts.run_search_bind _ _ _ _ _ Hs).
    + fold (run (summarize search rag_llm_invoke query summary_type k)).
      now rewrite (RagFacts.summarize_search _ _ _ _ _ _ Hs).
    + fold (run (extract_definitions search rag_llm_invoke topic 10)).
      unfold extract_definitions.
      now rewrite (RagFacts.run_search_bind _ _ _ _ _ Hs).
  - intros e log.
    unfold ask_endpoint, summarize_endpoint, definitions_endpoint,
      Api.ask_question, Api.summarize, Api.get_definitions, Api.guarded.
    fold search. unfold run.
    split; [|split]; intros H; now rewrite H.
Qed.

Lemma rag_endpoint_replies_witness :
  let empty_store : unit -> pystr -> Z -> result (list Document) :=
    fun _ _ _ => Ok [] in
  let broken_store : unit -> pystr -> Z -> result (list Document) :=
    fun _ _ _ => Raise (Exn OtherException (py "collection not found")) in
  let rag := Api.Build_RAGSystem tt in
  fst (Api.ask_question empty_store (Samples.model_of (py "unused"))
         (Some rag) (py "What is entropy?") 5 [])
  = Api.Returned
      {| answer :=
           py "I couldn't find relevant information in your study materials.";
         sources := [] |}
  /\ fst (Api.ask_question broken_store (Samples.model_of (py "unused"))
            (Some rag) (py "What is entropy?") 5 [])
     = Api.HTTPException 500
         (JStr (py "Question answering failed: collection not found")).
Proof.
  intros empty_store broken_store rag. split.
  - destruct (rag_endpoint_replies unit empty_store
                (Samples.model_of (py "unused")) rag
                (py "What is entropy?") (py "short") (py "terms") None 5)
      as (_ & (H & _) & _).
    now rewrite H.
  - destruct (rag_endpoint_replies unit broken_store
                (Samples.model_of (py "unused")) rag
                (py "What is entropy?") (py "short") (py "terms") None 5)
      as (_ & _ & H).
    destruct (H (Exn OtherException (py "collection not found"))
                [SearchCall (py "What is entropy?") 5]) as (H1 & _).
    now rewrite H1.
Defined.

(** X16. [POST /quiz/grade] answers with the status 400 until a document
    has been uploaded, although grading reads neither the documents nor
    the model.  After that it answers with the report of [grade_quiz] when
    every question has a string or nothing as "correct_answer", and with
    the status 500 when a question has another value there; the detail
    names the type of that value. *)
Theorem grade_endpoint_replies (store : Type) (upper : pystr -> pystr)
  (gen : Api.QuizGenerator store)
  (questions : list dict) (user_answers : gmap Z pystr) :
  Api.grade_quiz upper (None : option (Api.QuizGenerator store)) questions
    user_answers
  = Api.HTTPException 400
      (JStr (py "No documents uploaded yet. Please upload documents first."))
  /\ (Forall has_key questions ->
      exists report,
        grade_quiz upper questions user_answers = Ok report
        /\ Api.grade_quiz upper (Some gen) questions user_answers
           = Api.Returned report)
  /\ (forall readable malformed rest v,
        questions = readable ++ malformed :: rest ->
        Forall has_key readable ->
        dict_get (py "correct_answer") malformed = Some v ->
        (forall s, v <> JStr s) ->
        Api.grade_quiz upper (Some gen) questions user_answers
        = Api.HTTPException 500
            (JStr (py "Quiz grading failed: '" ++ type_name v
                   ++ py "' object has no attribute 'upper'")))
  /\ (forall status detail,
        Api.grade_quiz upper (Some gen) questions user_answers
        = Api.HTTPException status detail ->
        status = 500%Z /\ ~ Forall has_key questions).
Proof.
  split; [reflexivity|]. unfold Api.grade_quiz. split; [|split].
  - intros Hk.
    destruct (GradeFacts.grade_quiz_ok upper user_answers questions Hk)
      as (r & Hr & _).
    exists r. split; [exact Hr|]. now rewrite Hr.
  - intros readable malformed rest v -> Hk Hv Hns.
    rewrite (GradeLoop.grade_quiz_first_malformed upper readable malformed
               rest v user_answers Hk Hv Hns).
    reflexivity.
  - intros status detail.
    destruct (grade_quiz upper questions user_answers) as [r|e] eqn:Hg;
      [discriminate|].
    intros [= <- _]. split; [reflexivity|].
    exact (proj2 (GradeFacts.grade_quiz_raise _ _ _ _ Hg)).
Qed.

Lemma grade_endpoint_replies_witness :
  exists report,
    grade_quiz ascii_upper Samples.three_questions Samples.two_answers
    = Ok report
    /\ Api.grade_quiz ascii_upper (Some (Api.Build_QuizGenerator tt))
         Samples.three_questions Samples.two_answers
       = Api.Returned report.
Proof.
  apply (proj1 (proj2 (grade_endpoint_replies unit ascii_upper
                         (Api.Build_QuizGenerator tt)
                         Samples.three_questions Samples.two_answers))).
  repeat constructor; eexists; reflexivity.
Defined.

(* ===================================================================== *)
(** ** Vector stores on disk, upload and reset *)
(* ===================================================================== *)

(** X17. [create_vector_store] refuses an empty list of documents with
    the error "No documents to index" before it touches the disk, and
    [load_vector_store] raises [FileNotFoundError] when the directory of
    the store does not exist.  [add_documents_to_existing_store] falls
    back on them: when the directory does not exist it does exactly what
    [create_vector_store] does, so adding no document to a missing store
    raises "No documents to index"; when the store exists and can be
    opened, the documents are added to it and it is returned, an
    exception of the adding other than [FileNotFoundError] is passed on,
    and a [FileNotFoundError] of the adding makes it create the store. *)
Theorem add_documents_falls_back (W store : Type)
  (path_join : pystr -> pystr -> pystr)
  (path_exists : pystr -> W -> bool)
  (makedirs : pystr -> IO W unit)
  (from_documents : list Document -> pystr -> pystr -> IO W store)
  (chroma : pystr -> pystr -> IO W store)
  (add_documents : store -> list Document -> IO W unit)
  (dump_json : pystr -> json -> IO W unit)
  (vector_store_path store_name : pystr)
  (documents : list Document) (w : W) :
  let store_path := path_join vector_store_path store_name in
  let create :=
    create_vector_store path_join makedirs from_documents dump_json
      vector_store_path in
  let load :=
    load_vector_store path_join path_exists chroma vector_store_path in
  let add :=
    add_documents_to_existing_store path_join path_exists makedirs
      from_documents chroma add_documents dump_json vector_store_path in
  let no_documents :=
    Raises (Builtin (Exn ValueError (py "No documents to index"))) in
  create [] store_name w = (no_documents, w)
  /\ (path_exists store_path w = false ->
      load store_name w
      = (Raises (FileNotFoundError
                   (py "Vector store not found at " ++ store_path)), w)
      /\ add documents store_name w = create documents store_name w
      /\ add [] store_name w = (no_documents, w))
  /\ (forall vs w1,
        path_exists store_path w = true ->
        chroma store_path store_name w = (Returns vs, w1) ->
        (forall done w2,
           add_documents vs documents w1 = (Returns done, w2) ->
           add documents store_name w = (Returns vs, w2))
        /\ (forall e w2,
              add_documents vs documents w1 = (Raises (Builtin e), w2) ->
              add documents store_name w = (Raises (Builtin e), w2))
        /\ (forall message w2,
              add_documents vs documents w1
              = (Raises (FileNotFoundError message), w2) ->
              add documents store_name w = create documents store_name w2)).
Proof.
  intros store_path create load add no_documents.
  split; [reflexivity|]. split.
  - intros Hmissing.
    assert (Hload : load store_name w
                    = (Raises (FileNotFoundError
                                 (py "Vector store not found at "
                                  ++ store_path)), w)).
    { unfold load, load_vector_store. fold store_path. now rewrite Hmissing. }
    assert (Hadd : forall docs, add docs store_name w = create docs store_name w).
    { intros docs. unfold add, add_documents_to_existing_store, io_bind.
      fold load. now rewrite Hload. }
    split; [exact Hload|]. split; [apply Hadd|]. now rewrite Hadd.
  - intros vs w1 Hexists Hopen.
    assert (Hload : load store_name w = (Returns vs, w1)).
    { unfold load, load_vector_store. fold store_path.
      now rewrite Hexists. }
    unfold add, add_documents_to_existing_store, io_bind. fold load.
    rewrite Hload. split; [|split].
    + intros done w2 Hadd. now rewrite Hadd.
    + intros e w2 Hadd. now rewrite Hadd.
    + intros message w2 Hadd. now rewrite Hadd.
Qed.

Lemma add_documents_falls_back_witness :
  let nothing : pystr -> IO unit unit := fun _ w => (Returns tt, w) in
  let open : pystr -> pystr -> IO unit unit := fun _ _ w => (Returns tt, w) in
  add_documents_to_existing_store (fun a b => a ++ py "/" ++ b)
    (fun _ _ => false) nothing (fun _ _ _ w => (Returns tt, w)) open
    (fun _ _ w => (Returns tt, w)) (fun _ _ w => (Returns tt, w))
    (py "data/vector_store") [] (py "study_materials") tt
  = (Raises (Builtin (Exn ValueError (py "No documents to index"))), tt).
Proof.
  intros nothing open.
  apply (proj2 (proj2 (proj1 (proj2
           (add_documents_falls_back unit unit (fun a b => a ++ py "/" ++ b)
              (fun _ _ => false) nothing (fun _ _ _ w => (Returns tt, w))
              open (fun _ _ w => (Returns tt, w))
              (fun _ _ w => (Returns tt, w))
              (py "data/vector_store") (py "study_materials") [] tt))
           eq_refl))).
Defined.

Section UploadAndReset.

Variable W : Type.
Variable store : Type.
Variable path_join : pystr -> pystr -> pystr.
Variable path_name : pystr -> pystr.
Variable path_suffix_lower : pystr -> pystr.
Variable UPLOAD_DIR : pystr.
Variable parent_dir : pystr.
Variable save_upload : pystr -> list Byte.byte -> IO W unit.
Variable read_text : W -> pystr -> result pystr.
Variable pdf_pages : W -> pystr -> result (list (result pystr)).
Variable split_documents : list Document -> list Document.
Variable listdir : pystr -> W -> outcome (list pystr).
Variable isfile : pystr -> W -> bool.
Variable remove : pystr -> IO W unit.
Variable rmtree : pystr -> IO W unit.
Variable path_exists : pystr -> W -> bool.
Variable makedirs : pystr -> IO W unit.
Variable from_documents : list Document -> pystr -> pystr -> IO W store.
Variable chroma : pystr -> pystr -> IO W store.
Variable add_documents : store -> list Document -> IO W unit.
Variable dump_json : pystr -> json -> IO W unit.

(** X18. [POST /upload] answers with the status 400 exactly when the
    lower-cased extension of the file name is neither '.pdf' nor '.txt',
    and then nothing is written and nothing changes.  Every other failure
    is the status 500: of the saving, of the processing (a file without
    content gives "Upload failed: No content extracted from document"),
    of an empty list of chunks, of the vector store.  A failed upload
    leaves the three globals as they were.  A successful upload reports
    the number of chunks, which is at least one, and sets the three
    globals to the new vector store and to a [RAGSystem] and a
    [QuizGenerator] built on it.  (Building these two objects is taken
    not to raise.) *)
Theorem upload_replies (upload : Api.UploadFile) (g : Api.Globals store)
  (w : W) :
  let result :=
    Api.upload_document path_join path_name path_suffix_lower UPLOAD_DIR
      save_upload read_text pdf_pages split_documents path_exists makedirs
      from_documents chroma add_documents dump_json upload g w in
  let reply := fst (fst result) in
  let globals := snd (fst result) in
  let extension := path_suffix_lower (Api.filename upload) in
  let supported := extension = py ".pdf" \/ extension = py ".txt" in
  let file_path := path_join UPLOAD_DIR (Api.filename upload) in
  (~ supported ->
   result
   = (Api.HTTPException 400
        (JStr (py "Unsupported file type: " ++ extension
               ++ py ". Only .pdf and .txt are supported.")), g, w))
  /\ (forall status detail,
        reply = Api.HTTPException status detail ->
        globals = g
        /\ ((status = 400%Z /\ ~ supported)
            \/ (status = 500%Z /\ supported)))
  /\ (forall done w1 e,
        supported ->
        save_upload file_path (Api.file upload) w = (Returns done, w1) ->
        process_documents (read_text w1) (pdf_pages w1) path_name
          path_suffix_lower split_documents file_path = Raise e ->
        result
        = (Api.HTTPException 500
             (JStr (py "Upload failed: " ++ exn_msg e)), g, w1))
  /\ (forall body,
        reply = Api.Returned body ->
        supported
        /\ exists new_store chunks_created,
             globals
             = {| Api.vector_store := Some new_store;
                  Api.rag_system := Some (Api.Build_RAGSystem new_store);
                  Api.quiz_generator :=
                    Some (Api.Build_QuizGenerator new_store) |}
             /\ (1 <= chunks_created)%Z
             /\ body
                = [ (py "message",
                     JStr (py "Document uploaded and processed successfully"));
                    (py "filename", JStr (Api.filename upload));
                    (py "chunks_created", JInt chunks_created);
                    (py "status", JStr (py "success")) ]).
Proof.
  clear listdir isfile remove rmtree parent_dir.
  intros result reply globals extension supported file_path.
  unfold reply, globals, result, Api.upload_document.
  fold extension. fold file_path.
  destruct (bool_decide (extension = py ".pdf")
            || bool_decide (extension = py ".txt")) eqn:Hext.
  - assert (Hs : supported).
    { apply orb_true_iff in Hext as [H|H]; apply bool_decide_eq_true in H;
        [now left|now right]. }
    split; [tauto|].
    destruct (save_upload file_path (Api.file upload) w) as [[done|e] w1].
    + destruct (process_documents _ _ _ _ _ _) as [[|chunk more]|e] eqn:Hp.
      * split; [intros status detail [= <- _]; auto|].
        split; [intros done' w1' e _ [= _ <-] He; congruence|discriminate].
      * destruct (Api.create_or_update _ _ _ _ _ _ _ _ _ _)
          as [[new_store|e] w2].
        -- split; [discriminate|].
           split; [intros done' w1' e' _ [= _ <-] He; congruence|].
           intros body [= <-]. split; [exact Hs|].
           eexists new_store, _. split; [reflexivity|].
           split; [|reflexivity]. cbn [length]. lia.
        -- split; [intros status detail [= <- _]; auto|].
           split; [intros done' w1' e' _ [= _ <-] He; congruence|].
           discriminate.
      * split; [intros status detail [= <- _]; auto|].
        split; [|discriminate].
        intros done' w1' e' _ [= _ <-] He. rewrite Hp in He.
        now injection He as <-.
    + split; [intros status detail [= <- _]; auto|].
      split; [intros done' w1' e' _ H; discriminate H|discriminate].
  - assert (Hs : ~ supported).
    { apply orb_false_iff in Hext as [H1 H2].
      apply bool_decide_eq_false in H1, H2. unfold supported. tauto. }
    split; [reflexivity|].
    split; [intros status detail [= <- _]; auto|].
    split; [tauto|discriminate].
Qed.

(** X19. The three globals of the module hold nothing, or one vector
    store together with a [RAGSystem] and a [QuizGenerator] built on it:
    this holds when the module is loaded, and every request to
    [POST /upload] and to [DELETE /reset] keeps it, whether the request
    succeeds or fails.  A reset that succeeds empties the globals; a reset
    that fails has the status 500 and leaves them.  Hence the flag
    "documents_loaded" of [GET /] is false exactly when the endpoints for
    questions and quizzes answer with the status 400. *)
Theorem globals_stay_consistent (upload : Api.UploadFile)
  (g : Api.Globals store) (w : W) :
  let uploaded :=
    Api.upload_document path_join path_name path_suffix_lower UPLOAD_DIR
      save_upload read_text pdf_pages split_documents path_exists makedirs
      from_documents chroma add_documents dump_json upload g w in
  let cleared :=
    Api.reset_system path_join UPLOAD_DIR parent_dir listdir isfile remove
      rmtree path_exists g w in
  Api.consistent (Api.no_globals : Api.Globals store)
  /\ (Api.consistent g -> Api.consistent (snd (fst uploaded)))
  /\ (Api.consistent g -> Api.consistent (snd (fst cleared)))
  /\ (forall body, fst (fst cleared) = Api.Returned body ->
        snd (fst cleared) = Api.no_globals)
  /\ (forall status detail,
        fst (fst cleared) = Api.HTTPException status detail ->
        status = 500%Z /\ snd (fst cleared) = g)
  /\ (Api.consistent g ->
      (dict_get (py "documents_loaded") (Api.root g) = Some (JBool false)
       <-> Api.rag_system g = None /\ Api.quiz_generator g = None)
      /\ (dict_get (py "documents_loaded") (Api.root g) = Some (JBool true)
          <-> exists vs,
                Api.rag_system g = Some (Api.Build_RAGSystem vs)
                /\ Api.quiz_generator g = Some (Api.Build_QuizGenerator vs))).
Proof.
  intros uploaded cleared.
  split; [now left|]. split; [|split; [|split; [|split]]].
  - intros Hg. unfold uploaded, Api.upload_document.
    destruct (_ || _); [|exact Hg].
    destruct (save_upload _ _ _) as [[done|e] w1]; [|exact Hg].
    destruct (process_documents _ _ _ _ _ _) as [[|chunk more]|e];
      [exact Hg| |exact Hg].
    destruct (Api.create_or_update _ _ _ _ _ _ _ _ _ _)
      as [[new_store|e] w2]; [|exact Hg].
    right. eexists. reflexivity.
  - intros Hg. unfold cleared, Api.reset_system.
    destruct (io_bind _ _ _) as [[done|e] w1]; [now left|exact Hg].
  - intros body. unfold cleared, Api.reset_system.
    destruct (io_bind _ _ _) as [[done|e] w1]; [reflexivity|discriminate].
  - intros status detail. unfold cleared, Api.reset_system.
    destruct (io_bind _ _ _) as [[done|e] w1]; [discriminate|].
    intros [= <- _]. auto.
  - intros Hg.
    assert (Hflag : dict_get (py "documents_loaded") (Api.root g)
                    = Some (JBool match Api.vector_store g with
                                  | Some _ => true
                                  | None => false
                                  end)) by reflexivity.
    rewrite Hflag. clear Hflag.
    destruct Hg as [->|[vs ->]];
      cbn [Api.vector_store Api.rag_system Api.quiz_generator
           Api.no_globals].
    + split; split; try tauto; try discriminate.
      intros (vs & H & _). discriminate H.
    + split; split.
      * discriminate.
      * intros [H _]. discriminate H.
      * intros _. eauto.
      * reflexivity.
Qed.

End UploadAndReset.

Lemma upload_replies_witness :
  let world := list pystr in
  let save : pystr -> list Byte.byte -> IO world unit :=
    fun path _ w => (Returns tt, path :: w) in
  let nothing : pystr -> IO world unit := fun _ w => (Returns tt, w) in
  let open : pystr -> pystr -> IO world unit := fun _ _ w => (Returns tt, w) in
  Api.upload_document (fun a b => a ++ py "/" ++ b) (fun p => p)
    (fun _ => py ".docx") (py "uploads") save
    (fun _ _ => Ok []) (fun _ _ => Ok []) (fun docs => docs)
    (fun _ _ => true) nothing (fun _ _ _ w => (Returns tt, w)) open
    (fun _ _ w => (Returns tt, w)) (fun _ _ w => (Returns tt, w))
    {| Api.filename := py "notes.docx"; Api.file := [] |}
    Api.no_globals []
  = (Api.HTTPException 400
       (JStr (py "Unsupported file type: .docx. Only .pdf and .txt are supported.")),
     Api.no_globals, []).
Proof.
  intros world save nothing open.
  apply (proj1 (upload_replies world unit (fun a b => a ++ py "/" ++ b)
                  (fun p => p) (fun _ => py ".docx") (py "uploads") save
                  (fun _ _ => Ok []) (fun _ _ => Ok []) (fun docs => docs)
                  (fun _ _ => true) nothing (fun _ _ _ w => (Returns tt, w))
                  open (fun _ _ w => (Returns tt, w))
                  (fun _ _ w => (Returns tt, w))
                  {| Api.filename := py "notes.docx"; Api.file := [] |}
                  Api.no_globals [])).
  intros [H|H]; discriminate H.
Defined.

Lemma globals_stay_consistent_witness :
  let world := list pystr in
  let save : pystr -> list Byte.byte -> IO world unit :=
    fun path _ w => (Returns tt, path :: w) in
  let nothing : pystr -> IO world unit := fun _ w => (Returns tt, w) in
  let open : pystr -> pystr -> IO world unit := fun _ _ w => (Returns tt, w) in
  let uploaded :=
    Api.upload_document (fun a b => a ++ py "/" ++ b) (fun p => p)
      (fun _ => py ".txt") (py "uploads") save
      (fun _ _ => Ok (List.repeat 120%N 60)) (fun _ _ => Ok [])
      (fun docs => docs) (fun _ _ => true) nothing
      (fun _ _ _ w => (Returns tt, w)) open
      (fun _ _ w => (Returns tt, w)) (fun _ _ w => (Returns tt, w))
      {| Api.filename := py "notes.txt"; Api.file := [] |}
      Api.no_globals [] in
  Api.consistent (snd (fst uploaded))
  /\ dict_get (py "chunks_created")
       match fst (fst uploaded) with
       | Api.Returned body => body
       | Api.HTTPException _ _ => []
       end = Some (JInt 1).
Proof.
  intros world save nothing open uploaded. split; [|reflexivity].
  apply (proj1 (proj2 (globals_stay_consistent world unit
                         (fun a b => a ++ py "/" ++ b) (fun p => p)
                         (fun _ => py ".txt") (py "uploads") (py "app") save
                         (fun _ _ => Ok (List.repeat 120%N 60))
                         (fun _ _ => Ok []) (fun docs => docs)
                         (fun _ _ => Returns []) (fun _ _ => false)
                         nothing nothing (fun _ _ => true) nothing
                         (fun _ _ _ w => (Returns tt, w)) open
                         (fun _ _ w => (Returns tt, w))
                         (fun _ _ w => (Returns tt, w))
                         {| Api.filename := py "notes.txt"; Api.file := [] |}
                         Api.no_globals []))).
  now left.
Defined.
